(** * gemini-cli: the market-order sweep of [commands.go]

    A shallow embedding of the order-placing code of the command-line client
    (package [main]): the [market] command of [commands.go] in its
    urfave/cli form, the helpers [getFeeRatio], [getOrderBookEntry] and
    [round], and the flags of the command table; followed by theorems about
    them.

    Numbers.  The Go code computes on [float64].  Amounts, prices and fee
    ratios are embedded as exact rationals [Q]: every arithmetic operation is
    the exact one, so binary rounding error, infinities and NaN are outside
    the model (a division by a price of zero, in particular), and equalities
    between amounts are stated with [==].  Go's [int] is embedded as [Z];
    the conversion [int(x)] of a [float64] truncates toward zero and is only
    specified by the language inside the 64-bit range.

    Effects.  The exchange client [g] is a parameter: its calls take the
    state of the outside world and return an answer and the next state.  The
    calls, their answers and everything printed are recorded, in order, in a
    trace. *)

From Stdlib Require Import ZArith QArith Qround Lia Lqa Bool List Ascii String.
From stdpp Require Import base gmap strings.
Import ListNotations.

Local Open Scope Z_scope.
Local Open Scope Q_scope.

(** ** Go numerics *)

Module GoNum.

Definition minInt64 : Z := (- 2 ^ 63)%Z.
Definition maxInt64 : Z := (2 ^ 63 - 1)%Z.

(** [retries++] on a Go [int]: two's complement wrap-around. *)
Definition wrapInt64 (z : Z) : Z :=
  ((z + 2 ^ 63) mod 2 ^ 64 - 2 ^ 63)%Z.

(** Truncation toward zero of a rational. *)
Definition Qtrunc (x : Q) : Z := Z.quot (Qnum x) (Z.pos (Qden x)).

(** [int(x)] for a [float64] [x]: the fractional part is discarded.  For a
    value outside the range of [int] the Go specification leaves the result
    to the implementation; the amd64 compiler emits CVTTSD2SQ, which then
    yields the most negative integer. *)
Definition int (x : Q) : Z :=
  let t := Qtrunc x in
  if ((minInt64 <=? t) && (t <=? maxInt64))%Z then t else minInt64.

(** [float64(n)] for an integer [n]. *)
Definition float64 (n : Z) : Q := inject_Z n.

(** Comparisons of the Go source, as booleans. *)
Definition ltb (x y : Q) : bool :=
  match x ?= y with Lt => true | _ => false end.
Definition leb (x y : Q) : bool :=
  match x ?= y with Gt => false | _ => true end.

End GoNum.

Import GoNum.

Infix "<?" := GoNum.ltb (at level 70, no associativity) : Q_scope.
Infix "<=?" := GoNum.leb (at level 70, no associativity) : Q_scope.

(** ** helpers.go *)

(**
<<
func getFeeRatio(bps int) float64 {
	return float64(bps) / 10000
}
>> *)
Definition getFeeRatio (bps : Z) : Q := float64 bps / 10000.

(** The loop [for i := 0; i < decimals; i++ { pow *= 10 }] of [round],
    entered with [n] iterations left. *)
Fixpoint powLoop (n : nat) (pow : Q) : Q :=
  match n with
  | O => pow
  | S n' => powLoop n' (pow * 10)
  end.

(**
<<
func round(v float64, decimals int) float64 {
	var pow float64 = 1
	for i := 0; i < decimals; i++ {
		pow *= 10
	}
	return float64(int((v*pow)+0.5)) / pow
}
>> *)
Definition round (v : Q) (decimals : Z) : Q :=
  let pow := powLoop (Z.to_nat decimals) 1 in
  float64 (int ((v * pow) + 0.5)) / pow.

(** ** Data of the exchange client (package [gemini]) *)

(** A Go [error] built by [errors.New]: its message. *)
Definition error : Type := string.

Record BookEntry : Type := mkBookEntry {
  Price : Q;
  Amount : Q
}.

Record Book : Type := mkBook {
  Bids : list BookEntry;
  Asks : list BookEntry
}.

(** The fields of [gemini.Order] that the client reads ([printOrder] and the
    fill accounting of [market]). *)
Record Order : Type := mkOrder {
  OrderId : string;
  Symbol : string;
  Side : string;
  OrderPrice : Q;
  OriginalAmount : Q;
  ExecutedAmount : Q;
  RemainingAmount : Q;
  AvgExecutionPrice : Q;
  IsLive : bool;
  IsCancelled : bool
}.

(** ** main.go: constants *)

Definition ERROR_INVALID_AMOUNT : error := "Amount or Base Amount must be above 0".
Definition ERROR_MAX_RETRIES : error := "Max retries".
Definition ERROR_NO_ASKS : error := "No asks in book".
Definition ERROR_NO_BIDS : error := "No bids in book".

Definition RETRIES_MAX : Z := 50.

(** ** The command-line context (package [urfave/cli])

    The library is not part of the repository.  What the commands use of it
    is embedded here: a command's flags are registered in a flag set under
    each of their names, and a typed getter returns the zero value of its
    type for a name that is not in the set.  (The program reads every flag
    at the type it was declared with; a getter applied at another type is
    embedded as the zero value too.) *)

Module cli.

Inductive FlagValue : Type :=
| BoolValue (b : bool)
| Float64Value (x : Q)
| IntValue (n : Z)
| Int64Value (n : Z)
| StringValue (s : string).

(** A flag declaration: [Name] may list several names separated by commas;
    [Value] is the default. *)
Record Flag : Type := mkFlag {
  Name : string;
  Value : FlagValue
}.

Record Context : Type := mkContext {
  flagSet : gmap string FlagValue
}.

Definition Bool (c : Context) (name : string) : bool :=
  match flagSet c !! name with
  | Some (BoolValue b) => b
  | _ => false
  end.

Definition Float64 (c : Context) (name : string) : Q :=
  match flagSet c !! name with
  | Some (Float64Value x) => x
  | _ => 0
  end.

Definition Int (c : Context) (name : string) : Z :=
  match flagSet c !! name with
  | Some (IntValue n) => n
  | _ => 0%Z
  end.

Definition String (c : Context) (name : string) : string :=
  match flagSet c !! name with
  | Some (StringValue s) => s
  | _ => ""
  end.

(** [strings.Split(longName, ",")], on the characters of the name. *)
Fixpoint splitComma (cur : list ascii) (s : list ascii) : list (list ascii) :=
  match s with
  | [] => [rev cur]
  | a :: s' =>
      if Ascii.eqb a ","%char then rev cur :: splitComma [] s'
      else splitComma (a :: cur) s'
  end.

Fixpoint dropSpaces (s : list ascii) : list ascii :=
  match s with
  | a :: s' => if Ascii.eqb a " "%char then dropSpaces s' else s
  | [] => []
  end.

(** [strings.Trim(name, " ")] *)
Definition trim (s : list ascii) : list ascii :=
  rev (dropSpaces (rev (dropSpaces s))).

(** The names under which a flag is registered ([eachName]). *)
Definition names (f : Flag) : list string :=
  map (fun p => string_of_list_ascii (trim p))
      (splitComma [] (list_ascii_of_string (Name f))).

Definition registerAs (v : FlagValue) (ns : list string)
    (fs : gmap string FlagValue) : gmap string FlagValue :=
  foldr (fun n acc => <[n := v]> acc) fs ns.

(** The flag set of a command before the arguments are parsed: every flag
    under each of its names, at its default value. *)
Definition defaults (flags : list Flag) : gmap string FlagValue :=
  foldr (fun f acc => registerAs (Value f) (names f) acc) ∅ flags.

Definition sameKind (v w : FlagValue) : bool :=
  match v, w with
  | BoolValue _, BoolValue _
  | Float64Value _, Float64Value _
  | IntValue _, IntValue _
  | Int64Value _, Int64Value _
  | StringValue _, StringValue _ => true
  | _, _ => false
  end.

(** One parsed argument [--name=v]: the flag that carries [name] takes the
    value [v] under all its names; a name that no flag of the command
    carries is a parse error, and the command's action does not run. *)
Definition set (flags : list Flag) (name : string) (v : FlagValue)
    (fs : gmap string FlagValue) : option (gmap string FlagValue) :=
  match List.find (fun f => bool_decide (name ∈ names f) && sameKind (Value f) v) flags with
  | Some f => Some (registerAs v (names f) fs)
  | None => None
  end.

Fixpoint parse (flags : list Flag) (args : list (string * FlagValue))
    (fs : gmap string FlagValue) : option (gmap string FlagValue) :=
  match args with
  | [] => Some fs
  | (name, v) :: args' =>
      match set flags name v fs with
      | Some fs' => parse flags args' fs'
      | None => None
      end
  end.

(** A name no flag of the list carries. *)
Definition undeclared (flags : list Flag) (n : string) : Prop :=
  Forall (fun f => n ∉ names f) flags.

(** The context handed to a command's action for the parsed arguments. *)
Definition newContext (flags : list Flag) (args : list (string * FlagValue))
    : option Context :=
  match parse flags args (defaults flags) with
  | Some fs => Some (mkContext fs)
  | None => None
  end.

End cli.

(** ** flags.go: the flags of the [market] command *)

Definition amtFlag : cli.Flag := cli.mkFlag "amt, a" (cli.Float64Value 0).
Definition bpsFlag : cli.Flag := cli.mkFlag "bps" (cli.IntValue 25).
Definition baseAmtFlag : cli.Flag := cli.mkFlag "base-amt, A" (cli.Float64Value 0).
Definition jsonFlag : cli.Flag := cli.mkFlag "json, j" (cli.BoolValue false).
Definition mktFlag : cli.Flag := cli.mkFlag "mkt, m" (cli.StringValue "btcusd").
Definition sideFlag : cli.Flag := cli.mkFlag "side, s" (cli.StringValue "buy").

(** [Flags] of the entry [Name: "market"] of [commands]. *)
Definition marketFlags : list cli.Flag :=
  [amtFlag; baseAmtFlag; bpsFlag; jsonFlag; mktFlag; sideFlag].

(** ** The exchange and the terminal

    [g *gemini.Api] is the client of the exchange.  Its two calls used by the
    order commands are taken as parameters: each receives the state of the
    outside world and returns its answer (a value or an error) with the next
    state of the world.  Everything the program does to the outside (the
    calls with their answers, and what it prints) is recorded in a trace. *)

Record Api (World : Type) : Type := mkApi {
  OrderBook : string -> Z -> Z -> World -> (Book + error) * World;
  NewOrder : string -> string -> Q -> Q -> string -> list string -> World
             -> (Order + error) * World
}.
Arguments OrderBook {World} _ _ _ _ _.
Arguments NewOrder {World} _ _ _ _ _ _ _ _.

Inductive Event : Type :=
| CallOrderBook (mkt : string) (limitBids limitAsks : Z) (res : Book + error)
| CallNewOrder (symbol clientOrderId : string) (amount price : Q)
    (side : string) (options : list string) (res : Order + error)
| PrintOrder (order : Order)
| PrintError (err : error)
| Println (line : string)
| PrintJSON (orders : list Order).

Record State (World : Type) : Type := mkState {
  world : World;
  trace : list Event
}.
Arguments mkState {World} _ _.
Arguments world {World} _.
Arguments trace {World} _.

(** The variables of [market] that are assigned in the loop. *)
Record Locals : Type := mkLocals {
  retries : Z;
  executedAmt : Q;
  orders : list Order
}.

(** The variables of [market] that are assigned before the loop and only read
    in it. *)
Record Setup : Type := mkSetup {
  mkt : string;
  side : string;
  decimals : Z;
  minAmt : Q;
  amount : Q;
  baseAmount : Q
}.

(** How one pass through the body of [for { ... }] ends. *)
Inductive Outcome : Type :=
| Return (err : option error)
| Continue.

Section Commands.

Context {World : Type} (g : Api World).

Definition emit (e : Event) (s : State World) : State World :=
  mkState (world s) (trace s ++ [e]).

Definition printError (err : error) (s : State World) : State World :=
  emit (PrintError err) s.

Definition printOrder (order : Order) (s : State World) : State World :=
  emit (PrintOrder order) s.

(** [g.OrderBook(mkt, limitBids, limitAsks)] *)
Definition callOrderBook (mkt : string) (limitBids limitAsks : Z)
    (s : State World) : (Book + error) * State World :=
  let (res, w) := OrderBook g mkt limitBids limitAsks (world s) in
  (res, mkState w (trace s ++ [CallOrderBook mkt limitBids limitAsks res])).

(** [g.NewOrder(symbol, clientOrderId, amount, price, side, options)] *)
Definition callNewOrder (symbol clientOrderId : string) (amount price : Q)
    (side : string) (options : list string) (s : State World)
    : (Order + error) * State World :=
  let (res, w) := NewOrder g symbol clientOrderId amount price side options (world s) in
  (res, mkState w (trace s ++
          [CallNewOrder symbol clientOrderId amount price side options res])).

(**
<<
func getOrderBookEntry(mkt, side string) ( *gemini.BookEntry, error) {
	book, err := g.OrderBook(mkt, 1, 1)
	if err != nil {
		return nil, err
	}
	if side == "buy" {
		if len(book.Asks) < 1 {
			return nil, errors.New(ERROR_NO_ASKS)
		}
		return &book.Asks[0], nil
	}
	if len(book.Bids) < 1 {
		return nil, errors.New(ERROR_NO_BIDS)
	}
	return &book.Bids[0], nil
}
>> *)
Definition getOrderBookEntry (mkt side : string) (s : State World)
    : (BookEntry + error) * State World :=
  match callOrderBook mkt 1 1 s with
  | (inr err, s') => (inr err, s')
  | (inl book, s') =>
      if String.eqb side "buy" then
        match Asks book with
        | [] => (inr ERROR_NO_ASKS, s')
        | entry :: _ => (inl entry, s')
        end
      else
        match Bids book with
        | [] => (inr ERROR_NO_BIDS, s')
        | entry :: _ => (inl entry, s')
        end
  end.

(** *** commands.go: [market] *)

(** [decimals := 8; if mkt != "btcusd" { decimals = 6 }] *)
Definition decimalsOf (mkt : string) : Z :=
  if negb (String.eqb mkt "btcusd") then 6%Z else 8%Z.

(**
<<
	minAmt := 0.000001
	if (mkt == "btcusd" || mkt == "ethusd") && amount > 0 {
		minAmt = 0.01
	}
	if (mkt == "ethbtc" || mkt == "ethusd") && baseAmount > 0 {
		minAmt = 0.0001
	}
>> *)
Definition minAmtOf (mkt : string) (amount baseAmount : Q) : Q :=
  let minAmt := 0.000001 in
  let minAmt :=
    if (String.eqb mkt "btcusd" || String.eqb mkt "ethusd") && (0 <? amount)
    then 0.01 else minAmt in
  let minAmt :=
    if (String.eqb mkt "ethbtc" || String.eqb mkt "ethusd") && (0 <? baseAmount)
    then 0.0001 else minAmt in
  minAmt.

(**
<<
	if side == "buy" {
		amount -= amount * feeRatio
	} else {
		amount += amount * feeRatio
	}
>> *)
Definition feeAdjust (side : string) (amount feeRatio : Q) : Q :=
  if String.eqb side "buy" then amount - amount * feeRatio
  else amount + amount * feeRatio.

(** The prelude of [market], from reading the flags to the fee adjustment. *)
Definition setup (c : cli.Context) : Setup :=
  let amount := cli.Float64 c "amt" in
  let baseAmount := cli.Float64 c "base-amt" in
  let bps := cli.Int c "bps" in
  let mkt := cli.String c "mkt" in
  let side := cli.String c "side" in
  let decimals := decimalsOf mkt in
  let minAmt := minAmtOf mkt amount baseAmount in
  let feeRatio := getFeeRatio bps in
  let amount := feeAdjust side amount feeRatio in
  mkSetup mkt side decimals minAmt amount baseAmount.

(**
<<
		if amount > 0 {
			fillAmount = amount
		} else {
			fillAmount = baseAmount
		}
		if executedAmt > 0 {
			fillAmount = fillAmount - executedAmt
		}
>> *)
Definition target (amount baseAmount : Q) : Q :=
  if 0 <? amount then amount else baseAmount.

Definition fillAmountOf (amount baseAmount executedAmt : Q) : Q :=
  let fillAmount := target amount baseAmount in
  if 0 <? executedAmt then fillAmount - executedAmt else fillAmount.

(**
<<
		if amount > 0 {
			btcAmount = round(fillAmount/bookEntry.Price, decimals)
		} else {
			btcAmount = round(fillAmount, decimals)
		}
>> *)
Definition rawSlice (amount fillAmount : Q) (bookEntry : BookEntry)
    (decimals : Z) : Q :=
  if 0 <? amount then round (fillAmount / Price bookEntry) decimals
  else round fillAmount decimals.

(**
<<
		if bookEntry.Amount < btcAmount {
			btcAmount = round(bookEntry.Amount, decimals)
		}
>> *)
Definition clamp (btcAmount : Q) (bookEntry : BookEntry) (decimals : Z) : Q :=
  if Amount bookEntry <? btcAmount then round (Amount bookEntry) decimals
  else btcAmount.

(** The amount of the order submitted in one pass: [btcAmount] at the call of
    [g.NewOrder]. *)
Definition btcAmountOf (p : Setup) (executedAmt : Q) (bookEntry : BookEntry) : Q :=
  let fillAmount := fillAmountOf (amount p) (baseAmount p) executedAmt in
  clamp (rawSlice (amount p) fillAmount bookEntry (decimals p)) bookEntry (decimals p).

(**
<<
		if amount > 0 {
			executedAmt += order.ExecutedAmount * order.AvgExecutionPrice
		} else {
			executedAmt += order.ExecutedAmount
		}
>> *)
Definition account (amount executedAmt : Q) (order : Order) : Q :=
  if 0 <? amount then executedAmt + ExecutedAmount order * AvgExecutionPrice order
  else executedAmt + ExecutedAmount order.

(** [(amount > 0 && executedAmt >= amount-minAmt) ||
     (baseAmount > 0 && executedAmt >= baseAmount-minAmt)] *)
Definition satisfied (p : Setup) (executedAmt : Q) : bool :=
  ((0 <? amount p) && (amount p - minAmt p <=? executedAmt))
  || ((0 <? baseAmount p) && (baseAmount p - minAmt p <=? executedAmt)).

(** One pass through the body of the loop of [market]:
<<
		if retries == RETRIES_MAX {
			err := errors.New(ERROR_MAX_RETRIES)
			printError(err)
			return err
		}
		var fillAmount, btcAmount float64
		bookEntry, err := getOrderBookEntry(mkt, side)
		if err != nil {
			printError(err)
			return err
		}
		... fillAmount, btcAmount ...
		// commit trade
		order, err := g.NewOrder(mkt, "", btcAmount, bookEntry.Price, side, []string{"immediate-or-cancel"})
		if err != nil {
			printError(err)
			return err
		}
		if c.Bool("unsafe") == false {
			printOrder(order)
			return nil
		}
		if c.Bool("json") {
			orders = append(orders, order)
		} else {
			printOrder(order)
		}
		... executedAmt ...
		if (amount > 0 && executedAmt >= amount-minAmt) || (baseAmount > 0 && executedAmt >= baseAmount-minAmt) {
			if c.Bool("json") {
				chars, _ := json.Marshal(orders)
				fmt.Println(string(chars))
			}
			return nil
		}
		fmt.Println("")
		retries++
>> *)
Definition iteration (c : cli.Context) (p : Setup) (l : Locals)
    (s : State World) : Outcome * Locals * State World :=
  if (retries l =? RETRIES_MAX)%Z then
    let err := ERROR_MAX_RETRIES in
    (Return (Some err), l, printError err s)
  else
    match getOrderBookEntry (mkt p) (side p) s with
    | (inr err, s) => (Return (Some err), l, printError err s)
    | (inl bookEntry, s) =>
        let btcAmount := btcAmountOf p (executedAmt l) bookEntry in
        match callNewOrder (mkt p) "" btcAmount (Price bookEntry) (side p)
                ["immediate-or-cancel"%string] s with
        | (inr err, s) => (Return (Some err), l, printError err s)
        | (inl order, s) =>
            if Bool.eqb (cli.Bool c "unsafe") false then
              (Return None, l, printOrder order s)
            else
              let (orders, s) :=
                if cli.Bool c "json" then (orders l ++ [order], s)
                else (orders l, printOrder order s) in
              let executedAmt := account (amount p) (executedAmt l) order in
              if satisfied p executedAmt then
                let s := if cli.Bool c "json" then emit (PrintJSON orders) s else s in
                (Return None, mkLocals (retries l) executedAmt orders, s)
              else
                let s := emit (Println "") s in
                (Continue, mkLocals (wrapInt64 (retries l + 1)) executedAmt orders, s)
        end
    end.

(** The loop [for { ... }] of [market]; [fuel] bounds the number of passes,
    and [None] stands for a loop that has not returned within it. *)
Fixpoint sweep (fuel : nat) (c : cli.Context) (p : Setup) (l : Locals)
    (s : State World) : option (option error * Locals * State World) :=
  match fuel with
  | O => None
  | S fuel' =>
      match iteration c p l s with
      | (Return err, l', s') => Some (err, l', s')
      | (Continue, l', s') => sweep fuel' c p l' s'
      end
  end.

(** The locals at the entry of the loop:
    [retries := 0; executedAmt := 0.0; orders := make([]gemini.Order, 0, 10)] *)
Definition entry : Locals := mkLocals 0 0 [].

(** Passes that suffice for the loop of [market] to return (see
    [sweep_returns]). *)
Definition passes : nat := S (Z.to_nat RETRIES_MAX).

(**
<<
func market(c *cli.Context) error {
	amount := c.Float64("amt")
	baseAmount := c.Float64("base-amt")
	...
	if amount <= 0.0 && baseAmount <= 0.0 {
		err := errors.New(ERROR_INVALID_AMOUNT)
		printError(err)
		return err
	}
	...
	for { ... }
}
>>
    [run] also gives the locals at the return, which [market] drops. *)
Definition run (c : cli.Context) (s : State World)
    : option (option error * Locals * State World) :=
  let amount := cli.Float64 c "amt" in
  let baseAmount := cli.Float64 c "base-amt" in
  if (amount <=? 0) && (baseAmount <=? 0) then
    let err := ERROR_INVALID_AMOUNT in
    Some (Some err, entry, printError err s)
  else
    sweep passes c (setup c) entry s.

Definition market (c : cli.Context) (s : State World)
    : option (option error * State World) :=
  match run c s with
  | Some (err, _, s') => Some (err, s')
  | None => None
  end.

End Commands.

(** ** Reading a trace *)

(** The amount and price of every order submitted. *)
Fixpoint submitted (evs : list Event) : list (Q * Q) :=
  match evs with
  | [] => []
  | CallNewOrder _ _ amount price _ _ _ :: evs' => (amount, price) :: submitted evs'
  | _ :: evs' => submitted evs'
  end.

(** The orders returned by the submissions that succeeded. *)
Fixpoint fills (evs : list Event) : list Order :=
  match evs with
  | [] => []
  | CallNewOrder _ _ _ _ _ _ (inl order) :: evs' => order :: fills evs'
  | _ :: evs' => fills evs'
  end.

(** The answers to the order-book queries. *)
Fixpoint queries (evs : list Event) : list (Book + error) :=
  match evs with
  | [] => []
  | CallOrderBook _ _ _ res :: evs' => res :: queries evs'
  | _ :: evs' => queries evs'
  end.

(** ** Vocabulary of the specification *)

(** [10^d] *)
Definition tenTo (d : Z) : Q := inject_Z (10 ^ d).

(** Round-half-up to [d] fractional digits, in the words of the
    specification: [floor(value × 10^decimals + 0.5) / 10^decimals]. *)
Definition roundHalfUp (v : Q) (d : Z) : Q :=
  inject_Z (Qfloor (v * tenTo d + 0.5)) / tenTo d.

(** The two fill-accounting rules of the specification, selected by the sign
    of the (fee-adjusted) quote amount. *)
Definition rule (amount : Q) : Q -> Order -> Q :=
  if 0 <? amount
  then fun accumulated fill =>
         accumulated + ExecutedAmount fill * AvgExecutionPrice fill
  else fun accumulated fill => accumulated + ExecutedAmount fill.

(** The target that a sweep pursues, in the words of the specification: the
    fee-adjusted quote amount when that is positive, and the base amount as
    it was given otherwise. *)
Definition pursued (adjusted base : Q) : Q :=
  if 0 <? adjusted then adjusted else base.

(** The order of one pass, in the words of the specification: what is left
    of the target once [acc] has been accumulated, converted into the base
    currency at the price of the book entry when the request is
    quote-denominated, rounded, and capped by the (rounded) size of the
    entry. *)
Definition sliceOf (adjusted base acc : Q) (e : BookEntry) (d : Z) : Q :=
  let remaining :=
    if 0 <? acc then pursued adjusted base - acc else pursued adjusted base in
  let wanted :=
    if 0 <? adjusted then round (remaining / Price e) d else round remaining d in
  if Amount e <? wanted then round (Amount e) d else wanted.

(** The side of the book that an order of [side] trades against. *)
Definition facing (side : string) (book : Book) : list BookEntry :=
  if String.eqb side "buy" then Asks book else Bids book.

(** A trace in which every order submitted is a slice of the target: the
    submission at position [i] comes right after a book query of [mkt] that
    showed a first entry [e] on the facing side, it is priced at [Price e],
    and its amount is [sliceOf] for the amount accumulated, by the one rule
    that [adjusted] selects, from the fills before position [i]. *)
Definition slicedFrom (mkt side : string) (adjusted base : Q) (d : Z)
    (evs : list Event) : Prop :=
  forall (i : nat) symbol clientOrderId amount price side' options res,
    evs !! i = Some (CallNewOrder symbol clientOrderId amount price side' options res) ->
    exists book e rest,
      (1 <= i)%nat
      /\ evs !! (i - 1)%nat = Some (CallOrderBook mkt 1 1 (inl book))
      /\ facing side book = e :: rest
      /\ price = Price e
      /\ amount =
         sliceOf adjusted base
           (fold_left (rule adjusted) (fills (take i evs)) 0) e d.

Section Exchanges.

Context {World : Type} (g : Api World).

(** An exchange on which a sweep never gets enough: from every state of the
    world that satisfies [Inv] for the amount accumulated so far, the book
    query and the submission of the pass succeed, the fill leaves the
    accumulated amount below the termination threshold, and [Inv] holds
    again. *)
Definition starved (p : Setup) (Inv : Q -> World -> Prop) : Prop :=
  forall (acc : Q) (s : State World),
    Inv acc (world s) ->
    exists entry s1 order s2,
      getOrderBookEntry g (mkt p) (side p) s = (inl entry, s1)
      /\ callNewOrder g (mkt p) "" (btcAmountOf p acc entry) (Price entry)
           (side p) ["immediate-or-cancel"%string] s1 = (inl order, s2)
      /\ satisfied p (account (amount p) acc order) = false
      /\ Inv (account (amount p) acc order) (world s2).

(** An exchange on which every book query and every submission succeeds,
    from every state of the world that satisfies [Inv]. *)
Definition responsive (p : Setup) (Inv : World -> Prop) : Prop :=
  forall s : State World,
    Inv (world s) ->
    exists entry s1,
      getOrderBookEntry g (mkt p) (side p) s = (inl entry, s1)
      /\ forall btcAmount : Q,
           exists order s2,
             callNewOrder g (mkt p) "" btcAmount (Price entry) (side p)
               ["immediate-or-cancel"%string] s1 = (inl order, s2)
             /\ Inv (world s2).

End Exchanges.

(** ** Simulated exchanges and command lines *)

Module Sim.

(** An order that executes in full at the submitted size and price. *)
Definition filled (symbol side : string) (amount price : Q) : Order :=
  mkOrder "1" symbol side price amount amount 0 price false false.

(** An order of which nothing executes. *)
Definition unfilled (symbol side : string) (amount price : Q) : Order :=
  mkOrder "1" symbol side price amount 0 amount 0 false true.

(** A book that always shows [entry] on both sides. *)
Definition bookOf (entry : BookEntry) : Book := mkBook [entry] [entry].

(** Always the same top of book; every order executes in full. *)
Definition fullFill (entry : BookEntry) : Api unit :=
  mkApi unit
    (fun _ _ _ w => (inl (bookOf entry), w))
    (fun symbol _ amount price side _ w => (inl (filled symbol side amount price), w)).

(** Always the same top of book; no order ever executes. *)
Definition noFill (entry : BookEntry) : Api unit :=
  mkApi unit
    (fun _ _ _ w => (inl (bookOf entry), w))
    (fun symbol _ amount price side _ w => (inl (unfilled symbol side amount price), w)).

(** A book with bids only, and one with asks only. *)
Definition onlyBids (entry : BookEntry) : Api unit :=
  mkApi unit
    (fun _ _ _ w => (inl (mkBook [entry] []), w))
    (fun symbol _ amount price side _ w => (inl (filled symbol side amount price), w)).

Definition onlyAsks (entry : BookEntry) : Api unit :=
  mkApi unit
    (fun _ _ _ w => (inl (mkBook [] [entry]), w))
    (fun symbol _ amount price side _ w => (inl (filled symbol side amount price), w)).

Definition start : State unit := mkState tt [].

(** A boolean flag [unsafe], as a command would have to declare it for
    [c.Bool("unsafe")] to be true. *)
Definition unsafeFlag : cli.Flag := cli.mkFlag "unsafe" (cli.BoolValue false).

(** The context of the [market] command as [commands] declares it, for the
    given arguments. *)
Definition marketContext (args : list (string * cli.FlagValue)) : cli.Context :=
  match cli.newContext marketFlags args with
  | Some c => c
  | None => cli.mkContext ∅
  end.

(** The context of a [market] command that also declares [unsafeFlag]. *)
Definition unsafeContext (args : list (string * cli.FlagValue)) : cli.Context :=
  match cli.newContext (marketFlags ++ [unsafeFlag]) args with
  | Some c => c
  | None => cli.mkContext ∅
  end.

Definition amt (x : Q) : string * cli.FlagValue := ("amt"%string, cli.Float64Value x).
Definition baseAmt (x : Q) : string * cli.FlagValue := ("base-amt"%string, cli.Float64Value x).
Definition bps (n : Z) : string * cli.FlagValue := ("bps"%string, cli.IntValue n).
Definition onMkt (m : string) : string * cli.FlagValue := ("mkt"%string, cli.StringValue m).
Definition onSide (sd : string) : string * cli.FlagValue := ("side"%string, cli.StringValue sd).
Definition json (b : bool) : string * cli.FlagValue := ("json"%string, cli.BoolValue b).
Definition unsafe (b : bool) : string * cli.FlagValue := ("unsafe"%string, cli.BoolValue b).

(** [gemini-cli market --mkt btcusd --side buy --amt 100 --bps 25] *)
Definition buy100 : list (string * cli.FlagValue) :=
  [onMkt "btcusd"; onSide "buy"; amt 100; bps 25].

Definition deep : BookEntry := mkBookEntry 50000 1.

(** The scenario of the specification, under the command table
    ([declared = false]) or with [unsafeFlag] declared and set to [u]. *)
Definition scenario (declared u j : bool) : cli.Context :=
  if declared then unsafeContext (buy100 ++ [json j; unsafe u])
  else marketContext (buy100 ++ [json j]).

Definition buy100Table : cli.Context := marketContext buy100.
Definition buy100Unsafe : cli.Context := unsafeContext (buy100 ++ [unsafe true]).

(** [gemini-cli market --mkt btcusd --side sell --amt 100 --bps 25] *)
Definition sell100Table : cli.Context :=
  marketContext [onMkt "btcusd"; onSide "sell"; amt 100; bps 25].

(** [gemini-cli market --mkt ethbtc --side buy --base-amt 2 --bps 25], on a
    book that shows 10 at 0.05. *)
Definition baseBuy : cli.Context :=
  marketContext [onMkt "ethbtc"; onSide "buy"; baseAmt 2; bps 25].
Definition cheap : BookEntry := mkBookEntry 0.05 10.

(** [gemini-cli market --mkt btcusd --side buy --amt 100 --bps 10000] *)
Definition fullFee : list (string * cli.FlagValue) :=
  [onMkt "btcusd"; onSide "buy"; amt 100; bps 10000].
Definition fullFeeTable : cli.Context := marketContext fullFee.
Definition fullFeeUnsafe : cli.Context := unsafeContext (fullFee ++ [unsafe true]).

(** [gemini-cli market --mkt ethusd --side buy --amt 100 --bps 25], on a book
    that shows 0.0000018 at 100. *)
Definition ethBuy : cli.Context :=
  marketContext [onMkt "ethusd"; onSide "buy"; amt 100; bps 25].
Definition thin : BookEntry := mkBookEntry 100 0.0000018.

End Sim.

(** ** The rest of main.go and commands.go

    The other commands that place orders or read the book, the hooks of the
    command table and the check of the API keys.  The JSON encoder, the
    number formatter and the colour functions of the terminal are library
    code and are taken as parameters. *)

Definition ERROR_API_KEY_MISSING : error :=
  "Missing API keys. Set GEMINI_API_SANDBOX_KEY and GEMINI_API_SANDBOX_SECRET in the environment, or GEMINI_API_KEY and GEMINI_API_SECRET for live mode".
Definition ERROR_AMBIGUOUS_AMOUNT : error :=
  "Ambiguous use of both amt and base-amt flags".
Definition ERROR_INVALID_PRICE : error := "Price must be above 0".

Definition liveFlag : cli.Flag := cli.mkFlag "live" (cli.BoolValue false).
Definition limitFlag : cli.Flag := cli.mkFlag "lim, l" (cli.IntValue 20).
Definition priceFlag : cli.Flag := cli.mkFlag "price, p" (cli.Float64Value 0).

(** [Flags] of the entries [Name: "limit"] and [Name: "book"] of
    [commands]. *)
Definition limitFlags : list cli.Flag :=
  [amtFlag; baseAmtFlag; bpsFlag; jsonFlag; mktFlag; priceFlag; sideFlag].
Definition bookFlags : list cli.Flag := [mktFlag; limitFlag; jsonFlag].

(** The package variables set at start-up, and the arguments of
    [gemini.New]. *)
Record Keys : Type := mkKeys {
  gemini_api_key : string;
  gemini_api_secret : string
}.

Record Client : Type := mkClient {
  clientLive : bool;
  clientKey : string;
  clientSecret : string
}.

(**
<<
func verifyApiKeys(live bool) error {
	if live {
		gemini_api_key = os.Getenv("GEMINI_API_KEY")
		gemini_api_secret = os.Getenv("GEMINI_API_SECRET")
	} else {
		gemini_api_key = os.Getenv("GEMINI_API_SANDBOX_KEY")
		gemini_api_secret = os.Getenv("GEMINI_API_SANDBOX_SECRET")
	}
	if gemini_api_key == "" || gemini_api_secret == "" {
		return errors.New(ERROR_API_KEY_MISSING)
	}
	return nil
}
>>
    [Getenv] is the environment of the process; the result carries the
    package variables after the call. *)
Definition verifyApiKeys (Getenv : string -> string) (live : bool)
    : option error * Keys :=
  let keys :=
    if live
    then mkKeys (Getenv "GEMINI_API_KEY") (Getenv "GEMINI_API_SECRET")
    else mkKeys (Getenv "GEMINI_API_SANDBOX_KEY") (Getenv "GEMINI_API_SANDBOX_SECRET") in
  if String.eqb (gemini_api_key keys) "" || String.eqb (gemini_api_secret keys) ""
  then (Some ERROR_API_KEY_MISSING, keys)
  else (None, keys).

(** Go's [book.Asks[i]]: [None] stands for the run-time panic of an index
    out of range. *)
Definition index {A : Type} (l : list A) (i : Z) : option A :=
  if (i <? 0)%Z then None else nth_error l (Z.to_nat i).

(** [len(l)] *)
Definition len {A : Type} (l : list A) : Z := Z.of_nat (length l).

(** How a command of the flag-package variant ends: it returns, or
    [exitWithError] ends the process with [os.Exit(1)]. *)
Inductive Ending : Type :=
| Returns
| Exits (code : Z).

Section OtherCommands.

Context {World : Type} (g : Api World).

(** [string(chars)] for [chars, _ := json.Marshal(x)] *)
Variable marshalOrder : Order -> string.
Variable marshalBook : Book -> string.

(** [fmt.Sprintf("%.8f", x)], and the colour functions [blue] and
    [boldWhite] applied to one string. *)
Variable sprintf8 : Q -> string.
Variable blue : string -> string.
Variable boldWhite : string -> string.

(**
<<
func beforeApp(c *cli.Context) error {
	live := c.Bool("live")
	err := verifyApiKeys(live)
	if err != nil {
		printError(err)
		return err
	}
	g = gemini.New(live, gemini_api_key, gemini_api_secret)
	return nil
}
>>
    The result carries the client assigned to [g], if any. *)
Definition beforeApp (Getenv : string -> string) (c : cli.Context)
    (s : State World) : option error * option Client * State World :=
  let live := cli.Bool c "live" in
  match verifyApiKeys Getenv live with
  | (Some err, _) => (Some err, None, printError err s)
  | (None, keys) =>
      (None, Some (mkClient live (gemini_api_key keys) (gemini_api_secret keys)), s)
  end.

(**
<<
func beforeTransaction(c *cli.Context) error {
	if c.Float64("base-amt") > 0 && c.Float64("amt") > 0 {
		err := errors.New(ERROR_AMBIGUOUS_AMOUNT)
		printError(err)
		return err
	}
	return nil
}
>> *)
Definition beforeTransaction (c : cli.Context) (s : State World)
    : option error * State World :=
  if (0 <? cli.Float64 c "base-amt") && (0 <? cli.Float64 c "amt") then
    let err := ERROR_AMBIGUOUS_AMOUNT in
    (Some err, printError err s)
  else (None, s).

(** The amount of the order of [limit]:
<<
	if amount > 0 {
		btcAmount = round(amount/price, decimals)
	} else {
		btcAmount = round(baseAmount, decimals)
	}
>> *)
Definition limitAmount (amount baseAmount price : Q) (decimals : Z) : Q :=
  if 0 <? amount then round (amount / price) decimals
  else round baseAmount decimals.

(**
<<
func limit(c *cli.Context) error {
	amount := c.Float64("amt")
	baseAmount := c.Float64("base-amt")
	bps := c.Int("bps")
	mkt := c.String("mkt")
	price := c.Float64("price")
	side := c.String("side")
	if amount <= 0.0 && baseAmount <= 0.0 {
		err := errors.New(ERROR_INVALID_AMOUNT)
		printError(err)
		return err
	}
	if price <= 0.0 {
		err := errors.New(ERROR_INVALID_PRICE)
		printError(err)
		return err
	}
	var btcAmount float64
	decimals := 8
	if mkt != "btcusd" {
		decimals = 6
	}
	feeRatio := getFeeRatio(bps)
	if side == "buy" {
		amount -= amount * feeRatio
	} else {
		amount += amount * feeRatio
	}
	... btcAmount ...
	// commit trade
	order, err := g.NewOrder(mkt, "", btcAmount, price, side, []string{"maker-or-cancel"})
	if err != nil {
		printError(err)
		return err
	}
	if c.Bool("json") {
		chars, _ := json.Marshal(order)
		fmt.Println(string(chars))
		return nil
	}
	printOrder(order)
	return nil
}
>> *)
Definition limit (c : cli.Context) (s : State World)
    : option error * State World :=
  let amount := cli.Float64 c "amt" in
  let baseAmount := cli.Float64 c "base-amt" in
  let bps := cli.Int c "bps" in
  let mkt := cli.String c "mkt" in
  let price := cli.Float64 c "price" in
  let side := cli.String c "side" in
  if (amount <=? 0) && (baseAmount <=? 0) then
    let err := ERROR_INVALID_AMOUNT in
    (Some err, printError err s)
  else if price <=? 0 then
    let err := ERROR_INVALID_PRICE in
    (Some err, printError err s)
  else
    let decimals := decimalsOf mkt in
    let feeRatio := getFeeRatio bps in
    let amount := feeAdjust side amount feeRatio in
    let btcAmount := limitAmount amount baseAmount price decimals in
    match callNewOrder g mkt "" btcAmount price side ["maker-or-cancel"%string] s with
    | (inr err, s) => (Some err, printError err s)
    | (inl order, s) =>
        if cli.Bool c "json" then (None, emit (Println (marshalOrder order)) s)
        else (None, printOrder order s)
    end.

(** One line of the book, at index [i]:
<<
		askAmount := fmt.Sprintf("%.8f", ask.Amount)
		askPrice := fmt.Sprintf("%.8f", ask.Price)
		if i == 0 {
			fmt.Printf("%s\t%s\n", boldWhite(askPrice), askAmount)
		} else {
			fmt.Printf("%s\t%s\n", blue(askPrice), askAmount)
		}
>> *)
Definition levelLine (i : Z) (entry : BookEntry) : string :=
  let amount := sprintf8 (Amount entry) in
  let price := sprintf8 (Price entry) in
  let tab := String "009"%char EmptyString in
  if (i =? 0)%Z then String.append (boldWhite price) (String.append tab amount)
  else String.append (blue price) (String.append tab amount).

(** [for i := n - 1; i >= 0; i-- { level := levels[i]; ... }] *)
Fixpoint printDown (levels : list BookEntry) (n : nat) (s : State World)
    : option (State World) :=
  match n with
  | O => Some s
  | S i =>
      match index levels (Z.of_nat i) with
      | None => None
      | Some level =>
          printDown levels i (emit (Println (levelLine (Z.of_nat i) level)) s)
      end
  end.

(** [for ; i < l; i++ { level := levels[i]; ... }], with [n] passes left. *)
Fixpoint printUp (levels : list BookEntry) (i : Z) (n : nat) (s : State World)
    : option (State World) :=
  match n with
  | O => Some s
  | S n' =>
      match index levels i with
      | None => None
      | Some level =>
          printUp levels (i + 1) n' (emit (Println (levelLine i level)) s)
      end
  end.

(** The lines of one side of the book, from the first level on. *)
Definition bookLines (levels : list BookEntry) : list string :=
  imap (fun i level => levelLine (Z.of_nat i) level) levels.

(**
<<
func book(c *cli.Context) error {
	mkt := c.String("mkt")
	lim := c.Int("lim")
	book, err := g.OrderBook(mkt, lim, lim)
	if err != nil {
		printError(err)
		return err
	}
	if c.Bool("json") {
		chars, _ := json.Marshal(book)
		fmt.Println(string(chars))
		return nil
	}
	for i := len(book.Asks) - 1; i >= 0; i-- {
		ask := book.Asks[i]
		...
	}
	fmt.Println("")
	for i, l := 0, len(book.Bids); i < l; i++ {
		bid := book.Bids[i]
		...
	}
	return nil
}
>>
    [None] stands for a panic. *)
Definition book (c : cli.Context) (s : State World)
    : option (option error * State World) :=
  let mkt := cli.String c "mkt" in
  let lim := cli.Int c "lim" in
  match callOrderBook g mkt lim lim s with
  | (inr err, s) => Some (Some err, printError err s)
  | (inl book, s) =>
      if cli.Bool c "json" then Some (None, emit (Println (marshalBook book)) s)
      else
        match printDown (Asks book) (Z.to_nat (len (Asks book) - 1 + 1)) s with
        | None => None
        | Some s =>
            let s := emit (Println "") s in
            match printUp (Bids book) 0 (Z.to_nat (len (Bids book) - 0)) s with
            | None => None
            | Some s => Some (None, s)
            end
        end
  end.

End OtherCommands.

(** *** The flag-package variant of [book] *)

Module Flagset.

Section Book.

Context {World : Type} (g : Api World).

Variable marshalBook : Book -> string.
Variable sprintf8 : Q -> string.
Variable blue : string -> string.
Variable boldWhite : string -> string.

(**
<<
func book(mkt string, lim int, useJson bool) {
	book, err := g.OrderBook(mkt, lim, lim)
	if err != nil {
		exitWithError(err)
	}
	if len(book.Asks) < lim {
		lim = len(book.Asks)
	}
	if len(book.Bids) < lim {
		lim = len(book.Bids)
	}
	if useJson {
		chars, _ := json.Marshal(book)
		fmt.Println(string(chars))
		return
	}
	for i := lim - 1; i >= 0; i-- {
		ask := book.Asks[i]
		...
	}
	fmt.Println("")
	for i := 0; i < lim; i++ {
		bid := book.Bids[i]
		...
	}
}
>>
    [exitWithError] prints the error as [printError] does and ends the
    process; [None] stands for a panic.  [lim] is a Go [int] that the
    command line sets, so [lim - 1] is taken with its wrap-around; the
    descending loop then runs for [i = lim - 1, ..., 0]. *)
Definition book (mkt : string) (lim : Z) (useJson : bool) (s : State World)
    : option (Ending * State World) :=
  match callOrderBook g mkt lim lim s with
  | (inr err, s) => Some (Exits 1, emit (PrintError err) s)
  | (inl book, s) =>
      let lim := if (len (Asks book) <? lim)%Z then len (Asks book) else lim in
      let lim := if (len (Bids book) <? lim)%Z then len (Bids book) else lim in
      if useJson then Some (Returns, emit (Println (marshalBook book)) s)
      else
        match printDown sprintf8 blue boldWhite (Asks book)
                (Z.to_nat (wrapInt64 (lim - 1) + 1)) s with
        | None => None
        | Some s =>
            let s := emit (Println "") s in
            match printUp sprintf8 blue boldWhite (Bids book) 0
                    (Z.to_nat (lim - 0)) s with
            | None => None
            | Some s => Some (Returns, s)
            end
        end
  end.

End Book.

(** How one pass through the loop of the flag-package [market] ends. *)
Inductive Step : Type :=
| Stop (ending : Ending)
| Again.

(** How the process ends where the other variant returns [err]: it exits with
    code 1 where an error is returned. *)
Definition endingOf (err : option error) : Ending :=
  match err with
  | Some _ => Exits 1
  | None => Returns
  end.

Section Market.

Context {World : Type} (g : Api World).

(**
<<
func exitWithError(err error) {
	fmt.Fprintf(os.Stderr, "%s: %v\n", red("Error"), err)
	os.Exit(1)
}
>>
    The state after the print; the caller ends with [Exits 1]. *)
Definition exitWithError (err : error) (s : State World) : State World :=
  emit (PrintError err) s.

(**
<<
func getOrderBookEntry(mkt, side string) gemini.BookEntry {
	// grab order book to get current prices
	book, err := g.OrderBook(mkt, 1, 1)
	if err != nil {
		exitWithError(err)
	}
	if side == "buy" {
		if len(book.Asks) < 1 {
			exitWithError(errors.New("No asks in book"))
		}
		return book.Asks[0]
	}
	if len(book.Bids) < 1 {
		exitWithError(errors.New("No bids in book"))
	}
	return book.Bids[0]
}
>>
    [inr tt] stands for the exit of the process. *)
Definition getOrderBookEntry (mkt side : string) (s : State World)
    : (BookEntry + unit) * State World :=
  match callOrderBook g mkt 1 1 s with
  | (inr err, s) => (inr tt, exitWithError err s)
  | (inl book, s) =>
      if String.eqb side "buy" then
        match Asks book with
        | [] => (inr tt, exitWithError "No asks in book" s)
        | entry :: _ => (inl entry, s)
        end
      else
        match Bids book with
        | [] => (inr tt, exitWithError "No bids in book" s)
        | entry :: _ => (inl entry, s)
        end
  end.

(** One pass through the loop of [market]:
<<
		if retries == RETRIES_MAX {
			exitWithError(errors.New("Max retries"))
		}
		// calculate purchase amount (USD)
		fillAmount := amount
		if executedAmt > 0 {
			fillAmount = fillAmount - executedAmt
		}
		bookEntry := getOrderBookEntry(mkt, side)
		btcAmount := round(fillAmount/bookEntry.Price, decimals)
		if bookEntry.Amount < btcAmount {
			btcAmount = round(bookEntry.Amount, decimals)
		}
		// commit trade
		order, err := g.NewOrder(mkt, "", btcAmount, bookEntry.Price, side, []string{"immediate-or-cancel"})
		if err != nil {
			exitWithError(err)
		}
		if useJson {
			orders = append(orders, order)
		} else {
			printOrder(order)
		}
		executedAmt += order.ExecutedAmount * order.AvgExecutionPrice
		if executedAmt >= amount-0.01 {
			if useJson {
				chars, _ := json.Marshal(orders)
				fmt.Println(string(chars))
			}
			return
		}
		fmt.Println("")
		retries++
>> *)
Definition iteration (mkt side : string) (decimals : Z) (amount : Q)
    (useJson : bool) (l : Locals) (s : State World)
    : Step * Locals * State World :=
  if (retries l =? RETRIES_MAX)%Z then
    (Stop (Exits 1), l, exitWithError "Max retries" s)
  else
    let fillAmount := amount in
    let fillAmount :=
      if 0 <? executedAmt l then fillAmount - executedAmt l else fillAmount in
    match getOrderBookEntry mkt side s with
    | (inr _, s) => (Stop (Exits 1), l, s)
    | (inl bookEntry, s) =>
        let btcAmount := round (fillAmount / Price bookEntry) decimals in
        let btcAmount :=
          if Amount bookEntry <? btcAmount then round (Amount bookEntry) decimals
          else btcAmount in
        match callNewOrder g mkt "" btcAmount (Price bookEntry) side
                ["immediate-or-cancel"%string] s with
        | (inr err, s) => (Stop (Exits 1), l, exitWithError err s)
        | (inl order, s) =>
            let (orders, s) :=
              if useJson then (orders l ++ [order], s)
              else (orders l, printOrder order s) in
            let executedAmt :=
              executedAmt l + ExecutedAmount order * AvgExecutionPrice order in
            if amount - 0.01 <=? executedAmt then
              let s := if useJson then emit (PrintJSON orders) s else s in
              (Stop Returns, mkLocals (retries l) executedAmt orders, s)
            else
              let s := emit (Println "") s in
              (Again, mkLocals (wrapInt64 (retries l + 1)) executedAmt orders, s)
        end
    end.

(** The loop [for { ... }], with fuel as for the other variant. *)
Fixpoint sweep (fuel : nat) (mkt side : string) (decimals : Z) (amount : Q)
    (useJson : bool) (l : Locals) (s : State World)
    : option (Ending * Locals * State World) :=
  match fuel with
  | O => None
  | S fuel' =>
      match iteration mkt side decimals amount useJson l s with
      | (Stop ending, l', s') => Some (ending, l', s')
      | (Again, l', s') => sweep fuel' mkt side decimals amount useJson l' s'
      end
  end.

(**
<<
func market(mkt, side string, amount float64, bps int, useJson bool) {
	retries := 0
	executedAmt := 0.0
	orders := make([]gemini.Order, 0, 10)
	decimals := 8
	if mkt != "btcusd" {
		decimals = 6
	}
	if amount <= 0.0 {
		exitWithError(errors.New("Amount must be above 0"))
	}
	if side == "buy" {
		amount -= amount * getFeeRatio(bps)
	} else {
		amount += amount * getFeeRatio(bps)
	}
	for { ... }
}
>>
    The result also gives the locals at the end. *)
Definition market (mkt side : string) (amount : Q) (bps : Z) (useJson : bool)
    (s : State World) : option (Ending * Locals * State World) :=
  let decimals := decimalsOf mkt in
  if amount <=? 0 then
    Some (Exits 1, entry, exitWithError "Amount must be above 0" s)
  else
    let amount :=
      if String.eqb side "buy" then amount - amount * getFeeRatio bps
      else amount + amount * getFeeRatio bps in
    sweep passes mkt side decimals amount useJson entry s.

End Market.

End Flagset.

(** ** Reading a trace, continued *)

(** Symbol, client order id, side and options of every order submitted. *)
Fixpoint orderCalls (evs : list Event)
    : list (string * string * string * list string) :=
  match evs with
  | [] => []
  | CallNewOrder symbol clientOrderId _ _ side options _ :: evs' =>
      (symbol, clientOrderId, side, options) :: orderCalls evs'
  | _ :: evs' => orderCalls evs'
  end.

Fixpoint printedErrors (evs : list Event) : list error :=
  match evs with
  | [] => []
  | PrintError err :: evs' => err :: printedErrors evs'
  | _ :: evs' => printedErrors evs'
  end.

Fixpoint printedOrders (evs : list Event) : list Order :=
  match evs with
  | [] => []
  | PrintOrder order :: evs' => order :: printedOrders evs'
  | _ :: evs' => printedOrders evs'
  end.

Fixpoint printedJSON (evs : list Event) : list (list Order) :=
  match evs with
  | [] => []
  | PrintJSON orders :: evs' => orders :: printedJSON evs'
  | _ :: evs' => printedJSON evs'
  end.

Fixpoint printedLines (evs : list Event) : list string :=
  match evs with
  | [] => []
  | Println line :: evs' => line :: printedLines evs'
  | _ :: evs' => printedLines evs'
  end.

(** ** Simulated command lines, continued *)

Module Demo.

Definition limitContext (args : list (string * cli.FlagValue)) : cli.Context :=
  match cli.newContext limitFlags args with
  | Some c => c
  | None => cli.mkContext ∅
  end.

Definition price (x : Q) : string * cli.FlagValue :=
  ("price"%string, cli.Float64Value x).

(** [gemini-cli limit --mkt btcusd --side buy --amt 100 --bps 25 --price 50000] *)
Definition limitBuy : cli.Context :=
  limitContext [Sim.onMkt "btcusd"; Sim.onSide "buy"; Sim.amt 100; Sim.bps 25;
                price 50000].

(** [limit] without a price, and without any amount. *)
Definition limitNoPrice : cli.Context := limitContext [Sim.amt 100].
Definition limitNothing : cli.Context := limitContext [].

(** The context of the application ([app.Flags = []cli.Flag{liveFlag}])
    for [--live], and an environment with the live keys only. *)
Definition appLive : cli.Context :=
  match cli.newContext [liveFlag] [("live"%string, cli.BoolValue true)] with
  | Some c => c
  | None => cli.mkContext ∅
  end.

Definition liveEnv (name : string) : string :=
  if String.eqb name "GEMINI_API_KEY" then "key"
  else if String.eqb name "GEMINI_API_SECRET" then "secret"
  else "".

(** Stand-ins for the JSON encoder, the number formatter and the colours. *)
Definition marshalOrder (order : Order) : string := OrderId order.
Definition marshalBook (b : Book) : string := "{}".
Definition sprintf8 (x : Q) : string :=
  if Qeq_bool x 1 then "1.00000000" else "50000.00000000".
Definition blue (x : string) : string := String.append "blue:" x.
Definition boldWhite (x : string) : string := String.append "bold:" x.

(** A book with two asks and one bid. *)
Definition lopsided : Book :=
  mkBook [mkBookEntry 50000 1] [mkBookEntry 50000 1; mkBookEntry 50000 1].

Definition lopsidedApi : Api unit :=
  mkApi unit
    (fun _ _ _ w => (inl lopsided, w))
    (fun symbol _ amount price side _ w =>
       (inl (Sim.filled symbol side amount price), w)).

End Demo.

(** * Properties *)

(** ** Comparisons and rounding *)

Lemma ltb_lt (x y : Q) : (x <? y) = true <-> x < y.
Proof. unfold ltb. rewrite Qlt_alt. destruct (x ?= y); split; congruence. Qed.

Lemma ltb_ge (x y : Q) : (x <? y) = false <-> y <= x.
Proof. unfold ltb. rewrite Qge_alt. destruct (x ?= y); split; congruence. Qed.

Lemma leb_le (x y : Q) : (x <=? y) = true <-> x <= y.
Proof. unfold leb. rewrite Qle_alt. destruct (x ?= y); split; congruence. Qed.

Lemma leb_gt (x y : Q) : (x <=? y) = false <-> y < x.
Proof. unfold leb. rewrite Qgt_alt. destruct (x ?= y); split; congruence. Qed.

Lemma wrapInt64_small (z : Z) :
  (minInt64 <= z <= maxInt64)%Z -> wrapInt64 z = z.
Proof.
  unfold minInt64, maxInt64, wrapInt64. intros H.
  rewrite Z.mod_small; lia.
Qed.

Lemma powLoop_spec (n : nat) (pow : Q) :
  powLoop n pow == pow * inject_Z (10 ^ Z.of_nat n).
Proof.
  revert pow. induction n as [|n IH]; intros pow.
  - cbn [powLoop]. change (inject_Z (10 ^ Z.of_nat 0)) with 1. ring.
  - cbn [powLoop]. rewrite IH, Nat2Z.inj_succ, Z.pow_succ_r by lia.
    rewrite inject_Z_mult. ring.
Qed.

Lemma powLoop_tenTo (d : Z) : (0 <= d)%Z -> powLoop (Z.to_nat d) 1 == tenTo d.
Proof.
  intros Hd. rewrite powLoop_spec, Z2Nat.id by exact Hd. unfold tenTo. ring.
Qed.

Lemma tenTo_pos (d : Z) : (0 <= d)%Z -> 0 < tenTo d.
Proof.
  intros Hd. unfold tenTo. change 0 with (inject_Z 0). rewrite <- Zlt_Qlt.
  apply Z.pow_pos_nonneg; lia.
Qed.

Lemma Qtrunc_floor (x : Q) : 0 <= x -> Qtrunc x = Qfloor x.
Proof.
  destruct x as [n d]. unfold Qle, Qtrunc, Qfloor. simpl. intros H.
  apply Z.quot_div_nonneg; lia.
Qed.

Lemma Qfloor_nonneg (x : Q) : 0 <= x -> (0 <= Qfloor x)%Z.
Proof.
  intros H. change 0%Z with (Qfloor 0). apply Qfloor_resp_le. exact H.
Qed.

Lemma int_floor (x : Q) :
  0 <= x -> x < inject_Z (2 ^ 63) -> int x = Qfloor x.
Proof.
  intros H0 H1. unfold int. rewrite Qtrunc_floor by exact H0.
  pose proof (Qfloor_nonneg x H0).
  assert (Qfloor x < 2 ^ 63)%Z.
  { rewrite Zlt_Qlt. eapply Qle_lt_trans; [apply Qfloor_le | exact H1]. }
  unfold minInt64, maxInt64.
  destruct (Z.leb_spec (- 2 ^ 63) (Qfloor x)); [|lia].
  destruct (Z.leb_spec (Qfloor x) (2 ^ 63 - 1)); [|lia].
  reflexivity.
Qed.

Lemma round_floor (v : Q) (d : Z) :
  (0 <= d)%Z ->
  0 <= v * tenTo d + 0.5 ->
  v * tenTo d + 0.5 < inject_Z (2 ^ 63) ->
  round v d == inject_Z (Qfloor (v * tenTo d + 0.5)) / tenTo d.
Proof.
  intros Hd H0 H1. unfold round, float64.
  pose proof (powLoop_tenTo d Hd) as Hp.
  assert (E : v * powLoop (Z.to_nat d) 1 + 0.5 == v * tenTo d + 0.5)
    by (rewrite Hp; reflexivity).
  rewrite int_floor by (rewrite E; assumption).
  rewrite (Qfloor_comp _ _ E), Hp. reflexivity.
Qed.

Example round_0_001995 : round 0.001995 8 == 0.001995.
Proof. vm_compute. reflexivity. Qed.

Example round_half_goes_up : round 0.0000015 6 == 0.000002.
Proof. vm_compute. reflexivity. Qed.

Example round_negative : round (-0.0000012) 6 == 0.
Proof. vm_compute. reflexivity. Qed.

(** C6 (as amended).  [round] is round-half-up,
    [floor(v × 10^d + 0.5) / 10^d], for every precision [d >= 0] (so for
    the 8 digits of btcusd and the 6 of the other markets) and every value
    [v] for which [v × 10^d + 0.5] is not negative and converts to an [int],
    that is, stays below [2^63]. *)
Theorem round_half_up (v : Q) (d : Z) :
  (0 <= d)%Z ->
  0 <= v * tenTo d + 0.5 ->
  v * tenTo d + 0.5 < inject_Z (2 ^ 63) ->
  round v d == roundHalfUp v d.
Proof.
  intros Hd H0 H1. unfold roundHalfUp. apply round_floor; assumption.
Qed.

Lemma round_half_up_witness :
  ((0 <= 8)%Z
   /\ 0 <= 0.00199500004 * tenTo 8 + 0.5
   /\ 0.00199500004 * tenTo 8 + 0.5 < inject_Z (2 ^ 63)
   /\ round 0.00199500004 (decimalsOf "btcusd") == roundHalfUp 0.00199500004 8)
  /\ ((0 <= 6)%Z
      /\ 0 <= 1.0000005 * tenTo 6 + 0.5
      /\ 1.0000005 * tenTo 6 + 0.5 < inject_Z (2 ^ 63)
      /\ round 1.0000005 (decimalsOf "ethusd") == roundHalfUp 1.0000005 6).
Proof.
  split.
  - assert (H1 : (0 <= 8)%Z) by lia.
    assert (H2 : 0 <= 0.00199500004 * tenTo 8 + 0.5) by (vm_compute; congruence).
    assert (H3 : 0.00199500004 * tenTo 8 + 0.5 < inject_Z (2 ^ 63))
      by (vm_compute; reflexivity).
    do 3 (split; [assumption|]).
    apply (round_half_up 0.00199500004 8 H1 H2 H3).
  - assert (H1 : (0 <= 6)%Z) by lia.
    assert (H2 : 0 <= 1.0000005 * tenTo 6 + 0.5) by (vm_compute; congruence).
    assert (H3 : 1.0000005 * tenTo 6 + 0.5 < inject_Z (2 ^ 63))
      by (vm_compute; reflexivity).
    do 3 (split; [assumption|]).
    apply (round_half_up 1.0000005 6 H1 H2 H3).
Defined.

(** C6, as stated, fails on a negative value: the conversion to [int]
    truncates toward zero, so -0.0000012 is rounded to 0 at 6 digits, where
    [floor(-1.2 + 0.5) / 10^6] is -0.000001. *)
Lemma round_negative_not_half_up :
  round (-0.0000012) (decimalsOf "ethusd") == 0
  /\ roundHalfUp (-0.0000012) 6 == -0.000001
  /\ ~ round (-0.0000012) (decimalsOf "ethusd") == roundHalfUp (-0.0000012) 6.
Proof.
  split; [|split]; vm_compute; congruence.
Qed.

(** ** The fee adjustment *)

Lemma getFeeRatio_nonneg (bps : Z) : (0 <= bps)%Z -> 0 <= getFeeRatio bps.
Proof.
  intros H. unfold getFeeRatio, float64.
  apply Qle_shift_div_l; [reflexivity|].
  change (0 * 10000) with (inject_Z 0).
  rewrite <- Zle_Qle. exact H.
Qed.

Lemma getFeeRatio_zero (bps : Z) : getFeeRatio bps == 0 -> bps = 0%Z.
Proof.
  unfold getFeeRatio, float64. intros H.
  assert (E : inject_Z bps == 0).
  { assert (E : inject_Z bps == inject_Z bps / 10000 * 10000) by field.
    rewrite E, H. reflexivity. }
  apply (proj1 (inject_Z_injective bps 0)). exact E.
Qed.

Lemma feeAdjust_buy (amount feeRatio : Q) :
  feeAdjust "buy" amount feeRatio = amount - amount * feeRatio.
Proof. reflexivity. Qed.

Lemma feeAdjust_other (side : string) (amount feeRatio : Q) :
  side <> "buy"%string ->
  feeAdjust side amount feeRatio = amount + amount * feeRatio.
Proof.
  intros H. unfold feeAdjust.
  destruct (String.eqb_spec side "buy"); [contradiction | reflexivity].
Qed.

(** C9.  For a positive raw amount and a fee of [bps >= 0] basis points, the
    buy-adjusted amount is at most the raw amount, the sell-adjusted amount
    (the adjustment of every side other than "buy") is at least the raw
    amount, and either is equal to the raw amount only when [bps = 0]. *)
Theorem fee_adjustment_brackets_raw (raw : Q) (bps : Z) (side : string) :
  0 < raw ->
  (0 <= bps)%Z ->
  side <> "buy"%string ->
  feeAdjust "buy" raw (getFeeRatio bps) <= raw
  /\ raw <= feeAdjust side raw (getFeeRatio bps)
  /\ (feeAdjust "buy" raw (getFeeRatio bps) == raw -> bps = 0%Z)
  /\ (feeAdjust side raw (getFeeRatio bps) == raw -> bps = 0%Z).
Proof.
  intros Hraw Hbps Hside.
  rewrite feeAdjust_buy, (feeAdjust_other side) by exact Hside.
  pose proof (getFeeRatio_nonneg bps Hbps) as Hr.
  assert (Hprod : 0 <= raw * getFeeRatio bps)
    by (apply Qmult_le_0_compat; [apply Qlt_le_weak, Hraw | exact Hr]).
  assert (Hzero : raw * getFeeRatio bps == 0 -> bps = 0%Z).
  { intros E. apply Qmult_integral in E as [E|E].
    - rewrite E in Hraw. discriminate Hraw.
    - apply getFeeRatio_zero, E. }
  repeat split.
  - lra.
  - lra.
  - intros E. apply Hzero. lra.
  - intros E. apply Hzero. lra.
Qed.

Lemma fee_adjustment_brackets_raw_witness :
  0 < 100
  /\ (0 <= 25)%Z
  /\ "sell"%string <> "buy"%string
  /\ feeAdjust "buy" 100 (getFeeRatio 25) <= 100
  /\ 100 <= feeAdjust "sell" 100 (getFeeRatio 25)
  /\ (feeAdjust "buy" 100 (getFeeRatio 25) == 100 -> 25%Z = 0%Z)
  /\ (feeAdjust "sell" 100 (getFeeRatio 25) == 100 -> 25%Z = 0%Z).
Proof.
  assert (H1 : 0 < 100) by reflexivity.
  assert (H2 : (0 <= 25)%Z) by lia.
  assert (H3 : "sell"%string <> "buy"%string) by discriminate.
  do 3 (split; [assumption|]).
  apply (fee_adjustment_brackets_raw 100 25 "sell" H1 H2 H3).
Defined.

Lemma feeAdjust_buy_factor (raw : Q) (bps : Z) :
  feeAdjust "buy" raw (getFeeRatio bps) == raw * (1 - inject_Z bps / 10000).
Proof. rewrite feeAdjust_buy. unfold getFeeRatio, float64. field. Qed.

Lemma feeAdjust_other_factor (side : string) (raw : Q) (bps : Z) :
  side <> "buy"%string ->
  feeAdjust side raw (getFeeRatio bps) == raw * (1 + inject_Z bps / 10000).
Proof.
  intros H. rewrite feeAdjust_other by exact H. unfold getFeeRatio, float64. field.
Qed.

(** With a fee of 100 percent or more the amount pursued by a buy is not
    positive. *)
Lemma feeAdjust_buy_nonpos (raw : Q) (bps : Z) :
  0 < raw -> (10000 <= bps)%Z -> feeAdjust "buy" raw (getFeeRatio bps) <= 0.
Proof.
  intros Hraw Hbps. rewrite feeAdjust_buy.
  assert (Hr : 1 <= getFeeRatio bps).
  { unfold getFeeRatio, float64. apply Qle_shift_div_l; [reflexivity|].
    change (1 * 10000) with (inject_Z 10000).
    rewrite <- Zle_Qle. exact Hbps. }
  nra.
Qed.

(** ** The flag set of a command *)

Module cliFacts.
Import cli.

Lemma lookup_registerAs (v : FlagValue) (ns : list string)
    (fs : gmap string FlagValue) (n : string) :
  registerAs v ns fs !! n = if decide (n ∈ ns) then Some v else fs !! n.
Proof.
  induction ns as [|m ns IH]; cbn [registerAs foldr].
  - destruct (decide (n ∈ [])) as [H|_]; [inversion H | reflexivity].
  - fold (registerAs v ns fs). rewrite lookup_insert.
    destruct (decide (m = n)) as [->|Hne].
    + rewrite decide_True by (apply elem_of_cons; left; reflexivity). reflexivity.
    + rewrite IH. destruct (decide (n ∈ ns)) as [Hin|Hnin].
      * rewrite decide_True by (apply elem_of_cons; right; exact Hin). reflexivity.
      * rewrite decide_False; [reflexivity|].
        intros H. apply elem_of_cons in H as [->|H];
          [apply Hne; reflexivity | apply Hnin, H].
Qed.

Lemma lookup_defaults (flags : list Flag) (n : string) :
  undeclared flags n -> defaults flags !! n = None.
Proof.
  induction 1 as [|f flags Hf _ IH]; cbn [defaults foldr].
  - apply lookup_empty.
  - fold (defaults flags). rewrite lookup_registerAs, decide_False by exact Hf.
    exact IH.
Qed.

Lemma lookup_set (flags : list Flag) (name : string) (v : FlagValue)
    (fs fs' : gmap string FlagValue) (n : string) :
  undeclared flags n -> set flags name v fs = Some fs' -> fs' !! n = fs !! n.
Proof.
  intros Hn. unfold set.
  destruct (List.find _ flags) as [f|] eqn:Hfind; [|discriminate].
  intros [= <-]. apply find_some in Hfind as [Hin _].
  rewrite lookup_registerAs, decide_False; [reflexivity|].
  unfold undeclared in Hn. rewrite Forall_forall in Hn. apply Hn.
  apply list_elem_of_In. exact Hin.
Qed.

Lemma lookup_parse (flags : list Flag) (args : list (string * FlagValue))
    (fs fs' : gmap string FlagValue) (n : string) :
  undeclared flags n -> parse flags args fs = Some fs' -> fs' !! n = fs !! n.
Proof.
  intros Hn. revert fs.
  induction args as [|[name v] args IH]; intros fs; cbn [parse].
  - intros [= <-]. reflexivity.
  - destruct (set flags name v fs) as [fs1|] eqn:Hset; [|discriminate].
    intros H. rewrite (IH _ H). eapply lookup_set; eassumption.
Qed.

(** In the context of a command, a name that none of its flags carries is
    not in the flag set. *)
Lemma newContext_undeclared (flags : list Flag)
    (args : list (string * FlagValue)) (c : Context) (n : string) :
  undeclared flags n -> newContext flags args = Some c -> flagSet c !! n = None.
Proof.
  intros Hn. unfold newContext.
  destruct (parse flags args (defaults flags)) as [fs|] eqn:Hp; [|discriminate].
  intros [= <-]. cbn [flagSet].
  rewrite (lookup_parse _ _ _ _ _ Hn Hp). apply lookup_defaults, Hn.
Qed.

End cliFacts.

Example marketFlags_names :
  concat (map cli.names marketFlags)
  = ["amt"; "a"; "base-amt"; "A"; "bps"; "json"; "j"; "mkt"; "m"; "side"; "s"]%string.
Proof. reflexivity. Qed.

Lemma unsafe_undeclared : cli.undeclared marketFlags "unsafe".
Proof.
  unfold cli.undeclared, marketFlags.
  repeat constructor; vm_compute; intros H;
    repeat (apply elem_of_cons in H as [H|H]; [discriminate H|]); inversion H.
Qed.

Lemma market_never_unsafe (args : list (string * cli.FlagValue)) (c : cli.Context) :
  cli.newContext marketFlags args = Some c -> cli.Bool c "unsafe" = false.
Proof.
  intros H. unfold cli.Bool.
  rewrite (cliFacts.newContext_undeclared _ _ _ _ unsafe_undeclared H).
  reflexivity.
Qed.

(** ** Traces *)

Lemma submitted_app (a b : list Event) :
  submitted (a ++ b) = submitted a ++ submitted b.
Proof.
  induction a as [|e a IH]; [reflexivity|].
  destruct e; cbn [app submitted]; rewrite IH; reflexivity.
Qed.

Lemma fills_app (a b : list Event) : fills (a ++ b) = fills a ++ fills b.
Proof.
  induction a as [|e a IH]; [reflexivity|].
  destruct e as [| ? ? ? ? ? ? [?|?] | | | |]; cbn [app fills];
    rewrite IH; reflexivity.
Qed.

Lemma queries_app (a b : list Event) : queries (a ++ b) = queries a ++ queries b.
Proof.
  induction a as [|e a IH]; [reflexivity|].
  destruct e; cbn [app queries]; rewrite IH; reflexivity.
Qed.

Lemma account_rule (amount : Q) : account amount = rule amount.
Proof. unfold account, rule. destruct (0 <? amount); reflexivity. Qed.

(** ** One pass through the loop *)

Section Properties.

Context {World : Type} (g : Api World).

Lemma getOrderBookEntry_inv (mkt side : string) (s s' : State World)
    (r : BookEntry + error) :
  getOrderBookEntry g mkt side s = (r, s') ->
  exists q, trace s' = trace s ++ [CallOrderBook mkt 1 1 q]
    /\ OrderBook g mkt 1 1 (world s) = (q, world s').
Proof.
  unfold getOrderBookEntry, callOrderBook.
  destruct (OrderBook g mkt 1 1 (world s)) as [q w].
  intros H. exists q.
  destruct q as [book|err];
    [destruct (String.eqb side "buy"); [destruct (Asks book) | destruct (Bids book)] | ];
    injection H as <- <-; split; reflexivity.
Qed.

Lemma callNewOrder_inv (symbol clientOrderId : string) (amount price : Q)
    (side : string) (options : list string) (s s' : State World)
    (r : Order + error) :
  callNewOrder g symbol clientOrderId amount price side options s = (r, s') ->
  trace s' = trace s ++ [CallNewOrder symbol clientOrderId amount price side options r]
  /\ NewOrder g symbol clientOrderId amount price side options (world s) = (r, world s').
Proof.
  unfold callNewOrder.
  destruct (NewOrder g symbol clientOrderId amount price side options (world s)) as [q w].
  intros [= <- <-]. split; reflexivity.
Qed.

(** Case analysis of one pass through the loop body, in program order. *)
Ltac pass c p l s :=
  unfold iteration;
  destruct (Z.eqb (retries l) RETRIES_MAX) eqn:?Hmax;
  [ | destruct (getOrderBookEntry g (mkt p) (side p) s) as [[?entry|?err] ?s] eqn:?Hq;
      [ match goal with
        | |- context [callNewOrder g ?a ?b ?x ?y ?z ?o ?st] =>
            destruct (callNewOrder g a b x y z o st) as [[?order|?err] ?s] eqn:?Hn
        end;
        [ destruct (cli.Bool c "unsafe") eqn:?Hunsafe; cbn [Bool.eqb];
          [ destruct (cli.Bool c "json") eqn:?Hjson;
            match goal with
            | |- context [satisfied ?a ?b] => destruct (satisfied a b) eqn:?Hsat
            end
          | ]
        | ]
      | ] ];
  repeat match goal with
    | H : getOrderBookEntry _ _ _ _ = _ |- _ =>
        apply getOrderBookEntry_inv in H; destruct H as (?q & ?Hqt & ?Hqw)
    | H : callNewOrder _ _ _ _ _ _ _ _ = _ |- _ =>
        apply callNewOrder_inv in H; destruct H as (?Hnt & ?Hnw)
    end;
  unfold printError, printOrder, emit; cbn [trace world].

Ltac traces :=
  cbn [trace world];
  repeat match goal with H : trace _ = _ |- _ => rewrite H; clear H end;
  rewrite <- ?app_assoc; cbn [app].

(** Every fill that a pass takes into account is added by [account] at the
    amount fixed before the loop; with [unsafe] false no fill is taken into
    account. *)
Lemma iteration_account (c : cli.Context) (p : Setup) (l l' : Locals)
    (s s' : State World) (o : Outcome) :
  iteration g c p l s = (o, l', s') ->
  exists evs, trace s' = trace s ++ evs
    /\ executedAmt l' =
       fold_left (account (amount p))
         (if cli.Bool c "unsafe" then fills evs else []) (executedAmt l).
Proof.
  pass c p l s; intros [= <- <- <-]; traces; cbn [executedAmt];
    eexists; (split; [reflexivity|]);
    first [rewrite Hunsafe | destruct (cli.Bool c "unsafe")];
    cbn [app fills fold_left]; reflexivity.
Qed.

(** With [unsafe] false a pass always returns, leaves the locals as they
    were, and submits at most one order; if that order is accepted the pass
    prints it and returns [nil]. *)
Lemma iteration_without_unsafe (c : cli.Context) (p : Setup) (l : Locals)
    (s : State World) :
  cli.Bool c "unsafe" = false ->
  exists err s' evs,
    iteration g c p l s = (Return err, l, s')
    /\ trace s' = trace s ++ evs
    /\ (length (submitted evs) <= 1)%nat
    /\ (length (queries evs) <= 1)%nat
    /\ forall order, In order (fills evs) ->
         err = None
         /\ exists q btcAmount price,
              evs = [CallOrderBook (mkt p) 1 1 q;
                     CallNewOrder (mkt p) "" btcAmount price (side p)
                       ["immediate-or-cancel"%string] (inl order);
                     PrintOrder order].
Proof.
  intros Hoff. pass c p l s; try congruence;
    do 3 eexists; (split; [reflexivity|]); traces;
    (split; [reflexivity|]); cbn [submitted queries fills length];
    (split; [lia|]); (split; [lia|]); intros o Hin; cbn [In] in Hin;
    try contradiction.
  destruct Hin as [<-|[]]. split; [reflexivity|]. do 3 eexists. reflexivity.
Qed.

Lemma iteration_continue (c : cli.Context) (p : Setup) (l l' : Locals)
    (s s' : State World) :
  iteration g c p l s = (Continue, l', s') ->
  retries l <> RETRIES_MAX /\ retries l' = wrapInt64 (retries l + 1).
Proof.
  pass c p l s; intros [= <- <-]; cbn [retries].
  all: split; [intros E; rewrite E in Hmax; discriminate Hmax | reflexivity].
Qed.

(** The loop returns: from a counter between 0 and the ceiling, one pass more
    than the retries that are left is enough. *)
Lemma sweep_returns (fuel : nat) (c : cli.Context) (p : Setup) (l : Locals)
    (s : State World) :
  (0 <= retries l <= RETRIES_MAX)%Z ->
  (Z.to_nat (RETRIES_MAX - retries l) < fuel)%nat ->
  exists r, sweep g fuel c p l s = Some r.
Proof.
  revert l s. induction fuel as [|fuel IH]; intros l s Hr Hf; [lia|].
  cbn [sweep]. destruct (iteration g c p l s) as [[[err|] l'] s'] eqn:Hi.
  - eexists. reflexivity.
  - apply iteration_continue in Hi as [Hne Hl'].
    assert (E : retries l' = (retries l + 1)%Z).
    { rewrite Hl'. apply wrapInt64_small.
      unfold RETRIES_MAX, minInt64, maxInt64 in *. lia. }
    apply IH; rewrite E; unfold RETRIES_MAX in *; lia.
Qed.

Lemma sweep_account (fuel : nat) (c : cli.Context) (p : Setup) (l l' : Locals)
    (s s' : State World) (err : option error) :
  sweep g fuel c p l s = Some (err, l', s') ->
  exists evs, trace s' = trace s ++ evs
    /\ executedAmt l' =
       fold_left (account (amount p))
         (if cli.Bool c "unsafe" then fills evs else []) (executedAmt l).
Proof.
  revert l s. induction fuel as [|fuel IH]; intros l s; [discriminate|].
  cbn [sweep]. destruct (iteration g c p l s) as [[[e|] l1] s1] eqn:Hi.
  - intros [= <- <- <-]. eapply iteration_account, Hi.
  - intros H. apply IH in H as (evs2 & Ht2 & Ha2).
    apply iteration_account in Hi as (evs1 & Ht1 & Ha1).
    exists (evs1 ++ evs2). split.
    + rewrite Ht2, Ht1, app_assoc. reflexivity.
    + rewrite Ha2, Ha1. destruct (cli.Bool c "unsafe").
      * rewrite fills_app, fold_left_app. reflexivity.
      * reflexivity.
Qed.


(** On a starved exchange with [unsafe] true a pass below the ceiling
    queries once, submits once and goes round again. *)
Lemma iteration_starved (c : cli.Context) (p : Setup) (Inv : Q -> World -> Prop)
    (l : Locals) (s : State World) :
  cli.Bool c "unsafe" = true ->
  starved g p Inv ->
  retries l <> RETRIES_MAX ->
  Inv (executedAmt l) (world s) ->
  exists l' s' evs,
    iteration g c p l s = (Continue, l', s')
    /\ trace s' = trace s ++ evs
    /\ length (submitted evs) = 1%nat
    /\ length (queries evs) = 1%nat
    /\ retries l' = wrapInt64 (retries l + 1)
    /\ Inv (executedAmt l') (world s').
Proof.
  intros Hunsafe Hstarved Hmax HInv.
  destruct (Hstarved _ _ HInv) as (entry & s1 & order & s2 & Hq & Hn & Hsat & HInv').
  unfold iteration. apply Z.eqb_neq in Hmax. rewrite Hmax, Hq, Hn, Hunsafe.
  cbn [Bool.eqb]. apply getOrderBookEntry_inv in Hq as (q & Hqt & _).
  apply callNewOrder_inv in Hn as (Hnt & _).
  destruct (cli.Bool c "json"); rewrite Hsat;
    do 3 eexists; (split; [reflexivity|]);
    unfold printOrder, emit; traces; cbn [executedAmt retries];
    (split; [reflexivity|]); cbn [submitted queries length];
    repeat split; assumption.
Qed.

(** With [k] retries left, a starved sweep makes exactly [k] more passes, each
    with one book query and one submission, and then fails with the
    Max retries error. *)
Lemma sweep_starved (c : cli.Context) (p : Setup) (Inv : Q -> World -> Prop) :
  cli.Bool c "unsafe" = true ->
  starved g p Inv ->
  forall (k fuel : nat) (l : Locals) (s : State World),
    retries l = (RETRIES_MAX - Z.of_nat k)%Z ->
    (Z.of_nat k <= RETRIES_MAX)%Z ->
    (k < fuel)%nat ->
    Inv (executedAmt l) (world s) ->
    exists l' s' evs,
      sweep g fuel c p l s = Some (Some ERROR_MAX_RETRIES, l', s')
      /\ trace s' = trace s ++ evs ++ [PrintError ERROR_MAX_RETRIES]
      /\ length (submitted evs) = k
      /\ length (queries evs) = k
      /\ retries l' = RETRIES_MAX.
Proof.
  intros Hunsafe Hstarved. induction k as [|k IH]; intros fuel l s Hr Hk Hf HInv;
    (destruct fuel as [|fuel]; [lia|]); cbn [sweep].
  - assert (E : retries l = RETRIES_MAX) by lia.
    unfold iteration. rewrite E, Z.eqb_refl.
    exists l, (printError ERROR_MAX_RETRIES s), [].
    repeat split; first [reflexivity | exact E].
  - assert (Hne : retries l <> RETRIES_MAX) by lia.
    destruct (iteration_starved c p Inv l s Hunsafe Hstarved Hne HInv)
      as (l1 & s1 & evs1 & Hi & Ht1 & Hs1 & Hq1 & Hr1 & HInv1).
    rewrite Hi.
    assert (E : retries l1 = (RETRIES_MAX - Z.of_nat k)%Z).
    { rewrite Hr1, wrapInt64_small;
        unfold RETRIES_MAX, minInt64, maxInt64 in *; lia. }
    destruct (IH fuel l1 s1 E ltac:(lia) ltac:(lia) HInv1)
      as (l' & s' & evs & Hsw & Ht & Hs & Hq & Hr').
    exists l', s', (evs1 ++ evs). split; [exact Hsw|].
    split; [rewrite Ht, Ht1, <- !app_assoc; reflexivity|].
    rewrite submitted_app, queries_app, !length_app, Hs1, Hq1, Hs, Hq.
    repeat split; lia.
Qed.

Lemma responsive_starved (p : Setup) (Inv : World -> Prop) :
  responsive g p Inv ->
  (forall acc, satisfied p acc = false) ->
  starved g p (fun _ w => Inv w).
Proof.
  intros Hresp Hnever acc s HInv.
  destruct (Hresp s HInv) as (entry & s1 & Hq & Hsub).
  destruct (Hsub (btcAmountOf p acc entry)) as (order & s2 & Hn & HInv').
  exists entry, s1, order, s2. repeat split; try assumption. apply Hnever.
Qed.

(** A pass whose book query fails returns that error at once. *)
Lemma iteration_query_fails (c : cli.Context) (p : Setup) (l : Locals)
    (s s1 : State World) (err : error) :
  retries l <> RETRIES_MAX ->
  getOrderBookEntry g (mkt p) (side p) s = (inr err, s1) ->
  iteration g c p l s = (Return (Some err), l, printError err s1).
Proof.
  intros Hmax Hq. unfold iteration. apply Z.eqb_neq in Hmax.
  rewrite Hmax, Hq. reflexivity.
Qed.

(** A pass whose book query succeeds submits [btcAmountOf] at the price of
    the entry, and nothing else. *)
Lemma iteration_submits (c : cli.Context) (p : Setup) (l : Locals)
    (s s1 : State World) (entry : BookEntry) :
  retries l <> RETRIES_MAX ->
  getOrderBookEntry g (mkt p) (side p) s = (inl entry, s1) ->
  exists res evs,
    trace (snd (iteration g c p l s)) =
      trace s1 ++ CallNewOrder (mkt p) "" (btcAmountOf p (executedAmt l) entry)
                    (Price entry) (side p) ["immediate-or-cancel"%string] res :: evs
    /\ submitted evs = [].
Proof.
  intros Hmax Hq. unfold iteration. apply Z.eqb_neq in Hmax. rewrite Hmax, Hq.
  destruct (callNewOrder g (mkt p) "" (btcAmountOf p (executedAmt l) entry)
              (Price entry) (side p) ["immediate-or-cancel"%string] s1)
    as [[order|err] s2] eqn:Hn;
    apply callNewOrder_inv in Hn as (Hnt & _).
  - destruct (cli.Bool c "unsafe"); cbn [Bool.eqb];
      [destruct (cli.Bool c "json");
       destruct (satisfied p (account (amount p) (executedAmt l) order))|];
      unfold printOrder, emit; cbn [snd]; traces;
      do 2 eexists; (split; [reflexivity|]); reflexivity.
  - unfold printError, emit; cbn [snd]; traces.
    do 2 eexists. split; reflexivity.
Qed.

(** ** The whole command *)

(** With [unsafe] false the command is one-shot. *)
Lemma run_without_unsafe (c : cli.Context) (s : State World) :
  cli.Bool c "unsafe" = false ->
  exists err s' evs,
    run g c s = Some (err, entry, s')
    /\ market g c s = Some (err, s')
    /\ trace s' = trace s ++ evs
    /\ (length (submitted evs) <= 1)%nat
    /\ (length (queries evs) <= 1)%nat
    /\ forall order, In order (fills evs) ->
         err = None
         /\ exists q btcAmount price,
              evs = [CallOrderBook (mkt (setup c)) 1 1 q;
                     CallNewOrder (mkt (setup c)) "" btcAmount price
                       (side (setup c)) ["immediate-or-cancel"%string] (inl order);
                     PrintOrder order].
Proof.
  intros Hoff. unfold market, run.
  destruct ((cli.Float64 c "amt" <=? 0) && (cli.Float64 c "base-amt" <=? 0)).
  - exists (Some ERROR_INVALID_AMOUNT), (printError ERROR_INVALID_AMOUNT s),
      [PrintError ERROR_INVALID_AMOUNT].
    do 3 (split; [reflexivity|]). cbn [submitted queries fills length In].
    split; [lia|]. split; [lia|]. intros order [].
  - destruct (iteration_without_unsafe c (setup c) entry s Hoff)
      as (err & s' & evs & Hi & Ht & Hs & Hq & Hfill).
    exists err, s', evs. unfold passes. cbn [sweep]. rewrite Hi.
    do 2 (split; [reflexivity|]). do 3 (split; [assumption|]). exact Hfill.
Qed.

(** With [unsafe] false, a valid amount and a book that shows an entry on
    the facing side, the command is exactly: one query, one submission, one
    print, return. *)
Lemma run_single_pass (c : cli.Context) (s : State World) (book : Book)
    (w1 w2 : World) (e : BookEntry) (rest : list BookEntry)
    (res : Order + error) :
  cli.Bool c "unsafe" = false ->
  0 < cli.Float64 c "amt" \/ 0 < cli.Float64 c "base-amt" ->
  OrderBook g (cli.String c "mkt") 1 1 (world s) = (inl book, w1) ->
  facing (cli.String c "side") book = e :: rest ->
  NewOrder g (cli.String c "mkt") "" (btcAmountOf (setup c) 0 e) (Price e)
    (cli.String c "side") ["immediate-or-cancel"%string] w1 = (res, w2) ->
  run g c s
  = Some (match res with inl _ => None | inr err => Some err end,
          entry,
          mkState w2
            (trace s
             ++ [CallOrderBook (cli.String c "mkt") 1 1 (inl book);
                 CallNewOrder (cli.String c "mkt") "" (btcAmountOf (setup c) 0 e)
                   (Price e) (cli.String c "side")
                   ["immediate-or-cancel"%string] res;
                 match res with
                 | inl order => PrintOrder order
                 | inr err => PrintError err
                 end])).
Proof.
  intros Hoff Hvalid HO Htop HN. unfold run.
  assert (E : (cli.Float64 c "amt" <=? 0) && (cli.Float64 c "base-amt" <=? 0)
              = false).
  { apply andb_false_iff. destruct Hvalid as [H|H]; [left|right];
      apply leb_gt; exact H. }
  rewrite E. unfold passes. cbn [sweep]. unfold iteration.
  change (retries entry =? RETRIES_MAX)%Z with false. cbn iota.
  change (mkt (setup c)) with (cli.String c "mkt").
  change (side (setup c)) with (cli.String c "side").
  change (executedAmt entry) with 0.
  unfold getOrderBookEntry, callOrderBook. rewrite HO.
  assert (Hq : (if String.eqb (cli.String c "side") "buy"
                then match Asks book with
                     | [] => (inr ERROR_NO_ASKS,
                              mkState w1 (trace s ++ [CallOrderBook (cli.String c "mkt") 1 1 (inl book)]))
                     | entry :: _ => (inl entry,
                              mkState w1 (trace s ++ [CallOrderBook (cli.String c "mkt") 1 1 (inl book)]))
                     end
                else match Bids book with
                     | [] => (inr ERROR_NO_BIDS,
                              mkState w1 (trace s ++ [CallOrderBook (cli.String c "mkt") 1 1 (inl book)]))
                     | entry :: _ => (inl entry,
                              mkState w1 (trace s ++ [CallOrderBook (cli.String c "mkt") 1 1 (inl book)]))
                     end)
               = (inl e : BookEntry + error,
                  mkState w1 (trace s ++ [CallOrderBook (cli.String c "mkt") 1 1 (inl book)]))).
  { unfold facing in Htop.
    destruct (String.eqb (cli.String c "side") "buy"); rewrite Htop; reflexivity. }
  rewrite Hq. unfold callNewOrder. cbn [world trace]. rewrite HN, Hoff.
  cbn [Bool.eqb]. unfold printOrder, printError, emit.
  destruct res; cbn [world trace]; rewrite <- !app_assoc; reflexivity.
Qed.

(** C2.  In the context of the [market] command as the command table
    declares it (no flag named "unsafe"), [c.Bool("unsafe")] is false, and
    the command then returns from its first pass: the locals are those of the
    loop entry (nothing is accumulated, the counter is 0), and at most one
    book query and one order submission are made.  With a valid amount and a
    book that shows an entry on the facing side it makes exactly one
    submission, for the first slice of the target: whatever the exchange
    answers to it, and so whatever was filled, and with or without [json],
    the whole run is that query, that submission and one print, of the order
    that was accepted (return [nil]) or of the error of the exchange
    (returned). *)
Theorem market_is_one_shot (args : list (string * cli.FlagValue))
    (c : cli.Context) (s : State World) :
  cli.newContext marketFlags args = Some c ->
  cli.Bool c "unsafe" = false
  /\ (exists err s' evs,
       run g c s = Some (err, entry, s')
       /\ market g c s = Some (err, s')
       /\ trace s' = trace s ++ evs
       /\ (length (submitted evs) <= 1)%nat
       /\ (length (queries evs) <= 1)%nat
       /\ forall order, In order (fills evs) ->
            err = None
            /\ exists q btcAmount price,
                 evs = [CallOrderBook (mkt (setup c)) 1 1 q;
                        CallNewOrder (mkt (setup c)) "" btcAmount price
                          (side (setup c)) ["immediate-or-cancel"%string]
                          (inl order);
                        PrintOrder order])
  /\ (0 < cli.Float64 c "amt" \/ 0 < cli.Float64 c "base-amt" ->
      forall book w1 e rest res w2,
        OrderBook g (cli.String c "mkt") 1 1 (world s) = (inl book, w1) ->
        facing (cli.String c "side") book = e :: rest ->
        NewOrder g (cli.String c "mkt") "" (btcAmountOf (setup c) 0 e) (Price e)
          (cli.String c "side") ["immediate-or-cancel"%string] w1 = (res, w2) ->
        let err := match res with inl _ => None | inr err => Some err end in
        let s' :=
          mkState w2
            (trace s
             ++ [CallOrderBook (cli.String c "mkt") 1 1 (inl book);
                 CallNewOrder (cli.String c "mkt") "" (btcAmountOf (setup c) 0 e)
                   (Price e) (cli.String c "side")
                   ["immediate-or-cancel"%string] res;
                 match res with
                 | inl order => PrintOrder order
                 | inr err => PrintError err
                 end]) in
        run g c s = Some (err, entry, s') /\ market g c s = Some (err, s')).
Proof.
  intros Hc. pose proof (market_never_unsafe args c Hc) as Hoff.
  split; [exact Hoff|]. split; [apply run_without_unsafe, Hoff|].
  intros Hvalid book w1 e rest res w2 HO Htop HN err s'.
  pose proof (run_single_pass c s book w1 w2 e rest res Hoff Hvalid HO Htop HN)
    as Hrun.
  split; [exact Hrun|]. unfold market. rewrite Hrun. reflexivity.
Qed.

(** The command returns, whatever the exchange answers. *)
Lemma run_returns (c : cli.Context) (s : State World) :
  exists r, run g c s = Some r.
Proof.
  unfold run.
  destruct ((cli.Float64 c "amt" <=? 0) && (cli.Float64 c "base-amt" <=? 0)).
  - eexists. reflexivity.
  - apply sweep_returns; cbn [entry retries]; unfold passes, RETRIES_MAX; lia.
Qed.

(** C5 (as amended).  Every run of the command returns, and the amount
    accumulated at the return is obtained from 0 by adding the fills that
    were taken into account, in order, all by one rule: the rule selected by
    the sign of the fee-adjusted quote amount ([executed × price] if it is
    positive, [executed] otherwise).  With [unsafe] true these are all the
    fills returned by the exchange during the run; with [unsafe] false none
    is taken into account. *)
Theorem single_accounting_rule (c : cli.Context) (s : State World) :
  exists err l' s' evs,
    run g c s = Some (err, l', s')
    /\ trace s' = trace s ++ evs
    /\ executedAmt l' =
       fold_left (rule (amount (setup c)))
         (if cli.Bool c "unsafe" then fills evs else []) 0.
Proof.
  destruct (run_returns c s) as [[[err l'] s'] Hrun].
  exists err, l', s'. rewrite Hrun. unfold run in Hrun.
  destruct ((cli.Float64 c "amt" <=? 0) && (cli.Float64 c "base-amt" <=? 0)).
  - injection Hrun as <- <- <-. exists [PrintError ERROR_INVALID_AMOUNT].
    repeat split. cbn [fills]. destruct (cli.Bool c "unsafe"); reflexivity.
  - apply sweep_account in Hrun as (evs & Ht & Ha). exists evs.
    rewrite <- account_rule. repeat split; assumption.
Qed.

(** C3 (as amended).  With [unsafe] true and a valid amount, on an exchange
    where every book query and every submission succeeds and the accumulated
    amount stays below the termination threshold, the command makes exactly
    50 passes (50 book queries, 50 submissions), the counter going from 0 to
    the ceiling, and then fails with the Max retries error; printing that
    error is the last thing it does. *)
Theorem retries_exhausted (c : cli.Context) (s : State World)
    (Inv : Q -> World -> Prop) :
  cli.Bool c "unsafe" = true ->
  0 < cli.Float64 c "amt" \/ 0 < cli.Float64 c "base-amt" ->
  starved g (setup c) Inv ->
  Inv 0 (world s) ->
  exists l' s' evs,
    run g c s = Some (Some ERROR_MAX_RETRIES, l', s')
    /\ trace s' = trace s ++ evs ++ [PrintError ERROR_MAX_RETRIES]
    /\ length (submitted evs) = 50%nat
    /\ length (queries evs) = 50%nat
    /\ retries entry = 0%Z
    /\ retries l' = RETRIES_MAX.
Proof.
  intros Hunsafe Hvalid Hstarved HInv. unfold run.
  assert (E : (cli.Float64 c "amt" <=? 0) && (cli.Float64 c "base-amt" <=? 0) = false).
  { apply andb_false_iff. destruct Hvalid as [H|H]; [left|right];
      apply leb_gt; exact H. }
  rewrite E.
  destruct (sweep_starved c (setup c) Inv Hunsafe Hstarved 50 passes entry s)
    as (l' & s' & evs & Hsw & Ht & Hs & Hq & Hr); try reflexivity.
  - unfold passes, RETRIES_MAX. simpl. lia.
  - exact HInv.
  - exists l', s', evs. repeat split; assumption.
Qed.

Lemma target_nonpos (amount baseAmount : Q) :
  amount <= 0 -> target amount baseAmount = baseAmount.
Proof.
  intros H. unfold target. apply ltb_ge in H. rewrite H. reflexivity.
Qed.

Lemma target_pos (amount baseAmount : Q) :
  0 < amount -> target amount baseAmount = amount.
Proof.
  intros H. unfold target. apply ltb_lt in H. rewrite H. reflexivity.
Qed.

Lemma satisfied_never (p : Setup) (acc : Q) :
  amount p <= 0 -> baseAmount p <= 0 -> satisfied p acc = false.
Proof.
  intros Ha Hb. unfold satisfied. apply ltb_ge in Ha, Hb. rewrite Ha, Hb.
  reflexivity.
Qed.

(** C10 (as amended).  For a buy with [amt > 0], [base-amt = 0] and a fee of
    10000 basis points or more: the fee-adjusted quote amount is not
    positive, so the test [amount > 0] is false in every pass and the pass
    takes the base-denominated branch, with a target of 0; the success
    condition is false whatever has been accumulated; and with [unsafe] true,
    on an exchange where every book query and every submission succeeds, the
    command ends with the Max retries error after 50 submissions. *)
Theorem full_fee_buy_never_done (c : cli.Context) (s : State World)
    (Inv : World -> Prop) :
  cli.String c "side" = "buy"%string ->
  0 < cli.Float64 c "amt" ->
  cli.Float64 c "base-amt" == 0 ->
  (10000 <= cli.Int c "bps")%Z ->
  let p := setup c in
  amount p <= 0
  /\ (0 <? amount p) = false
  /\ target (amount p) (baseAmount p) == 0
  /\ (forall acc, satisfied p acc = false)
  /\ (cli.Bool c "unsafe" = true ->
      responsive g p Inv ->
      Inv (world s) ->
      exists l' s' evs,
        run g c s = Some (Some ERROR_MAX_RETRIES, l', s')
        /\ trace s' = trace s ++ evs ++ [PrintError ERROR_MAX_RETRIES]
        /\ length (submitted evs) = 50%nat
        /\ length (queries evs) = 50%nat).
Proof.
  intros Hside Hamt Hbase Hbps p.
  assert (Ha : amount p <= 0).
  { unfold p, setup. cbn [amount]. rewrite Hside.
    apply feeAdjust_buy_nonpos; assumption. }
  assert (Hb : baseAmount p <= 0).
  { unfold p, setup. cbn [baseAmount]. rewrite Hbase. apply Qle_refl. }
  assert (Hnever : forall acc, satisfied p acc = false)
    by (intros acc; apply satisfied_never; assumption).
  split; [exact Ha|]. split; [apply ltb_ge, Ha|].
  split; [rewrite target_nonpos by exact Ha; exact Hbase|].
  split; [exact Hnever|].
  intros Hunsafe Hresp HInv. unfold run.
  assert (E : (cli.Float64 c "amt" <=? 0) && (cli.Float64 c "base-amt" <=? 0) = false).
  { apply andb_false_iff. left. apply leb_gt, Hamt. }
  rewrite E.
  destruct (sweep_starved c p (fun _ w => Inv w) Hunsafe
              (responsive_starved p Inv Hresp Hnever) 50 passes entry s)
    as (l' & s' & evs & Hsw & Ht & Hs & Hq & Hr); try reflexivity.
  - unfold passes, RETRIES_MAX. simpl. lia.
  - exact HInv.
  - exists l', s', evs. repeat split; assumption.
Qed.

(** C7.  When [g.OrderBook] returns a book, the query of a buy sweep fails
    with "No asks in book" exactly when the asks of that book are empty, and
    the query of a sell sweep fails with "No bids in book" exactly when its
    bids are empty.  A sweep whose query fails in this way returns that
    error from the same pass: the locals are unchanged, and after the query
    the trace holds only the print of the error (no further query, no
    submission). *)
Theorem no_liquidity_aborts (fuel : nat) (c : cli.Context) (p : Setup)
    (l : Locals) (s : State World) (book : Book) (w' : World) :
  retries l <> RETRIES_MAX ->
  OrderBook g (mkt p) 1 1 (world s) = (inl book, w') ->
  let answered := trace s ++ [CallOrderBook (mkt p) 1 1 (inl book)] in
  (side p = "buy"%string ->
     (fst (getOrderBookEntry g (mkt p) (side p) s) = inr ERROR_NO_ASKS
      <-> Asks book = [])
     /\ (Asks book = [] ->
         sweep g (S fuel) c p l s =
           Some (Some ERROR_NO_ASKS, l,
                 mkState w' (answered ++ [PrintError ERROR_NO_ASKS]))))
  /\ (side p = "sell"%string ->
     (fst (getOrderBookEntry g (mkt p) (side p) s) = inr ERROR_NO_BIDS
      <-> Bids book = [])
     /\ (Bids book = [] ->
         sweep g (S fuel) c p l s =
           Some (Some ERROR_NO_BIDS, l,
                 mkState w' (answered ++ [PrintError ERROR_NO_BIDS])))).
Proof.
  intros Hmax Hbook answered.
  assert (Hq : forall r, getOrderBookEntry g (mkt p) (side p) s
             = (r, mkState w' answered) ->
           forall err, r = inr err ->
           sweep g (S fuel) c p l s =
             Some (Some err, l, mkState w' (answered ++ [PrintError err]))).
  { intros r Hr err ->. cbn [sweep].
    rewrite (iteration_query_fails c p l s _ err Hmax Hr). reflexivity. }
  unfold getOrderBookEntry, callOrderBook in *. rewrite Hbook in *.
  fold answered in Hq |- *.
  split; intros Hside; rewrite Hside in *; cbn [String.eqb Ascii.eqb Bool.eqb] in *.
  - destruct (Asks book) as [|entry asks]; cbn [fst].
    + split; [split; reflexivity|]. intros _. eapply Hq; reflexivity.
    + split; [split; discriminate|]. discriminate.
  - destruct (Bids book) as [|entry bids]; cbn [fst].
    + split; [split; reflexivity|]. intros _. eapply Hq; reflexivity.
    + split; [split; discriminate|]. discriminate.
Qed.

(** ** The slice and the top of book *)

(** Rounding adds at most half a unit of the last digit. *)
Lemma round_le_half (v : Q) (d : Z) :
  (0 <= d)%Z ->
  0 <= v ->
  v * tenTo d + 0.5 < inject_Z (2 ^ 63) ->
  round v d <= v + 0.5 / tenTo d.
Proof.
  intros Hd Hv Hmax. pose proof (tenTo_pos d Hd) as Hpos.
  assert (H0 : 0 <= v * tenTo d + 0.5) by nra.
  rewrite (round_floor v d Hd H0 Hmax).
  apply Qle_shift_div_r; [exact Hpos|].
  eapply Qle_trans; [apply Qfloor_le|].
  assert (E : (v + 0.5 / tenTo d) * tenTo d == v * tenTo d + 0.5)
    by (field; lra).
  rewrite E. apply Qle_refl.
Qed.

Lemma Qfloor_plus_half (k : Z) : Qfloor (inject_Z k + 0.5) = k.
Proof.
  assert (E : inject_Z k + 0.5 == (2 * k + 1) # 2)
    by (unfold Qeq, inject_Z, Qplus; simpl; lia).
  rewrite (Qfloor_comp _ _ E). unfold Qfloor.
  symmetry. apply Z.div_unique with 1%Z; lia.
Qed.

(** An amount with at most [d] fractional digits is left as it is. *)
Lemma round_grid (v : Q) (d k : Z) :
  (0 <= d)%Z ->
  (0 <= k)%Z ->
  inject_Z k + 0.5 < inject_Z (2 ^ 63) ->
  v == inject_Z k / tenTo d ->
  round v d == v.
Proof.
  intros Hd Hk Hmax Hv. pose proof (tenTo_pos d Hd) as Hpos.
  assert (E : v * tenTo d + 0.5 == inject_Z k + 0.5)
    by (rewrite Hv; field; lra).
  assert (Hk' : 0 <= inject_Z k)
    by (change 0 with (inject_Z 0); rewrite <- Zle_Qle; exact Hk).
  rewrite round_floor; [| exact Hd | rewrite E; lra | rewrite E; exact Hmax].
  rewrite (Qfloor_comp _ _ E), Qfloor_plus_half, Hv. reflexivity.
Qed.

Lemma decimalsOf_nonneg (mkt : string) : (0 <= decimalsOf mkt)%Z.
Proof. unfold decimalsOf. destruct (negb _); lia. Qed.

Lemma clamp_cases (btcAmount : Q) (bookEntry : BookEntry) (d : Z) :
  (Amount bookEntry < btcAmount ->
     clamp btcAmount bookEntry d = round (Amount bookEntry) d)
  /\ (btcAmount <= Amount bookEntry -> clamp btcAmount bookEntry d = btcAmount).
Proof.
  unfold clamp. split; intros H.
  - apply ltb_lt in H. rewrite H. reflexivity.
  - apply ltb_ge in H. rewrite H. reflexivity.
Qed.

(** C4 (as amended).  In every pass of a sweep whose book query succeeds, the
    order submitted has the amount [btcAmount] with: if the top-of-book
    amount is less than the raw slice, [btcAmount] is
    [round(bookEntry.Amount, decimals)]; otherwise it is the raw slice,
    which is at most the top-of-book amount.  So the submitted amount never
    exceeds the larger of the displayed amount and its rounding: it exceeds
    the displayed amount by at most half a unit of the last digit, and not at
    all when the displayed amount has at most [decimals] fractional
    digits. *)
Theorem slice_is_clamped (c : cli.Context) (l : Locals) (s s1 : State World)
    (bookEntry : BookEntry) :
  let p := setup c in
  let d := decimals p in
  let raw :=
    rawSlice (amount p) (fillAmountOf (amount p) (baseAmount p) (executedAmt l))
      bookEntry d in
  retries l <> RETRIES_MAX ->
  getOrderBookEntry g (mkt p) (side p) s = (inl bookEntry, s1) ->
  exists btcAmount res evs,
    trace (snd (iteration g c p l s)) =
      trace s1 ++ CallNewOrder (mkt p) "" btcAmount (Price bookEntry) (side p)
                    ["immediate-or-cancel"%string] res :: evs
    /\ submitted evs = []
    /\ (Amount bookEntry < raw -> btcAmount = round (Amount bookEntry) d)
    /\ (raw <= Amount bookEntry -> btcAmount = raw)
    /\ (btcAmount <= Amount bookEntry \/ btcAmount = round (Amount bookEntry) d)
    /\ (0 <= Amount bookEntry ->
        Amount bookEntry * tenTo d + 0.5 < inject_Z (2 ^ 63) ->
        btcAmount <= Amount bookEntry + 0.5 / tenTo d)
    /\ (forall k : Z,
          (0 <= k)%Z ->
          inject_Z k + 0.5 < inject_Z (2 ^ 63) ->
          Amount bookEntry == inject_Z k / tenTo d ->
          btcAmount <= Amount bookEntry).
Proof.
  intros p d raw Hmax Hq.
  destruct (iteration_submits c p l s s1 bookEntry Hmax Hq)
    as (res & evs & Ht & Hs).
  exists (btcAmountOf p (executedAmt l) bookEntry), res, evs.
  split; [exact Ht|]. split; [exact Hs|].
  assert (Hd : (0 <= d)%Z) by apply decimalsOf_nonneg.
  unfold btcAmountOf. fold d raw.
  destruct (clamp_cases raw bookEntry d) as [Hlt Hge].
  split; [exact Hlt|]. split; [exact Hge|].
  assert (Hor : clamp raw bookEntry d <= Amount bookEntry
                \/ clamp raw bookEntry d = round (Amount bookEntry) d).
  { destruct (Qlt_le_dec (Amount bookEntry) raw) as [H|H].
    - right. apply Hlt, H.
    - left. rewrite (Hge H). exact H. }
  split; [exact Hor|]. split.
  - intros H0 Hrange. pose proof (tenTo_pos d Hd) as Hpos.
    assert (Hhalf : 0 <= 0.5 / tenTo d)
      by (apply Qle_shift_div_l; [exact Hpos | lra]).
    destruct Hor as [H|H]; [lra|].
    rewrite H. apply round_le_half; assumption.
  - intros k Hk Hrange Hgrid. destruct Hor as [H|H]; [exact H|].
    rewrite H, (round_grid _ d k Hd Hk Hrange Hgrid). apply Qle_refl.
Qed.

End Properties.

(** * Scenarios *)

(** ** C1: a base-denominated request *)

(** C1, as stated, fails for a base-denominated request: for a buy of
    [base-amt = 2] with [amt = 0] and 25 basis points the target of the sweep
    is 2, not [2 × (1 − 25/10000) = 1.995], and the order submitted against a
    book that shows 10 is for 2. *)
Lemma base_amount_is_not_fee_adjusted :
  cli.Float64 Sim.baseBuy "amt" == 0
  /\ 0 < cli.Float64 Sim.baseBuy "base-amt"
  /\ cli.String Sim.baseBuy "side" = "buy"%string
  /\ cli.Int Sim.baseBuy "bps" = 25%Z
  /\ target (amount (setup Sim.baseBuy)) (baseAmount (setup Sim.baseBuy)) == 2
  /\ ~ target (amount (setup Sim.baseBuy)) (baseAmount (setup Sim.baseBuy))
       == 2 * (1 - inject_Z 25 / 10000)
  /\ exists err s' btcAmount,
       market (Sim.fullFill Sim.cheap) Sim.baseBuy Sim.start = Some (err, s')
       /\ submitted (trace s') = [(btcAmount, 0.05)]
       /\ btcAmount == 2
       /\ ~ btcAmount == round (2 * (1 - inject_Z 25 / 10000)) 6.
Proof.
  do 6 (split; [vm_compute; congruence|]).
  do 3 eexists. split; [vm_compute; reflexivity|].
  repeat split; vm_compute; congruence.
Qed.

(** ** C2: the command table *)

(** [gemini-cli market --mkt btcusd --side buy --amt 100 --bps 25] on a book
    that shows 1 at 50000 and an exchange that fills every order: one query,
    one order for 0.001995, the print of that order, [nil]. *)
Lemma market_is_one_shot_witness :
  cli.newContext marketFlags Sim.buy100 = Some Sim.buy100Table
  /\ cli.Bool Sim.buy100Table "unsafe" = false
  /\ btcAmountOf (setup Sim.buy100Table) 0 Sim.deep == 0.001995
  /\ run (Sim.fullFill Sim.deep) Sim.buy100Table Sim.start
     = Some (None, entry,
             mkState tt
               [CallOrderBook "btcusd" 1 1 (inl (Sim.bookOf Sim.deep));
                CallNewOrder "btcusd" ""
                  (btcAmountOf (setup Sim.buy100Table) 0 Sim.deep) 50000 "buy"
                  ["immediate-or-cancel"%string]
                  (inl (Sim.filled "btcusd" "buy"
                          (btcAmountOf (setup Sim.buy100Table) 0 Sim.deep) 50000));
                PrintOrder
                  (Sim.filled "btcusd" "buy"
                     (btcAmountOf (setup Sim.buy100Table) 0 Sim.deep) 50000)]).
Proof.
  assert (H : cli.newContext marketFlags Sim.buy100 = Some Sim.buy100Table)
    by (vm_compute; reflexivity).
  destruct (market_is_one_shot (Sim.fullFill Sim.deep) Sim.buy100 Sim.buy100Table
              Sim.start H) as (Hoff & _ & Hone).
  assert (Hvalid : 0 < cli.Float64 Sim.buy100Table "amt"
                   \/ 0 < cli.Float64 Sim.buy100Table "base-amt")
    by (left; vm_compute; reflexivity).
  destruct (Hone Hvalid (Sim.bookOf Sim.deep) tt Sim.deep []
              (inl (Sim.filled "btcusd" "buy"
                      (btcAmountOf (setup Sim.buy100Table) 0 Sim.deep) 50000))
              tt)
    as (Hrun & _); [vm_compute; reflexivity ..|].
  split; [exact H|]. split; [exact Hoff|].
  split; [vm_compute; reflexivity|].
  vm_compute in Hrun. vm_compute. exact Hrun.
Defined.

(** ** C3: an exchange that never fills *)

Lemma noFill_starved (c : cli.Context) :
  cli.String c "mkt" = "btcusd"%string ->
  cli.String c "side" = "buy"%string ->
  cli.Float64 c "amt" = 100 ->
  cli.Float64 c "base-amt" = 0 ->
  cli.Int c "bps" = 25%Z ->
  starved (Sim.noFill Sim.deep) (setup c) (fun acc _ => acc = 0).
Proof.
  intros Hm Hs Ha Hb Hbps acc s ->. unfold setup.
  rewrite Hm, Hs, Ha, Hb, Hbps.
  do 4 eexists. split; [reflexivity|]. split; [reflexivity|].
  split; vm_compute; reflexivity.
Qed.

Lemma retries_exhausted_witness :
  cli.Bool Sim.buy100Unsafe "unsafe" = true
  /\ 0 < cli.Float64 Sim.buy100Unsafe "amt"
  /\ starved (Sim.noFill Sim.deep) (setup Sim.buy100Unsafe) (fun acc _ => acc = 0)
  /\ exists l' s' evs,
       run (Sim.noFill Sim.deep) Sim.buy100Unsafe Sim.start
         = Some (Some ERROR_MAX_RETRIES, l', s')
       /\ trace s' = trace Sim.start ++ evs ++ [PrintError ERROR_MAX_RETRIES]
       /\ length (submitted evs) = 50%nat
       /\ length (queries evs) = 50%nat
       /\ retries entry = 0%Z
       /\ retries l' = RETRIES_MAX.
Proof.
  assert (H1 : cli.Bool Sim.buy100Unsafe "unsafe" = true)
    by (vm_compute; reflexivity).
  assert (H2 : 0 < cli.Float64 Sim.buy100Unsafe "amt")
    by (vm_compute; reflexivity).
  assert (H3 : starved (Sim.noFill Sim.deep) (setup Sim.buy100Unsafe)
                 (fun acc _ => acc = 0))
    by (apply noFill_starved; vm_compute; reflexivity).
  split; [exact H1|]. split; [exact H2|]. split; [exact H3|].
  apply (retries_exhausted (Sim.noFill Sim.deep) Sim.buy100Unsafe Sim.start
           (fun acc _ => acc = 0) H1 (or_introl H2) H3).
  reflexivity.
Defined.

(** C3, as stated, fails under the command table: the exchange accepts every
    query and every order and fills nothing, so the accumulated amount never
    reaches the threshold, yet the command submits one order and returns
    [nil] instead of making 50 passes and failing with Max retries. *)
Lemma sweep_without_unsafe_stops_after_one_pass :
  cli.newContext marketFlags Sim.buy100 = Some Sim.buy100Table
  /\ exists l' s',
       run (Sim.noFill Sim.deep) Sim.buy100Table Sim.start = Some (None, l', s')
       /\ length (submitted (trace s')) = 1%nat
       /\ length (queries (trace s')) = 1%nat
       /\ Forall (fun fill => ExecutedAmount fill == 0) (fills (trace s'))
       /\ satisfied (setup Sim.buy100Table) (executedAmt l') = false
       /\ retries l' = 0%Z.
Proof.
  split; [vm_compute; reflexivity|].
  do 2 eexists. split; [vm_compute; reflexivity|].
  repeat split; try (vm_compute; reflexivity).
  cbn. repeat constructor.
Qed.

(** ** C4: a top of book finer than the precision of the market *)

Lemma slice_is_clamped_witness :
  retries entry <> RETRIES_MAX
  /\ getOrderBookEntry (Sim.fullFill Sim.thin) (mkt (setup Sim.ethBuy))
       (side (setup Sim.ethBuy)) Sim.start
     = (inl Sim.thin,
        mkState tt [CallOrderBook "ethusd" 1 1 (inl (Sim.bookOf Sim.thin))])
  /\ exists btcAmount res evs,
       trace (snd (iteration (Sim.fullFill Sim.thin) Sim.ethBuy
                     (setup Sim.ethBuy) entry Sim.start))
       = [CallOrderBook "ethusd" 1 1 (inl (Sim.bookOf Sim.thin));
          CallNewOrder "ethusd" "" btcAmount 100 "buy"
            ["immediate-or-cancel"%string] res] ++ evs
       /\ submitted evs = []
       /\ btcAmount = round (Amount Sim.thin) 6
       /\ btcAmount <= Amount Sim.thin + 0.5 / tenTo 6.
Proof.
  assert (H1 : retries entry <> RETRIES_MAX) by (vm_compute; congruence).
  assert (H2 : getOrderBookEntry (Sim.fullFill Sim.thin) (mkt (setup Sim.ethBuy))
                 (side (setup Sim.ethBuy)) Sim.start
               = (inl Sim.thin,
                  mkState tt [CallOrderBook "ethusd" 1 1 (inl (Sim.bookOf Sim.thin))]))
    by (vm_compute; reflexivity).
  split; [exact H1|]. split; [exact H2|].
  destruct (slice_is_clamped (Sim.fullFill Sim.thin) Sim.ethBuy entry Sim.start
              _ Sim.thin H1 H2)
    as (btcAmount & res & evs & Ht & Hs & Hlt & _ & _ & Hhalf & _).
  exists btcAmount, res, evs.
  split; [exact Ht|]. split; [exact Hs|].
  split; [apply Hlt; vm_compute; reflexivity|].
  apply Hhalf; vm_compute; congruence.
Defined.

(** C4, as stated, fails in its consequence: on ethusd (6 digits) a top of
    book of 0.0000018 is less than the raw slice, the slice is clamped to
    [round(0.0000018, 6) = 0.000002], and the order submitted is for more
    than the book displays. *)
Lemma clamped_slice_exceeds_top_of_book :
  exists err s' btcAmount,
    market (Sim.fullFill Sim.thin) Sim.ethBuy Sim.start = Some (err, s')
    /\ queries (trace s') = [inl (Sim.bookOf Sim.thin)]
    /\ submitted (trace s') = [(btcAmount, Price Sim.thin)]
    /\ Amount Sim.thin
       < rawSlice (amount (setup Sim.ethBuy))
           (fillAmountOf (amount (setup Sim.ethBuy)) (baseAmount (setup Sim.ethBuy)) 0)
           Sim.thin (decimals (setup Sim.ethBuy))
    /\ btcAmount == round (Amount Sim.thin) (decimals (setup Sim.ethBuy))
    /\ btcAmount == 0.000002
    /\ Amount Sim.thin < btcAmount.
Proof.
  do 3 eexists. split; [vm_compute; reflexivity|].
  repeat split; vm_compute; congruence.
Qed.

(** ** C5: a fill under the command table *)

(** C5, as stated, fails under the command table: the sweep is
    quote-denominated, its one pass receives a fill of 0.001995 at 50000,
    and the command returns with nothing accumulated. *)
Lemma fill_without_unsafe_is_not_accumulated :
  cli.newContext marketFlags Sim.buy100 = Some Sim.buy100Table
  /\ exists l' s' fill,
       run (Sim.fullFill Sim.deep) Sim.buy100Table Sim.start = Some (None, l', s')
       /\ fills (trace s') = [fill]
       /\ 0 < amount (setup Sim.buy100Table)
       /\ ExecutedAmount fill * AvgExecutionPrice fill == 99.75
       /\ executedAmt l' == 0
       /\ ~ executedAmt l' == 0 + ExecutedAmount fill * AvgExecutionPrice fill.
Proof.
  split; [vm_compute; reflexivity|].
  do 3 eexists. split; [vm_compute; reflexivity|].
  repeat split; vm_compute; congruence.
Qed.

(** ** C7: one-sided books *)

Lemma no_liquidity_aborts_witness :
  (retries entry <> RETRIES_MAX
   /\ OrderBook (Sim.onlyBids Sim.deep) "btcusd" 1 1 tt
      = (inl (mkBook [Sim.deep] []), tt)
   /\ (fst (getOrderBookEntry (Sim.onlyBids Sim.deep) "btcusd" "buy" Sim.start)
         = inr ERROR_NO_ASKS <-> @nil BookEntry = [])
   /\ sweep (Sim.onlyBids Sim.deep) 51 Sim.buy100Table (setup Sim.buy100Table)
        entry Sim.start
      = Some (Some ERROR_NO_ASKS, entry,
              mkState tt [CallOrderBook "btcusd" 1 1 (inl (mkBook [Sim.deep] []));
                          PrintError ERROR_NO_ASKS]))
  /\ (OrderBook (Sim.onlyAsks Sim.deep) "btcusd" 1 1 tt
      = (inl (mkBook [] [Sim.deep]), tt)
      /\ (fst (getOrderBookEntry (Sim.onlyAsks Sim.deep) "btcusd" "sell" Sim.start)
            = inr ERROR_NO_BIDS <-> @nil BookEntry = [])
      /\ sweep (Sim.onlyAsks Sim.deep) 51 Sim.sell100Table (setup Sim.sell100Table)
           entry Sim.start
         = Some (Some ERROR_NO_BIDS, entry,
                 mkState tt [CallOrderBook "btcusd" 1 1 (inl (mkBook [] [Sim.deep]));
                             PrintError ERROR_NO_BIDS])).
Proof.
  assert (H0 : retries entry <> RETRIES_MAX) by (vm_compute; congruence).
  split.
  - destruct (no_liquidity_aborts (Sim.onlyBids Sim.deep) 50 Sim.buy100Table
                (setup Sim.buy100Table) entry Sim.start
                (mkBook [Sim.deep] []) tt H0) as ((Hiff & Hsweep) & _).
    + vm_compute. reflexivity.
    + vm_compute. reflexivity.
    + split; [exact H0|]. split; [reflexivity|].
      split; [exact Hiff | apply Hsweep; reflexivity].
  - destruct (no_liquidity_aborts (Sim.onlyAsks Sim.deep) 50 Sim.sell100Table
                (setup Sim.sell100Table) entry Sim.start
                (mkBook [] [Sim.deep]) tt H0) as (_ & (Hiff & Hsweep)).
    + vm_compute. reflexivity.
    + vm_compute. reflexivity.
    + split; [reflexivity|].
      split; [exact Hiff | apply Hsweep; reflexivity].
Defined.

(** ** C8: the example scenario of the specification *)

(** C8 (as amended).  Market btcusd, side buy, [amt = 100], [bps = 25], a
    book that always offers 1.0 at 50000, orders that execute in full at the
    submitted size and price.  The fee-adjusted target is 99.75 and the
    tolerance 0.01; the command makes one pass: one book query and one
    submission of [round(99.75/50000, 8) = 0.001995] at 50000; that fill
    accounts for [0.001995 × 50000 = 99.75], which satisfies the termination
    test; and the command returns [nil].  This holds under the command table
    and with an [unsafe] flag declared, set or not, with or without [json].
    The amount accumulated at the return is 99.75 when [unsafe] is true; with
    [unsafe] false the command returns before the fill is accounted, and it
    is 0. *)
Theorem example_scenario (declared u j : bool) :
  let c := Sim.scenario declared u j in
  let p := setup c in
  amount p == 99.75
  /\ minAmt p == 0.01
  /\ decimals p = 8%Z
  /\ round (99.75 / 50000) 8 == 0.001995
  /\ exists l' s' btcAmount fill,
       run (Sim.fullFill Sim.deep) c Sim.start = Some (None, l', s')
       /\ queries (trace s') = [inl (Sim.bookOf Sim.deep)]
       /\ submitted (trace s') = [(btcAmount, 50000)]
       /\ btcAmount == 0.001995
       /\ fills (trace s') = [fill]
       /\ ExecutedAmount fill == 0.001995
       /\ AvgExecutionPrice fill == 50000
       /\ account (amount p) 0 fill == 99.75
       /\ amount p - minAmt p <= account (amount p) 0 fill
       /\ satisfied p (account (amount p) 0 fill) = true
       /\ retries l' = 0%Z
       /\ executedAmt l' == (if cli.Bool c "unsafe" then 99.75 else 0).
Proof.
  intros c p. subst c p.
  do 4 (split; [destruct declared, u, j; vm_compute; reflexivity|]).
  destruct declared, u, j;
    do 4 eexists; (split; [vm_compute; reflexivity|]);
    repeat split; vm_compute; congruence.
Qed.

(** C8, as stated, fails under the command table in one point: the fill of
    0.001995 at 50000 is received and the command returns [nil] after that
    one pass, but the accumulated amount at the return is 0, not 99.75. *)
Lemma scenario_without_unsafe_accumulates_nothing :
  cli.newContext marketFlags (Sim.buy100 ++ [Sim.json false])
    = Some (Sim.scenario false false false)
  /\ exists l' s' fill,
       run (Sim.fullFill Sim.deep) (Sim.scenario false false false) Sim.start
         = Some (None, l', s')
       /\ fills (trace s') = [fill]
       /\ ExecutedAmount fill * AvgExecutionPrice fill == 99.75
       /\ executedAmt l' == 0
       /\ ~ executedAmt l' == 99.75.
Proof.
  split; [vm_compute; reflexivity|].
  do 3 eexists. split; [vm_compute; reflexivity|].
  repeat split; vm_compute; congruence.
Qed.

(** ** C10: a fee of 100 percent *)

Lemma fullFill_responsive (p : Setup) (bookEntry : BookEntry) :
  responsive (Sim.fullFill bookEntry) p (fun _ => True).
Proof.
  intros s _. unfold getOrderBookEntry, callOrderBook. cbn.
  destruct (String.eqb (side p) "buy");
    do 2 eexists; (split; [reflexivity|]);
    intros btcAmount; do 2 eexists; (split; [reflexivity | exact I]).
Qed.

Lemma full_fee_buy_never_done_witness :
  cli.String Sim.fullFeeUnsafe "side" = "buy"%string
  /\ 0 < cli.Float64 Sim.fullFeeUnsafe "amt"
  /\ cli.Float64 Sim.fullFeeUnsafe "base-amt" == 0
  /\ (10000 <= cli.Int Sim.fullFeeUnsafe "bps")%Z
  /\ cli.Bool Sim.fullFeeUnsafe "unsafe" = true
  /\ amount (setup Sim.fullFeeUnsafe) <= 0
  /\ (0 <? amount (setup Sim.fullFeeUnsafe)) = false
  /\ target (amount (setup Sim.fullFeeUnsafe)) (baseAmount (setup Sim.fullFeeUnsafe)) == 0
  /\ (forall acc, satisfied (setup Sim.fullFeeUnsafe) acc = false)
  /\ exists l' s' evs,
       run (Sim.fullFill Sim.deep) Sim.fullFeeUnsafe Sim.start
         = Some (Some ERROR_MAX_RETRIES, l', s')
       /\ trace s' = trace Sim.start ++ evs ++ [PrintError ERROR_MAX_RETRIES]
       /\ length (submitted evs) = 50%nat
       /\ length (queries evs) = 50%nat.
Proof.
  assert (H1 : cli.String Sim.fullFeeUnsafe "side" = "buy"%string)
    by (vm_compute; reflexivity).
  assert (H2 : 0 < cli.Float64 Sim.fullFeeUnsafe "amt")
    by (vm_compute; reflexivity).
  assert (H3 : cli.Float64 Sim.fullFeeUnsafe "base-amt" == 0)
    by (vm_compute; reflexivity).
  assert (H4 : (10000 <= cli.Int Sim.fullFeeUnsafe "bps")%Z)
    by (vm_compute; congruence).
  assert (H5 : cli.Bool Sim.fullFeeUnsafe "unsafe" = true)
    by (vm_compute; reflexivity).
  destruct (full_fee_buy_never_done (Sim.fullFill Sim.deep) Sim.fullFeeUnsafe
              Sim.start (fun _ => True) H1 H2 H3 H4)
    as (Ha & Hb & Hc & Hd & He).
  do 5 (split; [assumption|]).
  do 4 (split; [assumption|]).
  apply He; [exact H5 | apply fullFill_responsive | exact I].
Defined.

(** C10, as stated, fails under the command table: with a fee of 10000
    basis points the adjusted amount is 0 and the success condition is
    false, yet the command returns [nil] after its first submission (of an
    amount of 0) instead of ending with the Max retries error. *)
Lemma full_fee_buy_without_unsafe_returns_nil :
  cli.newContext marketFlags Sim.fullFee = Some Sim.fullFeeTable
  /\ cli.String Sim.fullFeeTable "side" = "buy"%string
  /\ 0 < cli.Float64 Sim.fullFeeTable "amt"
  /\ cli.Float64 Sim.fullFeeTable "base-amt" == 0
  /\ (10000 <= cli.Int Sim.fullFeeTable "bps")%Z
  /\ exists l' s' btcAmount,
       run (Sim.fullFill Sim.deep) Sim.fullFeeTable Sim.start = Some (None, l', s')
       /\ submitted (trace s') = [(btcAmount, 50000)]
       /\ btcAmount == 0
       /\ satisfied (setup Sim.fullFeeTable) (executedAmt l') = false
       /\ market (Sim.fullFill Sim.deep) Sim.fullFeeTable Sim.start
            <> Some (Some ERROR_MAX_RETRIES, s').
Proof.
  do 5 (split; [vm_compute; congruence|]).
  do 3 eexists. split; [vm_compute; reflexivity|].
  repeat split; vm_compute; congruence.
Qed.

(** * Further properties *)

(** ** Rounding *)

(** The integer that [round] divides by [10^d], for a value that is not
    negative. *)
Lemma round_steps (v : Q) (d : Z) :
  (0 <= d)%Z ->
  0 <= v ->
  v * tenTo d + 0.5 < inject_Z (2 ^ 63) ->
  exists k : Z,
    (0 <= k)%Z
    /\ inject_Z k + 0.5 < inject_Z (2 ^ 63)
    /\ round v d == inject_Z k / tenTo d
    /\ inject_Z k <= v * tenTo d + 0.5
    /\ v * tenTo d + 0.5 < inject_Z k + 1.
Proof.
  intros Hd Hv Hmax. pose proof (tenTo_pos d Hd) as Hpos.
  assert (H0 : 0 <= v * tenTo d + 0.5) by nra.
  exists (Qfloor (v * tenTo d + 0.5)).
  pose proof (Qfloor_nonneg _ H0) as Hk.
  pose proof (Qfloor_le (v * tenTo d + 0.5)) as Hle.
  pose proof (Qlt_floor (v * tenTo d + 0.5)) as Hlt.
  rewrite inject_Z_plus in Hlt. change (inject_Z 1) with 1 in Hlt.
  split; [exact Hk|]. split.
  - assert (Hz : (Qfloor (v * tenTo d + 0.5) < 2 ^ 63)%Z)
      by (rewrite Zlt_Qlt; lra).
    assert (Hz' : (Qfloor (v * tenTo d + 0.5) + 1 <= 2 ^ 63)%Z) by lia.
    rewrite Zle_Qle, inject_Z_plus in Hz'. change (inject_Z 1) with 1 in Hz'.
    lra.
  - split; [apply round_floor; assumption|]. split; assumption.
Qed.

(** X1.  [round] moves a non-negative value by at most half a unit of the
    last digit: [v − 0.5/10^d < round(v, d) <= v + 0.5/10^d]. *)
Theorem round_within_half_unit (v : Q) (d : Z) :
  (0 <= d)%Z ->
  0 <= v ->
  v * tenTo d + 0.5 < inject_Z (2 ^ 63) ->
  v - 0.5 / tenTo d < round v d /\ round v d <= v + 0.5 / tenTo d.
Proof.
  intros Hd Hv Hmax. pose proof (tenTo_pos d Hd) as Hpos.
  split; [|apply round_le_half; assumption].
  destruct (round_steps v d Hd Hv Hmax) as (k & _ & _ & Hr & _ & Hlt).
  rewrite Hr. apply Qlt_shift_div_l; [exact Hpos|].
  assert (E : (v - 0.5 / tenTo d) * tenTo d == v * tenTo d - 0.5)
    by (field; lra).
  rewrite E. lra.
Qed.

Lemma round_within_half_unit_witness :
  (0 <= 8)%Z
  /\ 0 <= 0.0019950049
  /\ 0.0019950049 * tenTo 8 + 0.5 < inject_Z (2 ^ 63)
  /\ 0.0019950049 - 0.5 / tenTo 8 < round 0.0019950049 8
  /\ round 0.0019950049 8 <= 0.0019950049 + 0.5 / tenTo 8.
Proof.
  assert (H1 : (0 <= 8)%Z) by lia.
  assert (H2 : 0 <= 0.0019950049) by (vm_compute; congruence).
  assert (H3 : 0.0019950049 * tenTo 8 + 0.5 < inject_Z (2 ^ 63))
    by (vm_compute; reflexivity).
  do 3 (split; [assumption|]).
  apply (round_within_half_unit 0.0019950049 8 H1 H2 H3).
Defined.

(** X2.  [round] is idempotent on non-negative values: rounding a rounded
    amount again at the same precision does not change it. *)
Theorem round_idempotent (v : Q) (d : Z) :
  (0 <= d)%Z ->
  0 <= v ->
  v * tenTo d + 0.5 < inject_Z (2 ^ 63) ->
  round (round v d) d == round v d.
Proof.
  intros Hd Hv Hmax.
  destruct (round_steps v d Hd Hv Hmax) as (k & Hk & Hkmax & Hr & _).
  apply (round_grid (round v d) d k Hd Hk Hkmax Hr).
Qed.

Lemma round_idempotent_witness :
  (0 <= 6)%Z
  /\ 0 <= 1.0000005
  /\ 1.0000005 * tenTo 6 + 0.5 < inject_Z (2 ^ 63)
  /\ round (round 1.0000005 6) 6 == round 1.0000005 6.
Proof.
  assert (H1 : (0 <= 6)%Z) by lia.
  assert (H2 : 0 <= 1.0000005) by (vm_compute; congruence).
  assert (H3 : 1.0000005 * tenTo 6 + 0.5 < inject_Z (2 ^ 63))
    by (vm_compute; reflexivity).
  do 3 (split; [assumption|]).
  apply (round_idempotent 1.0000005 6 H1 H2 H3).
Defined.

Lemma round_mono (v w : Q) (d : Z) :
  (0 <= d)%Z ->
  0 <= v ->
  v <= w ->
  w * tenTo d + 0.5 < inject_Z (2 ^ 63) ->
  round v d <= round w d.
Proof.
  intros Hd Hv Hvw Hmax. pose proof (tenTo_pos d Hd) as Hpos.
  assert (Hle : v * tenTo d + 0.5 <= w * tenTo d + 0.5) by nra.
  rewrite !round_floor; try assumption; try nra.
  apply Qmult_le_compat_r.
  - rewrite <- Zle_Qle. apply Qfloor_resp_le, Hle.
  - apply Qlt_le_weak, Qinv_lt_0_compat, Hpos.
Qed.

(** X3.  [round] is monotone on non-negative values: a larger amount never
    rounds to a smaller one. *)
Theorem round_monotone (v w : Q) (d : Z) :
  (0 <= d)%Z ->
  0 <= v ->
  v <= w ->
  w * tenTo d + 0.5 < inject_Z (2 ^ 63) ->
  round v d <= round w d.
Proof. exact (round_mono v w d). Qed.

Lemma round_monotone_witness :
  (0 <= 8)%Z
  /\ 0 <= 0.5
  /\ 0.5 <= 0.50000001
  /\ 0.50000001 * tenTo 8 + 0.5 < inject_Z (2 ^ 63)
  /\ round 0.5 8 <= round 0.50000001 8.
Proof.
  assert (H1 : (0 <= 8)%Z) by lia.
  assert (H2 : 0 <= 0.5) by (vm_compute; congruence).
  assert (H3 : 0.5 <= 0.50000001) by (vm_compute; congruence).
  assert (H4 : 0.50000001 * tenTo 8 + 0.5 < inject_Z (2 ^ 63))
    by (vm_compute; reflexivity).
  do 4 (split; [assumption|]).
  apply (round_monotone 0.5 0.50000001 8 H1 H2 H3 H4).
Defined.

Lemma Qtrunc_ceiling (x : Q) : x <= 0 -> Qtrunc x = Qceiling x.
Proof.
  destruct x as [n d]. unfold Qle, Qtrunc, Qceiling, Qfloor, Qopp. simpl.
  intros H.
  assert (E : n = (- - n)%Z) by lia.
  rewrite E at 1. rewrite Z.quot_opp_l by lia.
  rewrite Z.quot_div_nonneg by lia. reflexivity.
Qed.

(** X4.  Below zero [round] is not round-half-up: for a value [v] with
    [v × 10^d + 0.5 <= 0] (and within the range of [int]) it is
    [ceiling(v × 10^d + 0.5) / 10^d], half a unit above the value and then
    toward zero. *)
Theorem round_below_zero (v : Q) (d : Z) :
  (0 <= d)%Z ->
  v * tenTo d + 0.5 <= 0 ->
  inject_Z (- 2 ^ 63) <= v * tenTo d + 0.5 ->
  round v d == inject_Z (Qceiling (v * tenTo d + 0.5)) / tenTo d.
Proof.
  intros Hd H0 Hmin. unfold round, float64.
  pose proof (powLoop_tenTo d Hd) as Hp.
  assert (E : v * powLoop (Z.to_nat d) 1 + 0.5 == v * tenTo d + 0.5)
    by (rewrite Hp; reflexivity).
  assert (Hint : int (v * powLoop (Z.to_nat d) 1 + 0.5)
                 = Qceiling (v * tenTo d + 0.5)).
  { unfold int. rewrite Qtrunc_ceiling by (rewrite E; exact H0).
    assert (Ec : Qceiling (v * powLoop (Z.to_nat d) 1 + 0.5)
                 = Qceiling (v * tenTo d + 0.5)).
    { unfold Qceiling. f_equal. apply Qfloor_comp. rewrite E. reflexivity. }
    rewrite Ec.
    assert (Hhi : (Qceiling (v * tenTo d + 0.5) <= 0)%Z).
    { change 0%Z with (Qceiling 0). apply Qceiling_resp_le, H0. }
    assert (Hlo : (- 2 ^ 63 <= Qceiling (v * tenTo d + 0.5))%Z).
    { rewrite <- (Qceiling_Z (- 2 ^ 63)). apply Qceiling_resp_le, Hmin. }
    unfold minInt64, maxInt64.
    destruct (Z.leb_spec (- 2 ^ 63) (Qceiling (v * tenTo d + 0.5))); [|lia].
    destruct (Z.leb_spec (Qceiling (v * tenTo d + 0.5)) (2 ^ 63 - 1)); [|lia].
    reflexivity. }
  rewrite Hint, Hp. reflexivity.
Qed.

Lemma round_below_zero_witness :
  (0 <= 6)%Z
  /\ (-0.0000027) * tenTo 6 + 0.5 <= 0
  /\ inject_Z (- 2 ^ 63) <= (-0.0000027) * tenTo 6 + 0.5
  /\ round (-0.0000027) 6
     == inject_Z (Qceiling ((-0.0000027) * tenTo 6 + 0.5)) / tenTo 6.
Proof.
  assert (H1 : (0 <= 6)%Z) by lia.
  assert (H2 : (-0.0000027) * tenTo 6 + 0.5 <= 0) by (vm_compute; congruence).
  assert (H3 : inject_Z (- 2 ^ 63) <= (-0.0000027) * tenTo 6 + 0.5)
    by (vm_compute; congruence).
  do 3 (split; [assumption|]).
  apply (round_below_zero (-0.0000027) 6 H1 H2 H3).
Defined.

(** ** The fee adjustment, continued *)

(** X5.  The amount pursued by a buy stays positive exactly for fees below
    100 percent: for a positive raw amount, the buy-adjusted amount is
    positive if and only if [bps < 10000]. *)
Theorem buy_adjusted_positive_iff (raw : Q) (bps : Z) :
  0 < raw ->
  (0 < feeAdjust "buy" raw (getFeeRatio bps) <-> (bps < 10000)%Z).
Proof.
  intros Hraw. split.
  - intros Hpos. destruct (Z.lt_ge_cases bps 10000) as [H|H]; [exact H|].
    pose proof (feeAdjust_buy_nonpos raw bps Hraw H). lra.
  - intros Hbps. rewrite feeAdjust_buy_factor.
    assert (Hr : inject_Z bps / 10000 < 1).
    { apply Qlt_shift_div_r; [reflexivity|].
      change (1 * 10000) with (inject_Z 10000). rewrite <- Zlt_Qlt. exact Hbps. }
    nra.
Qed.

Lemma buy_adjusted_positive_iff_witness :
  0 < 100
  /\ (0 < feeAdjust "buy" 100 (getFeeRatio 9999) <-> (9999 < 10000)%Z).
Proof.
  assert (H : 0 < 100) by reflexivity.
  split; [exact H|].
  apply (buy_adjusted_positive_iff 100 9999 H).
Defined.

(** ** API keys *)

(** X6.  [beforeApp] creates the client if and only if both environment
    variables of the selected mode are set (not empty): then nothing is
    printed and the client gets the mode and these two values; otherwise the
    missing-keys error is printed and returned and no client is created.
    The variables of the other mode are never looked at. *)
Theorem beforeApp_needs_both_keys {World : Type} (Getenv Getenv' : string -> string)
    (c : cli.Context) (s : State World) :
  let live := cli.Bool c "live" in
  let keyName := if live then "GEMINI_API_KEY"%string
                 else "GEMINI_API_SANDBOX_KEY"%string in
  let secretName := if live then "GEMINI_API_SECRET"%string
                    else "GEMINI_API_SANDBOX_SECRET"%string in
  (Getenv keyName <> ""%string /\ Getenv secretName <> ""%string ->
     beforeApp Getenv c s
     = (None, Some (mkClient live (Getenv keyName) (Getenv secretName)), s))
  /\ (Getenv keyName = ""%string \/ Getenv secretName = ""%string ->
     beforeApp Getenv c s
     = (Some ERROR_API_KEY_MISSING, None, printError ERROR_API_KEY_MISSING s))
  /\ (Getenv' keyName = Getenv keyName ->
      Getenv' secretName = Getenv secretName ->
      beforeApp Getenv' c s = beforeApp Getenv c s).
Proof.
  intros live keyName secretName. subst keyName secretName.
  unfold beforeApp, verifyApiKeys. fold live.
  destruct live; cbn [gemini_api_key gemini_api_secret];
    (split; [|split]).
  all: try (intros [Hk Hs];
            match goal with
            | |- context [String.eqb ?a ""] =>
                destruct (String.eqb_spec a ""); [contradiction|]
            end;
            match goal with
            | |- context [String.eqb ?a ""] =>
                destruct (String.eqb_spec a ""); [contradiction|]
            end;
            reflexivity).
  all: try (intros [Hk|Hs];
            [rewrite Hk; reflexivity | rewrite Hs, orb_true_r; reflexivity]).
  all: intros Hk Hs; rewrite Hk, Hs; reflexivity.
Qed.

Section OtherProperties.

Context {World : Type} (g : Api World).
Variable marshalOrder : Order -> string.

(** ** [limit] *)

(** X7.  [limit] checks its input before it calls the exchange: with neither
    amount positive it prints and returns the invalid-amount error, and
    otherwise with a price that is not positive the invalid-price error; in
    both cases the error print is all it does. *)
Theorem limit_rejects_invalid_input (c : cli.Context) (s : State World) :
  (cli.Float64 c "amt" <= 0 /\ cli.Float64 c "base-amt" <= 0 ->
     limit g marshalOrder c s
     = (Some ERROR_INVALID_AMOUNT, printError ERROR_INVALID_AMOUNT s))
  /\ (0 < cli.Float64 c "amt" \/ 0 < cli.Float64 c "base-amt" ->
      cli.Float64 c "price" <= 0 ->
      limit g marshalOrder c s
      = (Some ERROR_INVALID_PRICE, printError ERROR_INVALID_PRICE s)).
Proof.
  unfold limit. split.
  - intros [Ha Hb]. apply leb_le in Ha, Hb. rewrite Ha, Hb. reflexivity.
  - intros Hvalid Hp.
    assert (E : (cli.Float64 c "amt" <=? 0) && (cli.Float64 c "base-amt" <=? 0)
                = false).
    { apply andb_false_iff. destruct Hvalid as [H|H]; [left|right];
        apply leb_gt; exact H. }
    apply leb_le in Hp. rewrite E, Hp. reflexivity.
Qed.

(** X8.  With valid input [limit] makes exactly one call to the exchange and
    never reads the book: one maker-or-cancel order for the command's market
    and side at the price given, for [round(adjusted/price, decimals)] when
    the fee-adjusted quote amount is positive and [round(baseAmount,
    decimals)] otherwise.  An error of the exchange is printed and returned;
    an accepted order is printed, as JSON with [json] and as text without,
    and [nil] is returned. *)
Theorem limit_places_one_order (c : cli.Context) (s : State World) :
  0 < cli.Float64 c "amt" \/ 0 < cli.Float64 c "base-amt" ->
  0 < cli.Float64 c "price" ->
  let mkt := cli.String c "mkt" in
  let side := cli.String c "side" in
  let price := cli.Float64 c "price" in
  let adjusted :=
    feeAdjust side (cli.Float64 c "amt") (getFeeRatio (cli.Int c "bps")) in
  let btcAmount :=
    limitAmount adjusted (cli.Float64 c "base-amt") price (decimalsOf mkt) in
  exists res w' out,
    NewOrder g mkt "" btcAmount price side ["maker-or-cancel"%string] (world s)
      = (res, w')
    /\ limit g marshalOrder c s
       = (match res with inl _ => None | inr err => Some err end,
          mkState w'
            (trace s
             ++ [CallNewOrder mkt "" btcAmount price side
                   ["maker-or-cancel"%string] res; out]))
    /\ out = match res with
             | inr err => PrintError err
             | inl order =>
                 if cli.Bool c "json" then Println (marshalOrder order)
                 else PrintOrder order
             end.
Proof.
  intros Hvalid Hprice mkt side price adjusted btcAmount. unfold limit.
  assert (E : (cli.Float64 c "amt" <=? 0) && (cli.Float64 c "base-amt" <=? 0)
              = false).
  { apply andb_false_iff. destruct Hvalid as [H|H]; [left|right];
      apply leb_gt; exact H. }
  apply leb_gt in Hprice. rewrite E, Hprice.
  fold mkt side price adjusted btcAmount. unfold callNewOrder.
  destruct (NewOrder g mkt "" btcAmount price side ["maker-or-cancel"%string]
              (world s)) as [[order|err] w'].
  - destruct (cli.Bool c "json"); do 3 eexists;
      (split; [reflexivity|]); unfold printOrder, emit; cbn [trace world];
      rewrite <- app_assoc; split; reflexivity.
  - do 3 eexists. split; [reflexivity|]. unfold printError, emit.
    cbn [trace world]. rewrite <- app_assoc. split; reflexivity.
Qed.

(** X9.  The notional of a quote-denominated limit order is at most the
    fee-adjusted amount plus half a unit of size at the limit price:
    [btcAmount × price <= adjusted + price × 0.5/10^decimals]. *)
Theorem limit_notional_bound (adjusted baseAmount price : Q) (d : Z) :
  (0 <= d)%Z ->
  0 < adjusted ->
  0 < price ->
  adjusted / price * tenTo d + 0.5 < inject_Z (2 ^ 63) ->
  limitAmount adjusted baseAmount price d * price
  <= adjusted + price * (0.5 / tenTo d).
Proof.
  intros Hd Ha Hp Hmax. unfold limitAmount.
  apply ltb_lt in Ha as Ha'. rewrite Ha'.
  assert (Hq : 0 <= adjusted / price).
  { apply Qle_shift_div_l; [exact Hp | lra]. }
  pose proof (round_le_half (adjusted / price) d Hd Hq Hmax) as Hr.
  assert (E : adjusted + price * (0.5 / tenTo d)
              == (adjusted / price + 0.5 / tenTo d) * price).
  { pose proof (tenTo_pos d Hd). field. split; lra. }
  rewrite E. apply Qmult_le_compat_r; [exact Hr | lra].
Qed.

End OtherProperties.

(** ** Traces, continued *)

Lemma orderCalls_app (a b : list Event) :
  orderCalls (a ++ b) = orderCalls a ++ orderCalls b.
Proof.
  induction a as [|e a IH]; [reflexivity|].
  destruct e; cbn [app orderCalls]; rewrite IH; reflexivity.
Qed.

Lemma printedErrors_app (a b : list Event) :
  printedErrors (a ++ b) = printedErrors a ++ printedErrors b.
Proof.
  induction a as [|e a IH]; [reflexivity|].
  destruct e; cbn [app printedErrors]; rewrite IH; reflexivity.
Qed.

Lemma printedOrders_app (a b : list Event) :
  printedOrders (a ++ b) = printedOrders a ++ printedOrders b.
Proof.
  induction a as [|e a IH]; [reflexivity|].
  destruct e; cbn [app printedOrders]; rewrite IH; reflexivity.
Qed.

Lemma printedJSON_app (a b : list Event) :
  printedJSON (a ++ b) = printedJSON a ++ printedJSON b.
Proof.
  induction a as [|e a IH]; [reflexivity|].
  destruct e; cbn [app printedJSON]; rewrite IH; reflexivity.
Qed.

Lemma printedLines_app (a b : list Event) :
  printedLines (a ++ b) = printedLines a ++ printedLines b.
Proof.
  induction a as [|e a IH]; [reflexivity|].
  destruct e; cbn [app printedLines]; rewrite IH; reflexivity.
Qed.

(** ** The loop of [market], in general *)

Section Loop.

Context {World : Type} (g : Api World).

(** A rule for the loop: a relation [R] between the locals at the head of a
    pass and the events since the entry of the loop that every pass which
    goes round again keeps, and a relation [Q] that every pass which returns
    establishes, give [Q] at the return of the loop. *)
Lemma sweep_rule (c : cli.Context) (p : Setup)
    (R : Locals -> list Event -> Prop)
    (Q : option error -> Locals -> list Event -> Prop) :
  (forall l s o l' s' evs0,
     R l evs0 ->
     iteration g c p l s = (o, l', s') ->
     exists evs,
       trace s' = trace s ++ evs
       /\ (o = Continue -> R l' (evs0 ++ evs))
       /\ (forall err, o = Return err -> Q err l' (evs0 ++ evs))) ->
  forall fuel l s evs0 err l' s',
    R l evs0 ->
    sweep g fuel c p l s = Some (err, l', s') ->
    exists evs, trace s' = trace s ++ evs /\ Q err l' (evs0 ++ evs).
Proof.
  intros Hstep. induction fuel as [|fuel IH]; intros l s evs0 err l' s' HR;
    [discriminate|].
  cbn [sweep]. destruct (iteration g c p l s) as [[o l1] s1] eqn:Hi.
  destruct (Hstep _ _ _ _ _ _ HR Hi) as (evs1 & Ht1 & Hcont & Hret).
  destruct o as [e|].
  - intros [= <- <- <-]. exists evs1. split; [exact Ht1 | apply Hret; reflexivity].
  - intros Hsw.
    destruct (IH _ _ _ _ _ _ (Hcont eq_refl) Hsw) as (evs2 & Ht2 & HQ).
    exists (evs1 ++ evs2). split.
    + rewrite Ht2, Ht1, app_assoc. reflexivity.
    + rewrite app_assoc. exact HQ.
Qed.

(** Case analysis of one pass, in program order, with the traces made
    explicit. *)
Ltac onePass c p l s :=
  unfold iteration;
  destruct (Z.eqb (retries l) RETRIES_MAX) eqn:?Hmax;
  [ | destruct (getOrderBookEntry g (mkt p) (side p) s) as [[?entry|?err] ?s] eqn:?Hq;
      [ match goal with
        | |- context [callNewOrder g ?a ?b ?x ?y ?z ?o ?st] =>
            destruct (callNewOrder g a b x y z o st) as [[?order|?err] ?s] eqn:?Hn
        end;
        [ destruct (cli.Bool c "unsafe") eqn:?Hunsafe; cbn [Bool.eqb];
          [ destruct (cli.Bool c "json") eqn:?Hjson;
            match goal with
            | |- context [satisfied ?a ?b] => destruct (satisfied a b) eqn:?Hsat
            end
          | ]
        | ]
      | ] ];
  repeat match goal with
    | H : getOrderBookEntry _ _ _ _ = _ |- _ =>
        apply getOrderBookEntry_inv in H; destruct H as (?q & ?Hqt & ?Hqw)
    | H : callNewOrder _ _ _ _ _ _ _ _ = _ |- _ =>
        apply callNewOrder_inv in H; destruct H as (?Hnt & ?Hnw)
    end;
  unfold printError, printOrder, emit; cbn [trace world];
  intros [= <- <- <-]; cbn [trace world];
  repeat match goal with H : trace _ = _ |- _ => rewrite H; clear H end;
  rewrite <- ?app_assoc; cbn [app];
  eexists; (split; [reflexivity|]).

(** The rule for the whole command: [Q] also has to hold for the rejection
    of an invalid amount. *)
Lemma run_rule (c : cli.Context)
    (R : Locals -> list Event -> Prop)
    (Q : option error -> Locals -> list Event -> Prop) :
  (forall l s o l' s' evs0,
     R l evs0 ->
     iteration g c (setup c) l s = (o, l', s') ->
     exists evs,
       trace s' = trace s ++ evs
       /\ (o = Continue -> R l' (evs0 ++ evs))
       /\ (forall err, o = Return err -> Q err l' (evs0 ++ evs))) ->
  R entry [] ->
  Q (Some ERROR_INVALID_AMOUNT) entry [PrintError ERROR_INVALID_AMOUNT] ->
  forall s, exists err l' s' evs,
    run g c s = Some (err, l', s')
    /\ trace s' = trace s ++ evs
    /\ Q err l' evs.
Proof.
  intros Hstep HR Hinvalid s.
  destruct (run_returns g c s) as [[[err l'] s'] Hrun].
  exists err, l', s'. rewrite Hrun. unfold run in Hrun.
  destruct ((cli.Float64 c "amt" <=? 0) && (cli.Float64 c "base-amt" <=? 0)).
  - injection Hrun as <- <- <-. exists [PrintError ERROR_INVALID_AMOUNT].
    split; [reflexivity|]. split; [reflexivity | exact Hinvalid].
  - destruct (sweep_rule c (setup c) R Q Hstep _ _ _ [] _ _ _ HR Hrun)
      as (evs & Ht & HQ).
    exists evs. split; [reflexivity|]. split; assumption.
Qed.

(** X10.  Whatever the exchange answers, a run of [market] returns after at
    most 50 order submissions and at most 50 book queries; every submission
    follows a book query of its own, so there are as many queries as
    submissions, or one more. *)
Theorem market_submits_at_most_50 (c : cli.Context) (s : State World) :
  exists err l' s' evs,
    run g c s = Some (err, l', s')
    /\ trace s' = trace s ++ evs
    /\ (length (submitted evs) <= 50)%nat
    /\ (length (queries evs) <= 50)%nat
    /\ (length (submitted evs) <= length (queries evs)
        <= length (submitted evs) + 1)%nat
    /\ (0 <= retries l' <= RETRIES_MAX)%Z.
Proof.
  apply (run_rule c
    (fun l evs =>
       (0 <= retries l <= RETRIES_MAX)%Z
       /\ Z.of_nat (length (submitted evs)) = retries l
       /\ Z.of_nat (length (queries evs)) = retries l)
    (fun _ l' evs =>
       (length (submitted evs) <= 50)%nat
       /\ (length (queries evs) <= 50)%nat
       /\ (length (submitted evs) <= length (queries evs)
           <= length (submitted evs) + 1)%nat
       /\ (0 <= retries l' <= RETRIES_MAX)%Z)).
  - intros l s0 o l' s' evs0 (Hr & Hs & Hq).
    onePass c (setup c) l s0;
      (split; [intros Ho; try discriminate Ho | intros e He; try discriminate He]);
      rewrite ?submitted_app, ?queries_app, ?length_app;
      cbn [submitted queries length retries];
      match goal with
      | H : (_ =? _)%Z = true |- _ => apply Z.eqb_eq in H
      | H : (_ =? _)%Z = false |- _ => apply Z.eqb_neq in H
      end;
      unfold RETRIES_MAX in *;
      rewrite ?wrapInt64_small by (unfold minInt64, maxInt64; lia);
      lia.
  - cbn. unfold RETRIES_MAX. lia.
  - cbn. unfold RETRIES_MAX. lia.
Qed.

(** X11.  Every order that [market] submits is an immediate-or-cancel order
    for the market and side of the command line, with an empty client order
    id; the command never places an order of another kind. *)
Theorem market_orders_are_immediate_or_cancel (c : cli.Context) (s : State World) :
  exists err l' s' evs,
    run g c s = Some (err, l', s')
    /\ trace s' = trace s ++ evs
    /\ Forall (fun call =>
                 call = (cli.String c "mkt", ""%string, cli.String c "side",
                         ["immediate-or-cancel"%string]))
         (orderCalls evs).
Proof.
  apply (run_rule c
    (fun _ evs =>
       Forall (fun call =>
                 call = (cli.String c "mkt", ""%string, cli.String c "side",
                         ["immediate-or-cancel"%string]))
         (orderCalls evs))
    (fun _ _ evs =>
       Forall (fun call =>
                 call = (cli.String c "mkt", ""%string, cli.String c "side",
                         ["immediate-or-cancel"%string]))
         (orderCalls evs))).
  - intros l s0 o l' s' evs0 HR.
    onePass c (setup c) l s0;
      (split; [intros _ | intros e _]);
      rewrite orderCalls_app; apply Forall_app; (split; [exact HR|]);
      cbn [orderCalls setup mkt side]; repeat constructor.
  - constructor.
  - constructor.
Qed.

(** X12.  [market] reports every error it returns, and only those: when it
    returns an error, the last thing it did was to print that error, and it
    printed no other; when it returns [nil], it printed no error. *)
Theorem market_prints_the_error_it_returns (c : cli.Context) (s : State World) :
  exists err l' s' evs,
    run g c s = Some (err, l', s')
    /\ trace s' = trace s ++ evs
    /\ match err with
       | Some e =>
           exists before,
             evs = before ++ [PrintError e] /\ printedErrors before = []
       | None => printedErrors evs = []
       end.
Proof.
  apply (run_rule c
    (fun _ evs => printedErrors evs = [])
    (fun err _ evs =>
       match err with
       | Some e =>
           exists before,
             evs = before ++ [PrintError e] /\ printedErrors before = []
       | None => printedErrors evs = []
       end)).
  - intros l s0 o l' s' evs0 HR.
    onePass c (setup c) l s0;
      (split; [intros Ho; try discriminate Ho | intros e He; try discriminate He]);
      try (injection He as <-);
      try (rewrite printedErrors_app, HR; reflexivity).
    + exists evs0. split; [reflexivity | exact HR].
    + eexists (evs0 ++ [_; _]). rewrite <- app_assoc. split; [reflexivity|].
      rewrite printedErrors_app, HR. reflexivity.
    + eexists (evs0 ++ [_]). rewrite <- app_assoc. split; [reflexivity|].
      rewrite printedErrors_app, HR. reflexivity.
  - reflexivity.
  - exists []. split; reflexivity.
Qed.

(** X13.  With [unsafe] true, [market] returns [nil] only when the
    termination test holds for the amount accumulated: the accumulated amount
    has reached the fee-adjusted quote amount, or the base amount, up to the
    tolerance [minAmt]. *)
Theorem market_success_means_filled (c : cli.Context) (s : State World) :
  cli.Bool c "unsafe" = true ->
  exists err l' s' evs,
    run g c s = Some (err, l', s')
    /\ trace s' = trace s ++ evs
    /\ (err = None ->
        let p := setup c in
        (0 < amount p /\ amount p - minAmt p <= executedAmt l')
        \/ (0 < baseAmount p /\ baseAmount p - minAmt p <= executedAmt l')).
Proof.
  intros Hon.
  apply (run_rule c
    (fun _ _ => True)
    (fun err l' _ =>
       err = None ->
       let p := setup c in
       (0 < amount p /\ amount p - minAmt p <= executedAmt l')
       \/ (0 < baseAmount p /\ baseAmount p - minAmt p <= executedAmt l'))).
  - intros l s0 o l' s' evs0 _.
    onePass c (setup c) l s0;
      (split; [intros _; exact I | intros e He; try discriminate He]);
      try (injection He as <-); try (intros Hnone; discriminate Hnone);
      try congruence.
    all: intros _; cbn [executedAmt]; unfold satisfied in Hsat;
      apply orb_true_iff in Hsat as [H|H];
      apply andb_true_iff in H as [H1 H2];
      apply ltb_lt in H1; apply leb_le in H2; [left|right]; split; assumption.
  - exact I.
  - intros H. discriminate H.
Qed.

(** X14.  What [market] prints of its fills.  With [unsafe] and [json] both
    true no order is printed on its own: the fills are printed together, as
    one JSON array of all of them in order, when the command returns [nil],
    and not at all when it returns an error.  In every other case (so always
    under the command table, with or without [json]) every fill is printed
    as text, in order, and no JSON array is printed. *)
Theorem market_output (c : cli.Context) (s : State World) :
  let batch := cli.Bool c "unsafe" && cli.Bool c "json" in
  exists err l' s' evs,
    run g c s = Some (err, l', s')
    /\ trace s' = trace s ++ evs
    /\ printedOrders evs = (if batch then [] else fills evs)
    /\ printedJSON evs =
       (if batch then match err with None => [fills evs] | Some _ => [] end
        else []).
Proof.
  intros batch.
  apply (run_rule c
    (fun l evs =>
       printedOrders evs = (if batch then [] else fills evs)
       /\ printedJSON evs = []
       /\ (batch = true -> orders l = fills evs))
    (fun err _ evs =>
       printedOrders evs = (if batch then [] else fills evs)
       /\ printedJSON evs =
          (if batch then match err with None => [fills evs] | Some _ => [] end
           else []))).
  - intros l s0 o l' s' evs0 (HRo & HRj & HRl). unfold batch in *.
    onePass c (setup c) l s0;
      (split; [intros Ho; try discriminate Ho | intros e He; try discriminate He]);
      try (injection He as <-);
      rewrite ?printedOrders_app, ?printedJSON_app, ?fills_app, ?HRo, ?HRj;
      cbn [printedOrders printedJSON fills orders app];
      rewrite ?Hunsafe, ?Hjson in *; cbn [andb] in *;
      rewrite ?app_nil_r;
      try (rewrite HRl by reflexivity);
      try (destruct (cli.Bool c "unsafe" && cli.Bool c "json") eqn:Hb);
      try (destruct (cli.Bool c "unsafe"); cbn [andb] in * );
      try (destruct (cli.Bool c "json"));
      repeat split; try reflexivity; try congruence;
      try (intros; f_equal; auto; congruence).
  - repeat split. destruct batch; reflexivity.
  - cbn. destruct batch; split; reflexivity.
Qed.

End Loop.

(** ** The target of the sweep and the orders submitted for it *)

Lemma lookup_submitted (evs : list Event) (i : nat) symbol clientOrderId
    amount price side options res :
  evs !! i = Some (CallNewOrder symbol clientOrderId amount price side options res) ->
  submitted evs <> [].
Proof.
  revert i. induction evs as [|ev evs IH]; intros [|i] H; try discriminate H.
  - injection H as ->. discriminate.
  - cbn in H. apply IH in H. destruct ev; cbn [submitted]; congruence.
Qed.

Lemma slicedFrom_nil (mkt side : string) (adjusted base : Q) (d : Z) :
  slicedFrom mkt side adjusted base d [].
Proof. intros i ? ? ? ? ? ? ? H. discriminate H. Qed.

(** The events of one more pass keep a trace sliced from the target, if the
    pass submits nothing, or submits right after a query that showed an
    entry, for the slice at the amount accumulated by the fills so far. *)
Lemma slicedFrom_pass (mkt side : string) (adjusted base : Q) (d : Z)
    (evs0 evs : list Event) :
  slicedFrom mkt side adjusted base d evs0 ->
  submitted evs = []
  \/ (exists book e rest symbol clientOrderId side' options res tail,
        evs = CallOrderBook mkt 1 1 (inl book)
              :: CallNewOrder symbol clientOrderId
                   (sliceOf adjusted base
                      (fold_left (rule adjusted) (fills evs0) 0) e d)
                   (Price e) side' options res
              :: tail
        /\ facing side book = e :: rest
        /\ submitted tail = []) ->
  slicedFrom mkt side adjusted base d (evs0 ++ evs).
Proof.
  intros Hold Hnew i symbol clientOrderId amount price side' options res Hi.
  destruct (Nat.lt_ge_cases i (length evs0)) as [Hlt|Hge].
  - rewrite lookup_app_l in Hi by exact Hlt.
    destruct (Hold _ _ _ _ _ _ _ _ Hi) as (book & e & rest & H1 & Hq & Htop & Hp & Ha).
    exists book, e, rest. split; [exact H1|].
    rewrite lookup_app_l by lia. rewrite take_app_le by lia.
    repeat split; assumption.
  - rewrite lookup_app_r in Hi by exact Hge.
    destruct Hnew as [Hnone | (book & e & rest & sy & id & sd & op & r & tail
                               & -> & Htop & Htail)].
    { apply lookup_submitted in Hi. contradiction. }
    destruct (i - length evs0)%nat as [|[|j]] eqn:Ej; cbn in Hi.
    + discriminate Hi.
    + injection Hi as <- <- <- <- <- <- <-.
      exists book, e, rest. split; [lia|].
      replace (i - 1)%nat with (length evs0 + 0)%nat by lia.
      rewrite lookup_app_r by lia.
      replace (length evs0 + 0 - length evs0)%nat with 0%nat by lia.
      split; [reflexivity|]. split; [exact Htop|]. split; [reflexivity|].
      rewrite take_app_ge by lia. rewrite Ej. cbn [take].
      rewrite fills_app. cbn [fills]. rewrite app_nil_r. reflexivity.
    + apply lookup_submitted in Hi. contradiction.
Qed.

Section Targets.

Context {World : Type} (g : Api World).

(** A query that gives an entry gives the first entry of the facing side of
    the book that the exchange returned. *)
Lemma getOrderBookEntry_top (mkt side : string) (s s' : State World)
    (e : BookEntry) :
  getOrderBookEntry g mkt side s = (inl e, s') ->
  exists book rest,
    trace s' = trace s ++ [CallOrderBook mkt 1 1 (inl book)]
    /\ OrderBook g mkt 1 1 (world s) = (inl book, world s')
    /\ facing side book = e :: rest.
Proof.
  unfold getOrderBookEntry, callOrderBook, facing.
  destruct (OrderBook g mkt 1 1 (world s)) as [[book|err] w]; [|discriminate].
  destruct (String.eqb side "buy");
    [destruct (Asks book) as [|a rest] eqn:E
    | destruct (Bids book) as [|a rest] eqn:E];
    intros [= <- <-]; exists book, rest;
    (split; [reflexivity|]); (split; [reflexivity | exact E]).
Qed.

(** The events of one pass: a pass that goes round again runs with [unsafe]
    true; a pass submits nothing, or it queries the book, is shown an entry
    and submits one order at the price of that entry, for the slice of the
    target at the amount accumulated at the head of the pass. *)
Lemma iteration_shape (c : cli.Context) (p : Setup) (l l' : Locals)
    (s s' : State World) (o : Outcome) :
  iteration g c p l s = (o, l', s') ->
  exists evs,
    trace s' = trace s ++ evs
    /\ (o = Continue -> cli.Bool c "unsafe" = true)
    /\ (submitted evs = []
        \/ exists book e rest res tail,
             evs = CallOrderBook (mkt p) 1 1 (inl book)
                   :: CallNewOrder (mkt p) ""
                        (sliceOf (amount p) (baseAmount p) (executedAmt l) e
                           (decimals p))
                        (Price e) (side p) ["immediate-or-cancel"%string] res
                   :: tail
             /\ facing (side p) book = e :: rest
             /\ submitted tail = []).
Proof.
  unfold iteration.
  destruct (Z.eqb (retries l) RETRIES_MAX).
  { intros [= <- <- <-]. exists [PrintError ERROR_MAX_RETRIES].
    split; [reflexivity|]. split; [discriminate|]. left. reflexivity. }
  destruct (getOrderBookEntry g (mkt p) (side p) s) as [[e|err] s1] eqn:Hq.
  2:{ apply getOrderBookEntry_inv in Hq as (q & Hq & _).
      intros [= <- <- <-]. exists [CallOrderBook (mkt p) 1 1 q; PrintError err].
      unfold printError, emit. cbn [trace]. rewrite Hq, <- app_assoc.
      split; [reflexivity|]. split; [discriminate|]. left. reflexivity. }
  apply getOrderBookEntry_top in Hq as (book & rest & Hq & _ & Htop).
  change (btcAmountOf p (executedAmt l) e)
    with (sliceOf (amount p) (baseAmount p) (executedAmt l) e (decimals p)).
  match goal with
  | |- context [callNewOrder g ?a ?b ?x ?y ?z ?o ?st] =>
      destruct (callNewOrder g a b x y z o st) as [[order|err] s2] eqn:Hn;
      apply callNewOrder_inv in Hn as (Hn & _)
  end.
  2:{ intros [= <- <- <-]. eexists. unfold printError, emit. cbn [trace].
      rewrite Hn, Hq, <- !app_assoc. split; [reflexivity|].
      split; [discriminate|]. right. exists book, e, rest. do 2 eexists.
      split; [reflexivity|]. split; [exact Htop | reflexivity]. }
  destruct (cli.Bool c "unsafe"); cbn [Bool.eqb];
    [ destruct (cli.Bool c "json");
      match goal with
      | |- context [satisfied ?a ?b] => destruct (satisfied a b)
      end
    | ];
    intros [= <- <- <-]; eexists; unfold printOrder, emit; cbn [trace];
    rewrite ?Hn, ?Hq, <- ?app_assoc;
    (split; [reflexivity|]); (split; [try reflexivity; discriminate|]);
    right; exists book, e, rest; do 2 eexists;
    (split; [reflexivity|]); (split; [exact Htop | reflexivity]).
Qed.

(** C1 (as amended).  The fee adjustment is applied once, before the loop,
    to the quote amount only: the loop runs, in all its passes, with
    [amount = raw × (1 − bps/10000)] for a buy and
    [amount = raw × (1 + bps/10000)] for any other side, and with
    [baseAmount] as given.  The target of the sweep is the adjusted quote
    amount when that is positive and otherwise, whatever the reason (a
    base-denominated request with [amt = 0], or a fee of 100 percent or
    more), the raw base amount, without any fee adjustment.  This is the
    target that the orders are cut from: in every run, every order
    submitted follows a book query that showed an entry, at the price of
    that entry, and its amount is the slice of that target left after the
    fills before it, all passes using the same adjusted amount and the same
    raw base amount. *)
Theorem fee_adjusts_quote_amount_only (c : cli.Context) (s : State World) :
  let raw := cli.Float64 c "amt" in
  let base := cli.Float64 c "base-amt" in
  let ratio := inject_Z (cli.Int c "bps") / 10000 in
  let p := setup c in
  (cli.String c "side" = "buy"%string -> amount p == raw * (1 - ratio))
  /\ (cli.String c "side" <> "buy"%string -> amount p == raw * (1 + ratio))
  /\ baseAmount p = base
  /\ target (amount p) (baseAmount p) = pursued (amount p) base
  /\ (0 < amount p -> pursued (amount p) base = amount p)
  /\ (amount p <= 0 -> pursued (amount p) base = base)
  /\ (0 < raw \/ 0 < base -> run g c s = sweep g passes c p entry s)
  /\ exists err l' s' evs,
       run g c s = Some (err, l', s')
       /\ trace s' = trace s ++ evs
       /\ slicedFrom (cli.String c "mkt") (cli.String c "side") (amount p) base
            (decimalsOf (cli.String c "mkt")) evs.
Proof.
  intros raw base ratio p.
  split; [|split; [|split; [|split; [|split; [|split; [|split]]]]]].
  - intros Hside. unfold p, setup. cbn [amount]. rewrite Hside.
    apply feeAdjust_buy_factor.
  - intros Hside. unfold p, setup. cbn [amount].
    apply feeAdjust_other_factor, Hside.
  - reflexivity.
  - reflexivity.
  - intros H. unfold pursued. apply ltb_lt in H. rewrite H. reflexivity.
  - intros H. unfold pursued. apply ltb_ge in H. rewrite H. reflexivity.
  - intros Hvalid. unfold run. fold raw base.
    assert (E : (raw <=? 0) && (base <=? 0) = false).
    { apply andb_false_iff. destruct Hvalid as [H|H]; [left|right];
        apply leb_gt; exact H. }
    rewrite E. reflexivity.
  - apply (run_rule g c
      (fun l evs =>
         executedAmt l = fold_left (rule (amount p)) (fills evs) 0
         /\ slicedFrom (cli.String c "mkt") (cli.String c "side") (amount p) base
              (decimalsOf (cli.String c "mkt")) evs)
      (fun _ _ evs =>
         slicedFrom (cli.String c "mkt") (cli.String c "side") (amount p) base
           (decimalsOf (cli.String c "mkt")) evs)).
    + intros l s0 o l' s1 evs0 (Hacc & Hold) Hi.
      destruct (iteration_account g c (setup c) l l' s0 s1 o Hi)
        as (evs & Ht & Ha).
      destruct (iteration_shape c (setup c) l l' s0 s1 o Hi)
        as (evs' & Ht' & Hcont & Hshape).
      assert (evs' = evs) as ->
        by (rewrite Ht in Ht'; apply app_inv_head in Ht'; symmetry; exact Ht').
      exists evs. split; [exact Ht|].
      assert (Hnew : slicedFrom (cli.String c "mkt") (cli.String c "side")
                       (amount p) base (decimalsOf (cli.String c "mkt"))
                       (evs0 ++ evs)).
      { apply slicedFrom_pass; [exact Hold|].
        destruct Hshape
          as [Hnone | (book & e & rest & res & tail & Hevs & Htop & Htail)];
          [left; exact Hnone|].
        right. exists book, e, rest. do 6 eexists.
        split; [|split; [exact Htop | exact Htail]].
        rewrite Hevs, Hacc. reflexivity. }
      split; [|intros err _; exact Hnew].
      intros ->. split; [|exact Hnew].
      rewrite (Hcont eq_refl) in Ha.
      rewrite Ha, Hacc, fills_app, fold_left_app, account_rule. reflexivity.
    + split; [reflexivity | apply slicedFrom_nil].
    + intros i ? ? ? ? ? ? ? H. destruct i as [|[|i]]; discriminate H.
Qed.

End Targets.

(** The adjustment at 25 basis points for a buy and for a sell of 100, and a
    buy of [base-amt = 2] on ethbtc: the target is the base amount as given,
    and the orders of the run are cut from it. *)
Lemma fee_adjusts_quote_amount_only_witness :
  (cli.String Sim.buy100Table "side" = "buy"%string
   /\ amount (setup Sim.buy100Table) == 100 * (1 - inject_Z 25 / 10000))
  /\ (cli.String Sim.sell100Table "side" <> "buy"%string
      /\ amount (setup Sim.sell100Table) == 100 * (1 + inject_Z 25 / 10000))
  /\ (amount (setup Sim.baseBuy) <= 0
      /\ pursued (amount (setup Sim.baseBuy)) (cli.Float64 Sim.baseBuy "base-amt")
         = cli.Float64 Sim.baseBuy "base-amt")
  /\ exists err l' s' evs,
       run (Sim.fullFill Sim.cheap) Sim.baseBuy Sim.start = Some (err, l', s')
       /\ trace s' = trace Sim.start ++ evs
       /\ slicedFrom (cli.String Sim.baseBuy "mkt") (cli.String Sim.baseBuy "side")
            (amount (setup Sim.baseBuy)) (cli.Float64 Sim.baseBuy "base-amt")
            (decimalsOf (cli.String Sim.baseBuy "mkt")) evs.
Proof.
  destruct (fee_adjusts_quote_amount_only (Sim.fullFill Sim.deep)
              Sim.buy100Table Sim.start) as (Hbuy & _).
  destruct (fee_adjusts_quote_amount_only (Sim.fullFill Sim.deep)
              Sim.sell100Table Sim.start) as (_ & Hsell & _).
  destruct (fee_adjusts_quote_amount_only (Sim.fullFill Sim.cheap)
              Sim.baseBuy Sim.start)
    as (_ & _ & _ & _ & _ & Hbase & _ & Hrun).
  assert (H1 : cli.String Sim.buy100Table "side" = "buy"%string)
    by (vm_compute; reflexivity).
  assert (H2 : cli.String Sim.sell100Table "side" <> "buy"%string)
    by (vm_compute; congruence).
  assert (H3 : amount (setup Sim.baseBuy) <= 0) by (vm_compute; congruence).
  split; [split; [exact H1 | apply Hbuy, H1]|].
  split; [split; [exact H2 | apply Hsell, H2]|].
  split; [split; [exact H3 | apply Hbase, H3]|].
  exact Hrun.
Defined.


(** ** How far a pass can overshoot *)

Lemma clamp_le_raw (v : Q) (bookEntry : BookEntry) (d : Z) :
  (0 <= d)%Z ->
  0 <= v ->
  v * tenTo d + 0.5 < inject_Z (2 ^ 63) ->
  0 <= Amount bookEntry ->
  clamp (round v d) bookEntry d <= round v d.
Proof.
  intros Hd Hv Hmax Ha.
  destruct (clamp_cases (round v d) bookEntry d) as [Hlt Hge].
  destruct (Qlt_le_dec (Amount bookEntry) (round v d)) as [H|H].
  - rewrite (Hlt H).
    destruct (round_steps v d Hd Hv Hmax) as (k & Hk & Hkmax & Hr & _).
    pose proof (tenTo_pos d Hd) as Hpos.
    assert (Hrange : round v d * tenTo d + 0.5 < inject_Z (2 ^ 63)).
    { assert (E : round v d * tenTo d + 0.5 == inject_Z k + 0.5)
        by (rewrite Hr; field; lra).
      rewrite E. exact Hkmax. }
    eapply Qle_trans.
    + apply (round_mono (Amount bookEntry) (round v d) d Hd Ha
               (Qlt_le_weak _ _ H) Hrange).
    + rewrite (round_grid (round v d) d k Hd Hk Hkmax Hr). apply Qle_refl.
  - rewrite (Hge H). apply Qle_refl.
Qed.

(** The slice of a pass is at most the remaining amount, in units of size,
    plus half a unit of the last digit. *)
Lemma slice_le_remaining (p : Setup) (acc remaining : Q) (bookEntry : BookEntry) :
  (0 <= decimals p)%Z ->
  0 <= acc ->
  0 <= remaining ->
  0 <= Amount bookEntry ->
  remaining * tenTo (decimals p) + 0.5 < inject_Z (2 ^ 63) ->
  (0 < amount p ->
     0 < Price bookEntry /\ remaining == (amount p - acc) / Price bookEntry) ->
  (amount p <= 0 -> remaining == baseAmount p - acc) ->
  btcAmountOf p acc bookEntry <= remaining + 0.5 / tenTo (decimals p).
Proof.
  intros Hd Hacc Hrem Ha Hmax Hquote Hbase.
  unfold btcAmountOf, rawSlice, fillAmountOf, target.
  pose proof (tenTo_pos _ Hd) as Hpos.
  assert (Hbound : forall v, 0 <= v -> v == remaining ->
            clamp (round v (decimals p)) bookEntry (decimals p)
            <= remaining + 0.5 / tenTo (decimals p)).
  { intros v Hv Ev.
    assert (Hvmax : v * tenTo (decimals p) + 0.5 < inject_Z (2 ^ 63))
      by (rewrite Ev; exact Hmax).
    eapply Qle_trans; [apply clamp_le_raw; assumption|].
    eapply Qle_trans; [apply round_le_half; assumption|].
    rewrite Ev. apply Qle_refl. }
  destruct (0 <? amount p) eqn:Hamt.
  - apply ltb_lt in Hamt. destruct (Hquote Hamt) as [Hprice Erem].
    destruct (0 <? acc) eqn:Hpos_acc.
    + apply Hbound; [rewrite <- Erem; exact Hrem | symmetry; exact Erem].
    + apply ltb_ge in Hpos_acc.
      assert (E0 : acc == 0) by lra.
      assert (E : amount p / Price bookEntry == remaining).
      { rewrite Erem, E0. field. lra. }
      apply Hbound; [rewrite E; exact Hrem | exact E].
  - apply ltb_ge in Hamt. specialize (Hbase Hamt).
    destruct (0 <? acc) eqn:Hpos_acc.
    + apply Hbound; [rewrite <- Hbase; exact Hrem | symmetry; exact Hbase].
    + apply ltb_ge in Hpos_acc.
      assert (E0 : acc == 0) by lra.
      assert (E : baseAmount p == remaining) by (rewrite Hbase, E0; ring).
      apply Hbound; [rewrite E; exact Hrem | exact E].
Qed.

(** X15.  A quote-denominated pass cannot overshoot the target by more than
    half a unit of size at the quoted price: if the exchange executes at most
    the amount ordered, at an average price of at most the price of the book
    entry, the amount accumulated after the pass is at most
    [amount + price × 0.5/10^decimals]. *)
Theorem quote_pass_overshoot_bound (p : Setup) (acc : Q) (bookEntry : BookEntry)
    (order : Order) :
  (0 <= decimals p)%Z ->
  0 < amount p ->
  0 <= acc ->
  acc <= amount p ->
  0 < Price bookEntry ->
  0 <= Amount bookEntry ->
  (amount p - acc) / Price bookEntry * tenTo (decimals p) + 0.5
    < inject_Z (2 ^ 63) ->
  0 <= ExecutedAmount order ->
  ExecutedAmount order <= btcAmountOf p acc bookEntry ->
  0 <= AvgExecutionPrice order ->
  AvgExecutionPrice order <= Price bookEntry ->
  account (amount p) acc order
  <= amount p + Price bookEntry * (0.5 / tenTo (decimals p)).
Proof.
  intros Hd Hamt Hacc Hle Hprice Ha Hmax He0 He Hp0 Hp.
  assert (Hrem : 0 <= (amount p - acc) / Price bookEntry)
    by (apply Qle_shift_div_l; [exact Hprice | lra]).
  pose proof (slice_le_remaining p acc _ bookEntry Hd Hacc Hrem Ha Hmax
                (fun _ => conj Hprice (Qeq_refl _))
                (fun H => ltac:(lra))) as Hslice.
  pose proof (tenTo_pos _ Hd) as Hpos.
  unfold account. apply ltb_lt in Hamt as Hamt'. rewrite Hamt'.
  assert (H1 : ExecutedAmount order * AvgExecutionPrice order
               <= btcAmountOf p acc bookEntry * Price bookEntry) by nra.
  assert (H2 : btcAmountOf p acc bookEntry * Price bookEntry
               <= ((amount p - acc) / Price bookEntry
                   + 0.5 / tenTo (decimals p)) * Price bookEntry)
    by (apply Qmult_le_compat_r; [exact Hslice | lra]).
  assert (E : ((amount p - acc) / Price bookEntry
               + 0.5 / tenTo (decimals p)) * Price bookEntry
              == amount p - acc + Price bookEntry * (0.5 / tenTo (decimals p)))
    by (field; split; lra).
  rewrite E in H2. lra.
Qed.

(** X16.  A base-denominated pass cannot overshoot the target by more than
    half a unit of the last digit: if the exchange executes at most the
    amount ordered, the amount accumulated after the pass is at most
    [baseAmount + 0.5/10^decimals]. *)
Theorem base_pass_overshoot_bound (p : Setup) (acc : Q) (bookEntry : BookEntry)
    (order : Order) :
  (0 <= decimals p)%Z ->
  amount p <= 0 ->
  0 <= acc ->
  acc <= baseAmount p ->
  0 <= Amount bookEntry ->
  (baseAmount p - acc) * tenTo (decimals p) + 0.5 < inject_Z (2 ^ 63) ->
  ExecutedAmount order <= btcAmountOf p acc bookEntry ->
  account (amount p) acc order <= baseAmount p + 0.5 / tenTo (decimals p).
Proof.
  intros Hd Hamt Hacc Hle Ha Hmax He.
  assert (Hrem : 0 <= baseAmount p - acc) by lra.
  pose proof (slice_le_remaining p acc _ bookEntry Hd Hacc Hrem Ha Hmax
                (fun H => ltac:(lra)) (fun _ => Qeq_refl _)) as Hslice.
  unfold account. apply ltb_ge in Hamt as Hamt'. rewrite Hamt'. lra.
Qed.

(** ** The hook of the order commands *)

Section Transactions.

Context {World : Type} (g : Api World).
Variable marshalOrder : Order -> string.

(** A pass below the ceiling of retries starts with a query of the book. *)
Lemma iteration_queries_first (c : cli.Context) (p : Setup) (l l' : Locals)
    (s s' : State World) (o : Outcome) :
  retries l <> RETRIES_MAX ->
  iteration g c p l s = (o, l', s') ->
  exists q evs, trace s' = trace s ++ CallOrderBook (mkt p) 1 1 q :: evs.
Proof.
  intros Hne. unfold iteration.
  destruct (Z.eqb (retries l) RETRIES_MAX) eqn:Hmax;
    [apply Z.eqb_eq in Hmax; contradiction|].
  destruct (getOrderBookEntry g (mkt p) (side p) s) as [[e|err] s1] eqn:Hq;
    apply getOrderBookEntry_inv in Hq as (q & Hq & _).
  2:{ intros [= <- <- <-]. exists q. eexists. unfold printError, emit.
      cbn [trace]. rewrite Hq, <- app_assoc. reflexivity. }
  match goal with
  | |- context [callNewOrder g ?a ?b ?x ?y ?z ?o ?st] =>
      destruct (callNewOrder g a b x y z o st) as [[order|err] s2] eqn:Hn;
      apply callNewOrder_inv in Hn as (Hn & _)
  end.
  2:{ intros [= <- <- <-]. exists q. eexists. unfold printError, emit.
      cbn [trace]. rewrite Hn, Hq, <- !app_assoc. reflexivity. }
  destruct (cli.Bool c "unsafe"); cbn [Bool.eqb];
    [ destruct (cli.Bool c "json");
      match goal with
      | |- context [satisfied ?a ?b] => destruct (satisfied a b)
      end
    | ];
    intros [= <- <- <-]; exists q; eexists; unfold printOrder, emit;
    cbn [trace]; rewrite ?Hn, ?Hq, <- ?app_assoc; reflexivity.
Qed.

(** With a valid amount the command starts with a query of the book. *)
Lemma run_queries_first (c : cli.Context) (s : State World) :
  (cli.Float64 c "amt" <=? 0) && (cli.Float64 c "base-amt" <=? 0) = false ->
  exists err l' s' q evs,
    run g c s = Some (err, l', s')
    /\ trace s' = trace s ++ CallOrderBook (cli.String c "mkt") 1 1 q :: evs.
Proof.
  intros E. destruct (run_returns g c s) as [[[err l'] s'] Hrun].
  exists err, l', s'. rewrite Hrun. unfold run in Hrun. rewrite E in Hrun.
  unfold passes in Hrun. cbn [sweep] in Hrun.
  destruct (iteration g c (setup c) entry s) as [[o l1] s1] eqn:Hi.
  apply iteration_queries_first in Hi as (q & evs1 & Ht1);
    [|cbn [entry retries]; discriminate].
  change (mkt (setup c)) with (cli.String c "mkt") in Ht1.
  destruct o as [e|].
  - injection Hrun as <- <- <-. exists q, evs1. split; [reflexivity | exact Ht1].
  - apply sweep_account in Hrun as (evs2 & Ht2 & _).
    exists q, (evs1 ++ evs2). split; [reflexivity|].
    rewrite Ht2, Ht1, <- app_assoc. reflexivity.
Qed.

(** X17.  How the amounts of an order command are screened, by
    [beforeTransaction] (the [Before] hook of [market] and [limit]) and then
    by the command.  With both [amt] and [base-amt] positive the hook prints
    and returns the ambiguity error.  With neither positive the hook lets
    the command line through without a trace, and [market] and [limit]
    themselves print and return the invalid-amount error before any call to
    the exchange.  With exactly one of them positive the hook lets it
    through without a trace, [market] goes on to query the book, and
    [limit], given a positive price, goes on to submit its order. *)
Theorem order_commands_screen_the_amounts (c : cli.Context) (s : State World) :
  let amt := cli.Float64 c "amt" in
  let base := cli.Float64 c "base-amt" in
  (0 < base /\ 0 < amt ->
     beforeTransaction c s
     = (Some ERROR_AMBIGUOUS_AMOUNT, printError ERROR_AMBIGUOUS_AMOUNT s))
  /\ (amt <= 0 /\ base <= 0 ->
      beforeTransaction c s = (None, s)
      /\ run g c s
         = Some (Some ERROR_INVALID_AMOUNT, entry,
                 printError ERROR_INVALID_AMOUNT s)
      /\ limit g marshalOrder c s
         = (Some ERROR_INVALID_AMOUNT, printError ERROR_INVALID_AMOUNT s))
  /\ ((0 < amt /\ base <= 0) \/ (amt <= 0 /\ 0 < base) ->
      beforeTransaction c s = (None, s)
      /\ (exists err l' s' q evs,
            run g c s = Some (err, l', s')
            /\ trace s' = trace s ++ CallOrderBook (cli.String c "mkt") 1 1 q :: evs)
      /\ (0 < cli.Float64 c "price" ->
          exists err s' amount res evs,
            limit g marshalOrder c s = (err, s')
            /\ trace s'
               = trace s
                 ++ CallNewOrder (cli.String c "mkt") "" amount
                      (cli.Float64 c "price") (cli.String c "side")
                      ["maker-or-cancel"%string] res :: evs)).
Proof.
  intros amt base. unfold beforeTransaction. fold amt base.
  split; [|split].
  - intros [Hb Ha]. apply ltb_lt in Hb, Ha. rewrite Hb, Ha. reflexivity.
  - intros [Ha Hb]. pose proof Ha as Ha'. pose proof Hb as Hb'.
    apply ltb_ge in Ha', Hb'. rewrite Hb'. cbn [andb].
    apply leb_le in Ha, Hb.
    split; [reflexivity|]. unfold run, limit. fold amt base.
    rewrite Ha, Hb. cbn [andb]. split; reflexivity.
  - intros Hone.
    assert (Hhook : (0 <? base) && (0 <? amt) = false).
    { apply andb_false_iff.
      destruct Hone as [[_ H]|[H _]]; [left|right]; apply ltb_ge; exact H. }
    assert (Hvalid : (amt <=? 0) && (base <=? 0) = false).
    { apply andb_false_iff.
      destruct Hone as [[H _]|[_ H]]; [left|right]; apply leb_gt; exact H. }
    rewrite Hhook. split; [reflexivity|].
    split; [apply run_queries_first; exact Hvalid|].
    intros Hprice. apply leb_gt in Hprice. unfold limit. fold amt base.
    rewrite Hvalid, Hprice.
    match goal with
    | |- context [callNewOrder g ?a ?b ?x ?y ?z ?o ?st] =>
        destruct (callNewOrder g a b x y z o st) as [[order|err] s2] eqn:Hn;
        apply callNewOrder_inv in Hn as (Hn & _)
    end.
    + destruct (cli.Bool c "json"); do 5 eexists;
        (split; [reflexivity|]); unfold printOrder, emit; cbn [trace];
        rewrite Hn, <- app_assoc; reflexivity.
    + do 5 eexists. split; [reflexivity|]. unfold printError, emit.
      cbn [trace]. rewrite Hn, <- app_assoc. reflexivity.
Qed.

End Transactions.

(** ** [book] *)

Section Books.

Context {World : Type} (g : Api World).
Variable marshalBook : Book -> string.
Variable sprintf8 : Q -> string.
Variable blue : string -> string.
Variable boldWhite : string -> string.

Lemma nth_error_lookup {A : Type} (l : list A) (i : nat) :
  nth_error l i = l !! i.
Proof.
  revert i. induction l as [|a l IH]; intros [|i]; try reflexivity.
  cbn. apply IH.
Qed.

Lemma index_lookup {A : Type} (l : list A) (i : nat) :
  index l (Z.of_nat i) = l !! i.
Proof.
  unfold index. destruct (Z.ltb_spec (Z.of_nat i) 0); [lia|].
  rewrite Nat2Z.id. apply nth_error_lookup.
Qed.

Lemma bookLines_lookup (levels : list BookEntry) (i : nat) (level : BookEntry) :
  levels !! i = Some level ->
  bookLines sprintf8 blue boldWhite levels !! i
  = Some (levelLine sprintf8 blue boldWhite (Z.of_nat i) level).
Proof.
  intros H. unfold bookLines. rewrite list_lookup_imap, H. reflexivity.
Qed.

(** The descending loop prints the first [n] lines, last first, and does
    not leave the slice. *)
Lemma printDown_spec (levels : list BookEntry) (n : nat) (s : State World) :
  (n <= length levels)%nat ->
  printDown sprintf8 blue boldWhite levels n s
  = Some (mkState (world s)
            (trace s ++ map Println
               (rev (take n (bookLines sprintf8 blue boldWhite levels))))).
Proof.
  revert s. induction n as [|n IH]; intros s Hn.
  - cbn. rewrite app_nil_r. destruct s; reflexivity.
  - cbn [printDown]. rewrite index_lookup.
    destruct (lookup_lt_is_Some_2 levels n ltac:(lia)) as [level Hl].
    rewrite Hl, IH by lia. unfold emit. cbn [world trace].
    rewrite (take_S_r _ _ _ (bookLines_lookup _ _ _ Hl)), rev_app_distr.
    cbn [rev app map]. rewrite <- app_assoc. reflexivity.
Qed.

(** The ascending loop prints [n] lines from line [i] on, and does not leave
    the slice. *)
Lemma printUp_spec (levels : list BookEntry) (n i : nat) (s : State World) :
  (i + n <= length levels)%nat ->
  printUp sprintf8 blue boldWhite levels (Z.of_nat i) n s
  = Some (mkState (world s)
            (trace s ++ map Println
               (take n (drop i (bookLines sprintf8 blue boldWhite levels))))).
Proof.
  revert i s. induction n as [|n IH]; intros i s Hn.
  - cbn. rewrite app_nil_r. destruct s; reflexivity.
  - cbn [printUp]. rewrite index_lookup.
    destruct (lookup_lt_is_Some_2 levels i ltac:(lia)) as [level Hl].
    rewrite Hl. replace (Z.of_nat i + 1)%Z with (Z.of_nat (S i)) by lia.
    rewrite IH by lia. unfold emit. cbn [world trace].
    rewrite (drop_S _ _ _ (bookLines_lookup _ _ _ Hl)).
    cbn [take map]. rewrite <- app_assoc. reflexivity.
Qed.

(** X18.  [book] of the urfave/cli variant never indexes outside the book it
    received, and prints every level of it, whatever [lim] is: the asks from
    the last to the first, an empty line, then the bids from the first to
    the last (the first level of each side in bold); with [json] it prints
    the encoded book instead, and an error of the exchange is printed and
    returned. *)
Theorem book_prints_every_level (c : cli.Context) (s : State World) :
  let mkt := cli.String c "mkt" in
  let lim := cli.Int c "lim" in
  let lines := bookLines sprintf8 blue boldWhite in
  exists res w',
    OrderBook g mkt lim lim (world s) = (res, w')
    /\ book g marshalBook sprintf8 blue boldWhite c s
       = Some
           match res with
           | inr err =>
               (Some err,
                mkState w' (trace s ++ [CallOrderBook mkt lim lim res;
                                        PrintError err]))
           | inl b =>
               (None,
                mkState w'
                  (trace s ++ CallOrderBook mkt lim lim res
                     :: map Println
                          (if cli.Bool c "json" then [marshalBook b]
                           else rev (lines (Asks b)) ++ [""%string]
                                ++ lines (Bids b))))
           end.
Proof.
  intros mkt lim lines. unfold book, callOrderBook. fold mkt lim.
  destruct (OrderBook g mkt lim lim (world s)) as [[b|err] w'];
    do 2 eexists; (split; [reflexivity|]).
  - destruct (cli.Bool c "json").
    + unfold emit. cbn [trace world map]. rewrite <- app_assoc. reflexivity.
    + unfold len.
      replace (Z.to_nat (Z.of_nat (length (Asks b)) - 1 + 1)) with (length (Asks b))
        by lia.
      replace (Z.to_nat (Z.of_nat (length (Bids b)) - 0)) with (length (Bids b))
        by lia.
      rewrite printDown_spec by lia. unfold emit. cbn [trace world].
      rewrite (printUp_spec (Bids b) (length (Bids b)) 0) by lia.
      cbn [trace world]. rewrite drop_0.
      rewrite !firstn_all2 by (unfold bookLines; rewrite length_imap; lia).
      rewrite !map_app, <- !app_assoc. reflexivity.
  - unfold printError, emit. cbn [trace world]. rewrite <- app_assoc.
    reflexivity.
Qed.

(** X19.  For every [lim] but the most negative [int], [book] of the
    flag-package variant never indexes outside the book either, but it
    prints the same number of levels on both sides: the smallest of [lim],
    the number of asks and the number of bids (none when that is not
    positive).  So a book with one side empty is printed as an empty line
    only. *)
Theorem flagset_book_prints_the_shorter_side (mkt : string) (lim : Z)
    (s : State World) :
  (minInt64 < lim <= maxInt64)%Z ->
  let lines := bookLines sprintf8 blue boldWhite in
  exists res w',
    OrderBook g mkt lim lim (world s) = (res, w')
    /\ Flagset.book g marshalBook sprintf8 blue boldWhite mkt lim false s
       = Some
           match res with
           | inr err =>
               (Exits 1,
                mkState w' (trace s ++ [CallOrderBook mkt lim lim res;
                                        PrintError err]))
           | inl b =>
               let n := Z.to_nat (Z.min lim (Z.min (len (Asks b)) (len (Bids b)))) in
               (Returns,
                mkState w'
                  (trace s ++ CallOrderBook mkt lim lim res
                     :: map Println
                          (rev (take n (lines (Asks b))) ++ [""%string]
                           ++ take n (lines (Bids b)))))
           end
    /\ (forall b, res = inl b -> Asks b = [] \/ Bids b = [] ->
        Flagset.book g marshalBook sprintf8 blue boldWhite mkt lim false s
        = Some (Returns,
                mkState w' (trace s ++ [CallOrderBook mkt lim lim res;
                                        Println ""]))).
Proof.
  intros Hlim lines. unfold Flagset.book, callOrderBook.
  destruct (OrderBook g mkt lim lim (world s)) as [[b|err] w'];
    do 2 eexists; (split; [reflexivity|]).
  - set (lim1 := if (len (Asks b) <? lim)%Z then len (Asks b) else lim).
    set (lim2 := if (len (Bids b) <? lim1)%Z then len (Bids b) else lim1).
    assert (E2 : lim2 = Z.min lim (Z.min (len (Asks b)) (len (Bids b)))).
    { unfold lim2, lim1.
      destruct (Z.ltb_spec (len (Asks b)) lim);
        [destruct (Z.ltb_spec (len (Bids b)) (len (Asks b)))
        | destruct (Z.ltb_spec (len (Bids b)) lim)]; lia. }
    assert (Ha : (Z.to_nat lim2 <= length (Asks b))%nat)
      by (rewrite E2; unfold len; lia).
    assert (Hb : (Z.to_nat lim2 <= length (Bids b))%nat)
      by (rewrite E2; unfold len; lia).
    rewrite wrapInt64_small
      by (rewrite E2; unfold len, minInt64, maxInt64 in *; lia).
    replace (Z.to_nat (lim2 - 1 + 1)) with (Z.to_nat lim2) by lia.
    replace (Z.to_nat (lim2 - 0)) with (Z.to_nat lim2) by lia.
    rewrite printDown_spec by exact Ha. unfold emit. cbn [trace world].
    rewrite (printUp_spec (Bids b) (Z.to_nat lim2) 0) by (cbn; exact Hb).
    cbn [trace world]. rewrite drop_0, <- E2.
    split.
    + rewrite !map_app, <- !app_assoc. reflexivity.
    + intros b0 [= <-] Hempty.
      assert (E0 : Z.to_nat lim2 = 0%nat).
      { destruct Hempty as [H|H]; rewrite H in *; cbn in Ha, Hb; lia. }
      rewrite E0, !take_0. cbn [rev map]. rewrite !app_nil_r, <- app_assoc.
      reflexivity.
  - split.
    + unfold emit. cbn [trace world]. rewrite <- app_assoc. reflexivity.
    + intros b0 H. discriminate H.
Qed.

(** The descending loop panics at once when it starts outside the slice. *)
Lemma printDown_outside (levels : list BookEntry) (n : nat) (s : State World) :
  (length levels <= n)%nat ->
  printDown sprintf8 blue boldWhite levels (S n) s = None.
Proof.
  intros Hn. cbn [printDown]. unfold index.
  destruct (Z.of_nat n <? 0)%Z; [reflexivity|].
  rewrite Nat2Z.id, (proj2 (nth_error_None levels n) Hn). reflexivity.
Qed.

Lemma Flagset_book_outside (mkt : string) (lim : Z) (b : Book) (w' : World)
    (s : State World) :
  OrderBook g mkt lim lim (world s) = (inl b, w') ->
  (lim <= len (Asks b))%Z ->
  (lim <= len (Bids b))%Z ->
  (len (Asks b) <= wrapInt64 (lim - 1))%Z ->
  Flagset.book g marshalBook sprintf8 blue boldWhite mkt lim false s = None.
Proof.
  intros HO Ha Hb Hout. unfold Flagset.book, callOrderBook. rewrite HO.
  apply Z.ltb_ge in Ha. rewrite Ha.
  apply Z.ltb_ge in Hb. rewrite Hb.
  assert (H0 : (0 <= wrapInt64 (lim - 1))%Z) by (unfold len in Hout; lia).
  rewrite Z.add_1_r, (Z2Nat.inj_succ _ H0), printDown_outside; [reflexivity|].
  apply Nat2Z.inj_le. rewrite (Z2Nat.id _ H0). exact Hout.
Qed.

(** X22.  At the most negative [int], [lim - 1] wraps around to the largest
    one: when the exchange answers with a book and [json] is not set, the
    flag-package variant of [book] indexes the asks far outside the slice
    and panics, having printed nothing. *)
Theorem flagset_book_panics_at_the_least_limit (mkt : string) (b : Book)
    (w' : World) (s : State World) :
  OrderBook g mkt minInt64 minInt64 (world s) = (inl b, w') ->
  (len (Asks b) <= maxInt64)%Z ->
  Flagset.book g marshalBook sprintf8 blue boldWhite mkt minInt64 false s = None.
Proof.
  intros HO Hlen.
  assert (Hneg : (minInt64 <= 0)%Z) by discriminate.
  assert (Ew : wrapInt64 (minInt64 - 1) = maxInt64) by reflexivity.
  apply (Flagset_book_outside mkt minInt64 b w' s HO).
  - unfold len. lia.
  - unfold len. lia.
  - rewrite Ew. exact Hlen.
Qed.

End Books.

(** * Scenarios, continued *)

Lemma beforeApp_needs_both_keys_witness :
  cli.Bool Demo.appLive "live" = true
  /\ Demo.liveEnv "GEMINI_API_KEY" <> ""%string
  /\ Demo.liveEnv "GEMINI_API_SECRET" <> ""%string
  /\ beforeApp Demo.liveEnv Demo.appLive Sim.start
     = (None, Some (mkClient true "key" "secret"), Sim.start)
  /\ beforeApp (fun _ => ""%string) Demo.appLive Sim.start
     = (Some ERROR_API_KEY_MISSING, None,
        printError ERROR_API_KEY_MISSING Sim.start).
Proof.
  assert (H0 : cli.Bool Demo.appLive "live" = true) by (vm_compute; reflexivity).
  assert (H1 : Demo.liveEnv "GEMINI_API_KEY" <> ""%string)
    by (vm_compute; congruence).
  assert (H2 : Demo.liveEnv "GEMINI_API_SECRET" <> ""%string)
    by (vm_compute; congruence).
  do 3 (split; [assumption|]).
  destruct (beforeApp_needs_both_keys Demo.liveEnv Demo.liveEnv Demo.appLive
              Sim.start) as (Hok & _).
  destruct (beforeApp_needs_both_keys (fun _ => ""%string) (fun _ => ""%string)
              Demo.appLive Sim.start) as (_ & Hmissing & _).
  rewrite H0 in Hok. try rewrite H0 in Hmissing.
  split; [apply Hok; split; assumption | apply Hmissing; left; reflexivity].
Defined.

Lemma limit_rejects_invalid_input_witness :
  (cli.Float64 Demo.limitNothing "amt" <= 0
   /\ cli.Float64 Demo.limitNothing "base-amt" <= 0
   /\ limit (Sim.fullFill Sim.deep) Demo.marshalOrder Demo.limitNothing Sim.start
      = (Some ERROR_INVALID_AMOUNT, printError ERROR_INVALID_AMOUNT Sim.start))
  /\ (0 < cli.Float64 Demo.limitNoPrice "amt"
      /\ cli.Float64 Demo.limitNoPrice "price" <= 0
      /\ limit (Sim.fullFill Sim.deep) Demo.marshalOrder Demo.limitNoPrice Sim.start
         = (Some ERROR_INVALID_PRICE, printError ERROR_INVALID_PRICE Sim.start)).
Proof.
  assert (H1 : cli.Float64 Demo.limitNothing "amt" <= 0)
    by (vm_compute; congruence).
  assert (H2 : cli.Float64 Demo.limitNothing "base-amt" <= 0)
    by (vm_compute; congruence).
  assert (H3 : 0 < cli.Float64 Demo.limitNoPrice "amt")
    by (vm_compute; reflexivity).
  assert (H4 : cli.Float64 Demo.limitNoPrice "price" <= 0)
    by (vm_compute; congruence).
  destruct (limit_rejects_invalid_input (Sim.fullFill Sim.deep)
              Demo.marshalOrder Demo.limitNothing Sim.start) as (Hamount & _).
  destruct (limit_rejects_invalid_input (Sim.fullFill Sim.deep)
              Demo.marshalOrder Demo.limitNoPrice Sim.start) as (_ & Hprice).
  split.
  - do 2 (split; [assumption|]). apply Hamount. split; assumption.
  - do 2 (split; [assumption|]). apply Hprice; [left|]; assumption.
Defined.

Lemma limit_places_one_order_witness :
  0 < cli.Float64 Demo.limitBuy "amt"
  /\ 0 < cli.Float64 Demo.limitBuy "price"
  /\ exists res w' out,
       limit (Sim.fullFill Sim.deep) Demo.marshalOrder Demo.limitBuy Sim.start
       = (match res with inl _ => None | inr err => Some err end,
          mkState w'
            (trace Sim.start
             ++ [CallNewOrder "btcusd" "" (round (99.75 / 50000) 8) 50000 "buy"
                   ["maker-or-cancel"%string] res; out]))
       /\ res = inl (Sim.filled "btcusd" "buy" (round (99.75 / 50000) 8) 50000).
Proof.
  assert (H1 : 0 < cli.Float64 Demo.limitBuy "amt") by (vm_compute; reflexivity).
  assert (H2 : 0 < cli.Float64 Demo.limitBuy "price") by (vm_compute; reflexivity).
  do 2 (split; [assumption|]).
  destruct (limit_places_one_order (Sim.fullFill Sim.deep) Demo.marshalOrder
              Demo.limitBuy Sim.start (or_introl H1) H2)
    as (res & w' & out & HN & HL & _).
  exists res, w', out. rewrite HL.
  vm_compute in HN. injection HN as <- <-.
  split; vm_compute; reflexivity.
Defined.

Lemma limit_notional_bound_witness :
  (0 <= 8)%Z
  /\ 0 < 99.75
  /\ 0 < 50000
  /\ 99.75 / 50000 * tenTo 8 + 0.5 < inject_Z (2 ^ 63)
  /\ limitAmount 99.75 0 50000 8 * 50000 <= 99.75 + 50000 * (0.5 / tenTo 8).
Proof.
  assert (H1 : (0 <= 8)%Z) by lia.
  assert (H2 : 0 < 99.75) by (vm_compute; reflexivity).
  assert (H3 : 0 < 50000) by (vm_compute; reflexivity).
  assert (H4 : 99.75 / 50000 * tenTo 8 + 0.5 < inject_Z (2 ^ 63))
    by (vm_compute; reflexivity).
  do 4 (split; [assumption|]).
  apply (limit_notional_bound 99.75 0 50000 8 H1 H2 H3 H4).
Defined.

Lemma market_success_means_filled_witness :
  cli.Bool Sim.buy100Unsafe "unsafe" = true
  /\ exists err l' s' evs,
       run (Sim.fullFill Sim.deep) Sim.buy100Unsafe Sim.start = Some (err, l', s')
       /\ trace s' = trace Sim.start ++ evs
       /\ err = None
       /\ ((0 < amount (setup Sim.buy100Unsafe)
            /\ amount (setup Sim.buy100Unsafe) - minAmt (setup Sim.buy100Unsafe)
               <= executedAmt l')
           \/ (0 < baseAmount (setup Sim.buy100Unsafe)
               /\ baseAmount (setup Sim.buy100Unsafe) - minAmt (setup Sim.buy100Unsafe)
                  <= executedAmt l')).
Proof.
  assert (H : cli.Bool Sim.buy100Unsafe "unsafe" = true)
    by (vm_compute; reflexivity).
  split; [exact H|].
  destruct (market_success_means_filled (Sim.fullFill Sim.deep) Sim.buy100Unsafe
              Sim.start H) as (err & l' & s' & evs & Hrun & Ht & Hfilled).
  exists err, l', s', evs.
  assert (Herr : err = None).
  { vm_compute in Hrun. injection Hrun as <- _ _. reflexivity. }
  split; [exact Hrun|]. split; [exact Ht|]. split; [exact Herr|].
  apply Hfilled, Herr.
Defined.

Lemma quote_pass_overshoot_bound_witness :
  (0 <= decimals (setup Sim.buy100Table))%Z
  /\ 0 < amount (setup Sim.buy100Table)
  /\ 0 < Price Sim.deep
  /\ 0 <= Amount Sim.deep
  /\ ExecutedAmount (Sim.filled "btcusd" "buy" 0.001995 50000)
     <= btcAmountOf (setup Sim.buy100Table) 0 Sim.deep
  /\ AvgExecutionPrice (Sim.filled "btcusd" "buy" 0.001995 50000) <= Price Sim.deep
  /\ account (amount (setup Sim.buy100Table)) 0
       (Sim.filled "btcusd" "buy" 0.001995 50000)
     <= amount (setup Sim.buy100Table)
        + Price Sim.deep * (0.5 / tenTo (decimals (setup Sim.buy100Table))).
Proof.
  assert (H1 : (0 <= decimals (setup Sim.buy100Table))%Z)
    by (vm_compute; congruence).
  assert (H2 : 0 < amount (setup Sim.buy100Table)) by (vm_compute; reflexivity).
  assert (H3 : 0 < Price Sim.deep) by (vm_compute; reflexivity).
  assert (H4 : 0 <= Amount Sim.deep) by (vm_compute; congruence).
  assert (H5 : ExecutedAmount (Sim.filled "btcusd" "buy" 0.001995 50000)
               <= btcAmountOf (setup Sim.buy100Table) 0 Sim.deep)
    by (vm_compute; congruence).
  assert (H6 : AvgExecutionPrice (Sim.filled "btcusd" "buy" 0.001995 50000)
               <= Price Sim.deep) by (vm_compute; congruence).
  do 6 (split; [assumption|]).
  apply (quote_pass_overshoot_bound (setup Sim.buy100Table) 0 Sim.deep
           (Sim.filled "btcusd" "buy" 0.001995 50000) H1 H2);
    try assumption; vm_compute; congruence.
Defined.

Lemma base_pass_overshoot_bound_witness :
  (0 <= decimals (setup Sim.baseBuy))%Z
  /\ amount (setup Sim.baseBuy) <= 0
  /\ 0 <= Amount Sim.cheap
  /\ ExecutedAmount (Sim.filled "ethbtc" "buy" 2 0.05)
     <= btcAmountOf (setup Sim.baseBuy) 0 Sim.cheap
  /\ account (amount (setup Sim.baseBuy)) 0 (Sim.filled "ethbtc" "buy" 2 0.05)
     <= baseAmount (setup Sim.baseBuy)
        + 0.5 / tenTo (decimals (setup Sim.baseBuy)).
Proof.
  assert (H1 : (0 <= decimals (setup Sim.baseBuy))%Z) by (vm_compute; congruence).
  assert (H2 : amount (setup Sim.baseBuy) <= 0) by (vm_compute; congruence).
  assert (H3 : 0 <= Amount Sim.cheap) by (vm_compute; congruence).
  assert (H4 : ExecutedAmount (Sim.filled "ethbtc" "buy" 2 0.05)
               <= btcAmountOf (setup Sim.baseBuy) 0 Sim.cheap)
    by (vm_compute; congruence).
  do 4 (split; [assumption|]).
  apply (base_pass_overshoot_bound (setup Sim.baseBuy) 0 Sim.cheap
           (Sim.filled "ethbtc" "buy" 2 0.05) H1 H2);
    try assumption; vm_compute; congruence.
Defined.

(** [market --amt 100] passes the hook and queries the book. *)
Lemma order_commands_screen_the_amounts_witness :
  beforeTransaction Sim.buy100Table Sim.start = (None, Sim.start)
  /\ exists err l' s' q evs,
       run (Sim.fullFill Sim.deep) Sim.buy100Table Sim.start = Some (err, l', s')
       /\ trace s'
          = trace Sim.start
            ++ CallOrderBook (cli.String Sim.buy100Table "mkt") 1 1 q :: evs.
Proof.
  destruct (order_commands_screen_the_amounts (Sim.fullFill Sim.deep)
              Demo.marshalOrder Sim.buy100Table Sim.start) as (_ & _ & Hone).
  destruct Hone as (Hhook & Hmarket & _).
  - left. split; vm_compute; congruence.
  - split; [exact Hhook | exact Hmarket].
Defined.

Lemma flagset_book_prints_the_shorter_side_witness :
  Flagset.book Demo.lopsidedApi Demo.marshalBook Demo.sprintf8 Demo.blue
    Demo.boldWhite "btcusd" 20 false Sim.start
  = Some (Returns,
          mkState tt
            [CallOrderBook "btcusd" 20 20 (inl Demo.lopsided);
             Println "bold:50000.00000000	1.00000000";
             Println "";
             Println "bold:50000.00000000	1.00000000"])
  /\ Flagset.book (Sim.onlyAsks Sim.deep) Demo.marshalBook Demo.sprintf8 Demo.blue
       Demo.boldWhite "btcusd" 20 false Sim.start
     = Some (Returns,
             mkState tt
               [CallOrderBook "btcusd" 20 20 (inl (mkBook [] [Sim.deep]));
                Println ""]).
Proof.
  assert (Hlim : (minInt64 < 20 <= maxInt64)%Z)
    by (unfold minInt64, maxInt64; lia).
  destruct (flagset_book_prints_the_shorter_side Demo.lopsidedApi Demo.marshalBook
              Demo.sprintf8 Demo.blue Demo.boldWhite "btcusd" 20 Sim.start Hlim)
    as (res & w' & HO & Hbook & _).
  destruct (flagset_book_prints_the_shorter_side (Sim.onlyAsks Sim.deep)
              Demo.marshalBook Demo.sprintf8 Demo.blue Demo.boldWhite "btcusd" 20
              Sim.start Hlim)
    as (res2 & w2 & HO2 & _ & Hempty).
  vm_compute in HO. injection HO as <- <-.
  vm_compute in HO2. injection HO2 as <- <-.
  split.
  - rewrite Hbook. vm_compute. reflexivity.
  - rewrite (Hempty _ eq_refl (or_intror eq_refl)). reflexivity.
Defined.

(** The panic at [gemini-cli book -lim -9223372036854775808], on a book with
    two asks and one bid. *)
Lemma flagset_book_panics_at_the_least_limit_witness :
  Flagset.book Demo.lopsidedApi Demo.marshalBook Demo.sprintf8 Demo.blue
    Demo.boldWhite "btcusd" minInt64 false Sim.start = None.
Proof.
  apply (flagset_book_panics_at_the_least_limit Demo.lopsidedApi Demo.marshalBook
           Demo.sprintf8 Demo.blue Demo.boldWhite "btcusd" Demo.lopsided tt
           Sim.start).
  - reflexivity.
  - vm_compute. congruence.
Defined.

(** ** The two variants of [market] *)

Section Variants.

Context {World : Type} (g : Api World).

Lemma Flagset_getOrderBookEntry_eq (mkt side : string) (s : State World) :
  Flagset.getOrderBookEntry g mkt side s =
  match getOrderBookEntry g mkt side s with
  | (inl bookEntry, s') => (inl bookEntry, s')
  | (inr err, s') => (inr tt, printError err s')
  end.
Proof.
  unfold Flagset.getOrderBookEntry, getOrderBookEntry, Flagset.exitWithError,
    printError, ERROR_NO_ASKS, ERROR_NO_BIDS.
  destruct (callOrderBook g mkt 1 1 s) as [[book|err] s1]; [|reflexivity].
  destruct (String.eqb side "buy");
    [destruct (Asks book) | destruct (Bids book)]; reflexivity.
Qed.

(** One pass of the two loops, side by side, for a positive quote amount, no
    base amount and the tolerance of the US dollar markets. *)
Lemma iteration_lockstep (c : cli.Context) (p : Setup) (l : Locals)
    (s : State World) :
  cli.Bool c "unsafe" = true ->
  0 < amount p ->
  baseAmount p <= 0 ->
  minAmt p = 0.01 ->
  Flagset.iteration g (mkt p) (side p) (decimals p) (amount p)
    (cli.Bool c "json") l s
  = match iteration g c p l s with
    | (Return err, l', s') => (Flagset.Stop (Flagset.endingOf err), l', s')
    | (Continue, l', s') => (Flagset.Again, l', s')
    end.
Proof.
  intros Hunsafe Hamt Hbase Hmin.
  apply ltb_lt in Hamt. apply ltb_ge in Hbase.
  unfold Flagset.iteration, iteration.
  destruct (Z.eqb (retries l) RETRIES_MAX); [reflexivity|].
  rewrite Flagset_getOrderBookEntry_eq.
  destruct (getOrderBookEntry g (mkt p) (side p) s) as [[bookEntry|err] s1];
    [|reflexivity].
  unfold btcAmountOf, fillAmountOf, target, rawSlice, clamp, account, satisfied.
  rewrite Hunsafe, Hamt, Hbase, Hmin. cbn [Bool.eqb andb orb].
  match goal with
  | |- context [callNewOrder g ?a ?b ?x ?y ?z ?o ?st] =>
      destruct (callNewOrder g a b x y z o st) as [[order|err] s2]
  end; [|reflexivity].
  rewrite orb_false_r.
  destruct (cli.Bool c "json");
    match goal with
    | |- context [GoNum.leb ?x ?y] => destruct (GoNum.leb x y)
    end; reflexivity.
Qed.

Lemma sweep_lockstep (c : cli.Context) (p : Setup) :
  cli.Bool c "unsafe" = true ->
  0 < amount p ->
  baseAmount p <= 0 ->
  minAmt p = 0.01 ->
  forall fuel l (s : State World),
    Flagset.sweep g fuel (mkt p) (side p) (decimals p) (amount p)
      (cli.Bool c "json") l s
    = match sweep g fuel c p l s with
      | Some (err, l', s') => Some (Flagset.endingOf err, l', s')
      | None => None
      end.
Proof.
  intros Hunsafe Hamt Hbase Hmin.
  induction fuel as [|fuel IH]; intros l s; [reflexivity|].
  cbn [Flagset.sweep sweep].
  rewrite (iteration_lockstep c p l s Hunsafe Hamt Hbase Hmin).
  destruct (iteration g c p l s) as [[[err|] l1] s1]; [reflexivity|].
  apply IH.
Qed.

(** X20.  The two variants of [market] agree on the US dollar markets: for a
    positive quote amount whose fee-adjusted value is positive, no base
    amount, and [c.Bool("unsafe")] true, the command of the flag-package
    variant called with the values of the flags makes the same calls and
    prints in the same order as the urfave/cli variant, ends with the same
    locals, and exits with code 1 exactly where the other returns an error;
    and both end. *)
Theorem market_variants_agree (c : cli.Context) (s : State World) :
  cli.Bool c "unsafe" = true ->
  cli.String c "mkt" = "btcusd" \/ cli.String c "mkt" = "ethusd" ->
  0 < cli.Float64 c "amt" ->
  cli.Float64 c "base-amt" <= 0 ->
  0 < amount (setup c) ->
  exists err l' s',
    run g c s = Some (err, l', s')
    /\ Flagset.market g (cli.String c "mkt") (cli.String c "side")
         (cli.Float64 c "amt") (cli.Int c "bps") (cli.Bool c "json") s
       = Some (Flagset.endingOf err, l', s').
Proof.
  intros Hunsafe Hmkt Hamt Hbase Hadj.
  destruct (run_returns g c s) as [[[err l'] s'] Hrun].
  exists err, l', s'. split; [exact Hrun|].
  assert (Hmin : minAmt (setup c) = 0.01).
  { cbn [setup minAmt]. unfold minAmtOf.
    apply ltb_lt in Hamt. apply ltb_ge in Hbase. rewrite Hamt, Hbase.
    destruct Hmkt as [-> | ->]; reflexivity. }
  pose proof (sweep_lockstep c (setup c) Hunsafe Hadj Hbase Hmin passes entry s)
    as Hsw.
  unfold run in Hrun. unfold Flagset.market.
  apply leb_gt in Hamt. rewrite Hamt in Hrun |- *. cbn [andb] in Hrun.
  cbn [setup mkt side decimals amount] in Hsw. unfold feeAdjust in Hsw.
  destruct (String.eqb (cli.String c "side") "buy");
    rewrite Hsw, Hrun; reflexivity.
Qed.

Lemma Flagset_sweep_ends (mkt side : string) (decimals : Z) (amount : Q)
    (useJson : bool) :
  forall fuel l (s : State World),
    (0 <= retries l <= RETRIES_MAX)%Z ->
    (Z.to_nat (RETRIES_MAX - retries l) < fuel)%nat ->
    exists ending l' s' evs,
      Flagset.sweep g fuel mkt side decimals amount useJson l s
        = Some (ending, l', s')
      /\ trace s' = trace s ++ evs
      /\ (Z.of_nat (length (submitted evs)) <= RETRIES_MAX - retries l)%Z
      /\ (ending = Returns -> amount - 0.01 <= executedAmt l')
      /\ (ending <> Returns ->
          ending = Exits 1 /\ exists pre err, evs = pre ++ [PrintError err]).
Proof.
  induction fuel as [|fuel IH]; intros l s Hr Hf; [lia|].
  cbn [Flagset.sweep]. unfold Flagset.iteration.
  destruct (Z.eqb (retries l) RETRIES_MAX) eqn:Hmax.
  { do 4 eexists. split; [reflexivity|]. split; [reflexivity|].
    cbn [submitted length]. split; [lia|]. split; [discriminate|].
    intros _. split; [reflexivity|]. exists [], "Max retries"%string. reflexivity. }
  apply Z.eqb_neq in Hmax.
  rewrite Flagset_getOrderBookEntry_eq.
  destruct (getOrderBookEntry g mkt side s) as [[bookEntry|err] s1] eqn:Hq;
    apply getOrderBookEntry_inv in Hq as (q & Hq & _).
  2:{ do 4 eexists. split; [reflexivity|]. split.
      { cbn [printError emit trace]. rewrite Hq, <- app_assoc. reflexivity. }
      cbn [submitted length app]. split; [lia|]. split; [discriminate|].
      intros _. split; [reflexivity|]. eexists [_], err. reflexivity. }
  match goal with
  | |- context [callNewOrder g ?a ?b ?x ?y ?z ?o ?st] =>
      destruct (callNewOrder g a b x y z o st) as [[order|err] s2] eqn:Hn;
      apply callNewOrder_inv in Hn as (Hn & _)
  end.
  2:{ do 4 eexists. split; [reflexivity|]. split.
      { unfold Flagset.exitWithError. cbn [emit trace].
        rewrite Hn, Hq, <- !app_assoc. reflexivity. }
      rewrite !submitted_app. cbn [submitted length app].
      split; [lia|]. split; [discriminate|].
      intros _. split; [reflexivity|]. eexists [_; _], err. reflexivity. }
  set (acc := executedAmt l + ExecutedAmount order * AvgExecutionPrice order).
  destruct (GoNum.leb (amount - 0.01) acc) eqn:Hdone.
  { apply leb_le in Hdone.
    destruct useJson; do 4 eexists;
      (split; [reflexivity|]); cbn [emit printOrder trace];
      (split; [rewrite Hn, Hq, <- !app_assoc; reflexivity|]);
      rewrite !submitted_app; cbn [submitted length app executedAmt];
      (split; [lia|]); (split; [intros _; exact Hdone|]);
      intros Hne; exfalso; apply Hne; reflexivity. }
  assert (E : wrapInt64 (retries l + 1) = (retries l + 1)%Z).
  { apply wrapInt64_small. unfold RETRIES_MAX, minInt64, maxInt64 in *. lia. }
  destruct useJson;
    match goal with
    | |- context [Flagset.sweep g fuel mkt side decimals amount ?j ?l1 ?s3] =>
        destruct (IH l1 s3) as (ending & l' & s' & evs & Hsw & Ht & Hn' & Hret & Hexit);
        [ cbn [retries]; rewrite E; lia
        | cbn [retries]; rewrite E; unfold RETRIES_MAX in *; lia
        | cbn [retries] in Hn'; rewrite E in Hn';
          cbn [emit printOrder trace] in Ht;
          rewrite Hn, Hq, <- !app_assoc in Ht;
          exists ending, l', s'; eexists;
          split; [exact Hsw|]; split; [exact Ht|];
          rewrite !submitted_app; cbn [submitted length app];
          rewrite ?submitted_app; cbn [submitted length app];
          split; [lia|]; split; [exact Hret|];
          intros Hne; destruct (Hexit Hne) as (He & pre & err & Hevs);
          split; [exact He|];
          rewrite Hevs, !app_comm_cons; eexists _, err; reflexivity ]
    end.
Qed.

(** X21.  The flag-package variant of [market] has no [unsafe] guard, and
    it always ends, after at most 50 order submissions: either it returns,
    and then the amount was positive and the quote value executed is within
    0.01 of the fee-adjusted amount or above it; or the process exits with
    code 1 and the last thing it did was to print an error. *)
Theorem flagset_market_ends (mkt side : string) (amount : Q) (bps : Z)
    (useJson : bool) (s : State World) :
  exists ending l' s' evs,
    Flagset.market g mkt side amount bps useJson s = Some (ending, l', s')
    /\ trace s' = trace s ++ evs
    /\ (length (submitted evs) <= 50)%nat
    /\ (ending = Returns ->
        0 < amount
        /\ feeAdjust side amount (getFeeRatio bps) - 0.01 <= executedAmt l')
    /\ (ending <> Returns ->
        ending = Exits 1 /\ exists pre err, evs = pre ++ [PrintError err]).
Proof.
  unfold Flagset.market.
  destruct (GoNum.leb amount 0) eqn:Hamt.
  - do 4 eexists. split; [reflexivity|]. split; [reflexivity|].
    cbn [submitted length]. split; [lia|]. split; [discriminate|].
    intros _. split; [reflexivity|]. eexists [], _. reflexivity.
  - apply leb_gt in Hamt.
    destruct (Flagset_sweep_ends mkt side (decimalsOf mkt)
                (feeAdjust side amount (getFeeRatio bps)) useJson passes entry s)
      as (ending & l' & s' & evs & Hsw & Ht & Hn & Hret & Hexit).
    { cbn [entry retries]. unfold RETRIES_MAX. lia. }
    { cbn [entry retries]. unfold passes, RETRIES_MAX. lia. }
    exists ending, l', s', evs. unfold feeAdjust in Hsw.
    split; [destruct (String.eqb side "buy"); exact Hsw|].
    split; [exact Ht|].
    cbn [entry retries] in Hn. unfold RETRIES_MAX in Hn.
    split; [lia|]. split; [|exact Hexit].
    intros He. split; [exact Hamt | exact (Hret He)].
Qed.

End Variants.

(** The agreement at [market --mkt btcusd --side buy --amt 100 --bps 25] with
    [unsafe] set, on an exchange that fills every order in full. *)
Lemma market_variants_agree_witness :
  exists err l' s',
    run (Sim.fullFill Sim.deep) Sim.buy100Unsafe Sim.start = Some (err, l', s')
    /\ Flagset.market (Sim.fullFill Sim.deep)
         (cli.String Sim.buy100Unsafe "mkt") (cli.String Sim.buy100Unsafe "side")
         (cli.Float64 Sim.buy100Unsafe "amt") (cli.Int Sim.buy100Unsafe "bps")
         (cli.Bool Sim.buy100Unsafe "json") Sim.start
       = Some (Flagset.endingOf err, l', s').
Proof.
  apply (market_variants_agree (Sim.fullFill Sim.deep) Sim.buy100Unsafe Sim.start).
  - vm_compute. reflexivity.
  - left. vm_compute. reflexivity.
  - vm_compute. reflexivity.
  - vm_compute. congruence.
  - vm_compute. reflexivity.
Defined.
